(** * WordPress-to-Hugo migration script ([migrate.py]): model and properties

    A shallow embedding of [migrate.py].  Python [str] values are lists of
    characters; the character classes the script relies on ([\d] in its
    regular expressions, the whitespace of [str.strip]) are those of the
    ASCII range, and a character outside it (a byte of a UTF-8 sequence
    such as the en dash of the site-name suffix) is an ordinary character
    that belongs to none of them.  The title case of [str.title] is
    written out for ASCII texts, and is an interface for the others.

    The HTML parser, the date library and the file system are not part of
    the script: a document is the tree the parser built, the date library
    is an interface, and the file system is the list of the files written.
    A read or a write that fails ends the script with a traceback; the
    model follows the runs in which none does. *)

From Stdlib Require Import List Ascii Bool Arith Lia.
From Stdlib Require Import Strings.Byte.
From Stdlib Require Strings.String Numbers.DecimalString.
Import ListNotations.

Set Implicit Arguments.

(** ** Python strings *)

Definition str : Type := list ascii.

(** String literals for [str]: a literal stands for the list of its bytes. *)
Inductive literal : Set := LNil | LCons (c : ascii) (l : literal).

Fixpoint literal_of_bytes (l : list Byte.byte) : literal :=
  match l with
  | [] => LNil
  | b :: l' => LCons (ascii_of_byte b) (literal_of_bytes l')
  end.

Fixpoint bytes_of_literal (l : literal) : list Byte.byte :=
  match l with
  | LNil => []
  | LCons c l' => byte_of_ascii c :: bytes_of_literal l'
  end.

Declare Scope str_scope.
Delimit Scope str_scope with str.
#[warnings="-via-type-mismatch,-via-type-remapping"] String Notation str literal_of_bytes bytes_of_literal
  (via literal mapping [[nil] => LNil, [cons] => LCons]) : str_scope.
Bind Scope str_scope with str.
Open Scope str_scope.
Open Scope list_scope.

(** Characters that a literal cannot hold conveniently. *)
Definition dquote : ascii := ascii_of_nat 34.
Definition backslash : ascii := ascii_of_nat 92.
Definition newline : ascii := ascii_of_nat 10.

(** ** The letters beyond ASCII

    [str.title] follows the tables of Unicode.  On a text of ASCII
    characters it is the function written below; on any other text it is
    what the tables say, which the model leaves open:
    [title_beyond_ascii s] stands for [s.title()] there. *)
Class Unicode : Type := { title_beyond_ascii : str -> str }.

Module Py.

(** [a == b] on strings. *)
Fixpoint eqb (a b : str) : bool :=
  match a, b with
  | [], [] => true
  | x :: a', y :: b' => Ascii.eqb x y && eqb a' b'
  | _, _ => false
  end.

(** [s.startswith(p)]. *)
Fixpoint startswith (p s : str) : bool :=
  match p, s with
  | [], _ => true
  | x :: p', y :: s' => Ascii.eqb x y && startswith p' s'
  | _ :: _, [] => false
  end.

(** [s.endswith(p)]. *)
Definition endswith (p s : str) : bool := startswith (rev p) (rev s).

(** [p in s] for strings. *)
Fixpoint contains (p s : str) : bool :=
  startswith p s || match s with [] => false | _ :: s' => contains p s' end.

(** [str.isspace] of one character, on the ASCII range:
    tab, line feed, vertical tab, form feed, carriage return, the four
    separators 0x1c-0x1f and the space. *)
Definition isspace (c : ascii) : bool :=
  let n := nat_of_ascii c in
  ((9 <=? n) && (n <=? 13)) || ((28 <=? n) && (n <=? 32)).

Fixpoint lstrip (s : str) : str :=
  match s with
  | c :: s' => if isspace c then lstrip s' else s
  | [] => []
  end.

Definition rstrip (s : str) : str := rev (lstrip (rev s)).

(** [s.strip()]. *)
Definition strip (s : str) : str := rstrip (lstrip s).

(** [s.replace(old, new)] for a non-empty [old]: occurrences are replaced
    from the left and do not overlap.  [skip] counts the characters of a
    replaced occurrence that are still to be passed over. *)
Fixpoint replace_from (old new : str) (skip : nat) (s : str) : str :=
  match s with
  | [] => []
  | c :: s' =>
      match skip with
      | S k => replace_from old new k s'
      | O => if startswith old s
             then new ++ replace_from old new (length old - 1) s'
             else c :: replace_from old new 0 s'
      end
  end.

Definition replace (old new s : str) : str := replace_from old new 0 s.

(** [s.split(sep)] for a one-character separator: [cur] is the segment
    being read, reversed. *)
Fixpoint split_from (sep : ascii) (cur : str) (s : str) : list str :=
  match s with
  | [] => [rev cur]
  | c :: s' => if Ascii.eqb c sep
               then rev cur :: split_from sep [] s'
               else split_from sep (c :: cur) s'
  end.

Definition split (sep : ascii) (s : str) : list str := split_from sep [] s.

(** [sep.join(l)]. *)
Fixpoint join (sep : str) (l : list str) : str :=
  match l with
  | [] => []
  | [x] => x
  | x :: l' => x ++ sep ++ join sep l'
  end.

Definition isupper (c : ascii) : bool :=
  let n := nat_of_ascii c in (65 <=? n) && (n <=? 90).
Definition islower (c : ascii) : bool :=
  let n := nat_of_ascii c in (97 <=? n) && (n <=? 122).
Definition iscased (c : ascii) : bool := isupper c || islower c.
Definition upper (c : ascii) : ascii :=
  if islower c then ascii_of_nat (nat_of_ascii c - 32) else c.
Definition lower (c : ascii) : ascii :=
  if isupper c then ascii_of_nat (nat_of_ascii c + 32) else c.

(** [s.isascii()]. *)
Definition isascii (s : str) : bool :=
  forallb (fun c => nat_of_ascii c <? 128) s.

(** [s.title()] on a text of ASCII characters: a character that follows a
    cased character is lowered, every other character is raised. *)
Fixpoint title_from (previous_is_cased : bool) (s : str) : str :=
  match s with
  | [] => []
  | c :: s' => (if previous_is_cased then lower c else upper c)
                 :: title_from (iscased c) s'
  end.

(** [s.title()]. *)
Definition title {u : Unicode} (s : str) : str :=
  if isascii s then title_from false s else title_beyond_ascii s.

(** [l[-k]] for [1 <= k <= len(l)]. *)
Definition nth_last (k : nat) (l : list str) : str :=
  nth (length l - k) l [].

End Py.

(** ** The regular expressions of the script *)

Module Re.

(** [\d], on the ASCII range. *)
Definition isdigit (c : ascii) : bool :=
  let n := nat_of_ascii c in (48 <=? n) && (n <=? 57).

(** [re.search]: the match at the leftmost position where the pattern,
    given as its anchored matcher [here], matches. *)
Fixpoint search (A : Type) (here : str -> option A) (s : str) : option A :=
  match here s with
  | Some r => Some r
  | None => match s with
            | [] => None
            | _ :: s' => search here s'
            end
  end.

(** [/(\d{4})/] matched at the start of [s]: group 1. *)
Definition year_here (s : str) : option str :=
  match s with
  | c0 :: d1 :: d2 :: d3 :: d4 :: c5 :: _ =>
      if Ascii.eqb c0 "/" && isdigit d1 && isdigit d2 && isdigit d3
         && isdigit d4 && Ascii.eqb c5 "/"
      then Some [d1; d2; d3; d4] else None
  | _ => None
  end.

(** [/(\d{4})/(\d{2})/] matched at the start of [s]: groups 1 and 2. *)
Definition year_month_here (s : str) : option (str * str) :=
  match s with
  | c0 :: d1 :: d2 :: d3 :: d4 :: c5 :: m1 :: m2 :: c8 :: _ =>
      if Ascii.eqb c0 "/" && isdigit d1 && isdigit d2 && isdigit d3
         && isdigit d4 && Ascii.eqb c5 "/" && isdigit m1 && isdigit m2
         && Ascii.eqb c8 "/"
      then Some ([d1; d2; d3; d4], [m1; m2]) else None
  | _ => None
  end.

(** [re.search(r'/(\d{4})/', s)]. *)
Definition search_year (s : str) : option str := search year_here s.

(** [re.search(r'/(\d{4})/(\d{2})/', s)]. *)
Definition search_year_month (s : str) : option (str * str) :=
  search year_month_here s.

(** [re.match(r'\d{4}', s)] as a truth value: the pattern is anchored at
    the start only. *)
Definition match_4digits (s : str) : bool :=
  match s with
  | d1 :: d2 :: d3 :: d4 :: _ =>
      isdigit d1 && isdigit d2 && isdigit d3 && isdigit d4
  | _ => false
  end.

(** [s] cut at its first [c]: what precedes it and what follows it. *)
Fixpoint cut (c : ascii) (s : str) : option (str * str) :=
  match s with
  | [] => None
  | x :: s' => if Ascii.eqb x c then Some ([], s')
               else match cut c s' with
                    | Some (u, v) => Some (x :: u, v)
                    | None => None
                    end
  end.

Definition class_entry_content : str :=
  "class=" ++ [dquote] ++ "entry-content" ++ [dquote].

(** [re.sub(r'^<div[^>]*class="entry-content"[^>]*>', '', s)].  Neither
    [[^>]*] nor the literals can pass a [>], so a match ends at the first
    [>] that follows [<div], and there is one exactly when the attribute
    text occurs before that [>]. *)
Definition sub_open_wrapper (s : str) : str :=
  if Py.startswith "<div" s then
    match cut ">" (skipn 4 s) with
    | Some (u, rest) => if Py.contains class_entry_content u then rest else s
    | None => s
    end
  else s.

(** [re.sub(r'</div>$', '', s)]: [$] matches at the end of the string and
    before a line feed that ends it. *)
Definition sub_close_div (s : str) : str :=
  if Py.endswith "</div>" s then firstn (length s - 6) s
  else if Py.endswith ("</div>" ++ [newline]) s
       then firstn (length s - 7) s ++ [newline]
       else s.

End Re.

(** ** Parsed documents

    The tree that [BeautifulSoup(html, 'html.parser')] builds, with the
    queries the script makes on it. *)

Module Bs4.

(** The value of an attribute: a string, or the list of the
    whitespace-separated items of a multi-valued attribute such as
    [class]. *)
Inductive attr_value : Type :=
| AStr (s : str)
| AList (l : list str).

(** A node: a string of ordinary text, the text inside a [script] or
    [style] element, a comment, or an element with its attributes in
    source order and its children. *)
#[warnings="-register-all"] Inductive node : Type :=
| Text (s : str)
| Raw (s : str)
| Comment (s : str)
| Elem (name : str) (attrs : list (str * attr_value)) (children : list node).

(** The [BeautifulSoup] object: the top-level nodes of the document. *)
Definition soup : Type := list node.

Definition children (n : node) : list node :=
  match n with
  | Elem _ _ kids => kids
  | _ => []
  end.

(** [tag.get(key)]. *)
Fixpoint lookup (key : str) (attrs : list (str * attr_value))
  : option attr_value :=
  match attrs with
  | [] => None
  | (k, v) :: attrs' => if Py.eqb k key then Some v else lookup key attrs'
  end.

(** [tag.get('class', [])].  The parser builds the value of [class] as a
    list; a string there is a class list of one item. *)
Definition get_class (n : node) : list str :=
  match n with
  | Elem _ attrs _ =>
      match lookup "class" attrs with
      | Some (AList l) => l
      | Some (AStr s) => [s]
      | None => []
      end
  | _ => []
  end.

(** [tag.get(key)] for an attribute read as a string. *)
Definition get_attr (key : str) (n : node) : option str :=
  match n with
  | Elem _ attrs _ =>
      match lookup key attrs with
      | Some (AStr s) => Some s
      | Some (AList l) => Some (Py.join " " l)
      | None => None
      end
  | _ => None
  end.

(** An element of the given name. *)
Definition is_tag (name : str) (n : node) : bool :=
  match n with
  | Elem nm _ _ => Py.eqb nm name
  | _ => false
  end.

(** An element of the given name that carries the class [cls]
    ([find(name, class_=cls)] tests membership in the class list). *)
Definition is_tag_class (name cls : str) (n : node) : bool :=
  is_tag name n && existsb (Py.eqb cls) (get_class n).

(** The first node, in document order, among [n] and its descendants that
    satisfies [p]. *)
Fixpoint find_node (p : node -> bool) (n : node) : option node :=
  if p n then Some n
  else match n with
       | Elem _ _ kids =>
           (fix find_list (l : list node) : option node :=
              match l with
              | [] => None
              | k :: l' => match find_node p k with
                           | Some r => Some r
                           | None => find_list l'
                           end
              end) kids
       | _ => None
       end.

(** [x.find(...)]: the first descendant of [x], whose children are [l],
    that satisfies [p]. *)
Fixpoint find (p : node -> bool) (l : list node) : option node :=
  match l with
  | [] => None
  | k :: l' => match find_node p k with
               | Some r => Some r
               | None => find p l'
               end
  end.

(** The place of a node in a tree: the indices of the children to follow
    from the top.  A variable that holds a tag is such a place, read in
    the tree as it is at the time of the read. *)
Definition place : Type := list nat.

(** The place of a node of a list, seen from the list that has one more
    item in front. *)
Definition bump (pl : place) : place :=
  match pl with
  | [] => []
  | i :: r => S i :: r
  end.

Fixpoint place_node (p : node -> bool) (n : node) : option place :=
  if p n then Some []
  else match n with
       | Elem _ _ kids =>
           (fix place_list (l : list node) : option place :=
              match l with
              | [] => None
              | k :: l' => match place_node p k with
                           | Some r => Some (0 :: r)
                           | None => option_map bump (place_list l')
                           end
              end) kids
       | _ => None
       end.

(** The place of [find p l]. *)
Fixpoint find_place (p : node -> bool) (l : list node) : option place :=
  match l with
  | [] => None
  | k :: l' => match place_node p k with
               | Some r => Some (0 :: r)
               | None => option_map bump (find_place p l')
               end
  end.

(** The node at a place. *)
Fixpoint at_place (l : list node) (pl : place) : option node :=
  match pl with
  | [] => None
  | i :: pl' =>
      match nth_error l i with
      | Some n => match pl' with
                  | [] => Some n
                  | _ :: _ => at_place (children n) pl'
                  end
      | None => None
      end
  end.

(** The [i]-th item of a list replaced. *)
Fixpoint set_nth (A : Type) (i : nat) (x : A) (l : list A) : list A :=
  match l, i with
  | [], _ => []
  | _ :: l', O => x :: l'
  | y :: l', S j => y :: set_nth j x l'
  end.

(** The tree with the node at a place replaced. *)
Fixpoint put_place (l : list node) (pl : place) (x : node) : list node :=
  match pl with
  | [] => l
  | i :: pl' =>
      match pl' with
      | [] => set_nth i x l
      | _ :: _ =>
          match nth_error l i with
          | Some (Elem nm attrs kids) =>
              set_nth i (Elem nm attrs (put_place kids pl' x)) l
          | _ => l
          end
      end
  end.

(** The effect of [for e in x.find_all(names): e.decompose()] on the
    children of [x]: every descendant element that satisfies [p] leaves
    the tree with all that it contains.  [clean_node] does so below a
    node that stays. *)
Fixpoint clean_node (p : node -> bool) (n : node) : node :=
  match n with
  | Elem nm attrs kids =>
      Elem nm attrs
        ((fix clean_list (ks : list node) : list node :=
            match ks with
            | [] => []
            | k :: ks' => if p k then clean_list ks'
                          else clean_node p k :: clean_list ks'
            end) kids)
  | _ => n
  end.

Fixpoint decompose_all (p : node -> bool) (l : list node) : list node :=
  match l with
  | [] => []
  | k :: l' => if p k then decompose_all p l'
               else clean_node p k :: decompose_all p l'
  end.

(** [tag.get_text()]: the ordinary text of the descendants, in document
    order; comments and the text of [script] and [style] elements are not
    part of it. *)
Fixpoint node_text (n : node) : str :=
  match n with
  | Text s => s
  | Raw _ => []
  | Comment _ => []
  | Elem _ _ kids =>
      (fix list_text (l : list node) : str :=
         match l with
         | [] => []
         | k :: l' => node_text k ++ list_text l'
         end) kids
  end.

Definition get_text (n : node) : str := node_text n.

(** Output: the entity substitution of the default formatter ([&], [<] and
    [>]), in text and in attribute values. *)
Definition escape_char (c : ascii) : str :=
  if Ascii.eqb c "&" then "&amp;"
  else if Ascii.eqb c "<" then "&lt;"
  else if Ascii.eqb c ">" then "&gt;"
  else [c].

Definition escape (s : str) : str := flat_map escape_char s.

(** An attribute value between quotes: double quotes, unless the value holds
    a double quote and no single quote; a double quote that stays inside
    double quotes becomes [&quot;]. *)
Definition quoted_attribute_value (v : str) : str :=
  if existsb (Ascii.eqb dquote) v then
    if existsb (Ascii.eqb "'") v
    then [dquote] ++ Py.replace [dquote] "&quot;" v ++ [dquote]
    else "'" ++ v ++ "'"
  else [dquote] ++ v ++ [dquote].

Definition attr_text (v : attr_value) : str :=
  match v with
  | AStr s => s
  | AList l => Py.join " " l
  end.

Definition attr_html (kv : str * attr_value) : str :=
  " " ++ fst kv ++ "=" ++ quoted_attribute_value (escape (attr_text (snd kv))).

Definition attrs_html (attrs : list (str * attr_value)) : str :=
  flat_map attr_html attrs.

(** The elements written [<name/>] when they have no content. *)
Definition empty_element_tags : list str :=
  [ "area"; "base"; "br"; "col"; "embed"; "hr"; "img"; "input"; "keygen";
    "link"; "menuitem"; "meta"; "param"; "source"; "track"; "wbr";
    "basefont"; "bgsound"; "command"; "frame"; "image"; "isindex"; "nextid";
    "spacer" ].

Definition is_nil (A : Type) (l : list A) : bool :=
  match l with [] => true | _ => false end.

(** [str(tag)]. *)
Fixpoint to_html (n : node) : str :=
  match n with
  | Text s => escape s
  | Raw s => s
  | Comment s => "<!--" ++ s ++ "-->"
  | Elem nm attrs kids =>
      if is_nil kids && existsb (Py.eqb nm) empty_element_tags
      then "<" ++ nm ++ attrs_html attrs ++ "/>"
      else "<" ++ nm ++ attrs_html attrs ++ ">"
           ++ (fix list_html (l : list node) : str :=
                 match l with
                 | [] => []
                 | k :: l' => to_html k ++ list_html l'
                 end) kids
           ++ "</" ++ nm ++ ">"
  end.

(** The markup of a list of nodes, one after the other. *)
Fixpoint inner_html (l : list node) : str :=
  match l with
  | [] => []
  | k :: l' => to_html k ++ inner_html l'
  end.

End Bs4.

(** ** The library functions on paths and numbers *)

Module Os.

(** [p[p.rfind('/') + 1:]] and [p[:p.rfind('/') + 1]]. *)
Fixpoint take_until_slash (s : str) : str :=
  match s with
  | [] => []
  | c :: s' => if Ascii.eqb c "/" then [] else c :: take_until_slash s'
  end.

Fixpoint drop_until_slash (s : str) : str :=
  match s with
  | [] => []
  | c :: s' => if Ascii.eqb c "/" then s else drop_until_slash s'
  end.

Fixpoint drop_slashes (s : str) : str :=
  match s with
  | [] => []
  | c :: s' => if Ascii.eqb c "/" then drop_slashes s' else s
  end.

(** [os.path.basename]. *)
Definition basename (p : str) : str := rev (take_until_slash (rev p)).

(** [os.path.dirname]: the head up to the last slash, without its trailing
    slashes unless it is made of slashes only. *)
Definition dirname (p : str) : str :=
  let head := rev (drop_until_slash (rev p)) in
  if Bs4.is_nil head || forallb (Ascii.eqb "/") head then head
  else rev (drop_slashes (rev head)).

(** [a / b] on [pathlib] paths whose text is already in normal form. *)
Definition join (a b : str) : str := a ++ "/" ++ b.


End Os.

(** ** The date library

    [isoformat s] stands for
    [datetime.fromisoformat(s).strftime('%Y-%m-%dT%H:%M:%S%z')], and is
    [None] when [fromisoformat] raises [ValueError]. *)
Class Datetime : Type := { isoformat : str -> option str }.

(** ** The script *)

(** The metadata dictionary.  [title], [date] and [slug] are set on every
    path of [extract_post_metadata]; the other keys may be absent. *)
Record metadata : Type := {
  title : str;
  date : str;
  slug : str;
  categories : option (list str);
  tags : option (list str);
  type : option str
}.

(** What the script reads: the result of [wp_dir.glob('**/index.html')],
    the files and directories that exist, and the document that
    [BeautifulSoup(open(f).read(), 'html.parser')] builds for a file. *)
Record export : Type := {
  glob_index_html : list str;
  path_exists : str -> bool;
  document : str -> Bs4.soup
}.

(** What the script produces: the files written, as (path, text) in the
    order of the writes, and the lines printed. *)
Record output : Type := {
  written : list (str * str);
  console : list str
}.

Definition print (line : str) (o : output) : output :=
  {| written := written o; console := console o ++ [line] |}.

Definition write_file (path text : str) (o : output) : output :=
  {| written := written o ++ [(path, text)]; console := console o |}.

Definition clean_slug (path_parts : list str) : str :=
  if 1 <? length path_parts then Py.nth_last 2 path_parts else "index".

Definition site_suffix : str := " – Adam Wulf".

(** One turn of the loop over the class list of the [article] element. *)
Definition classify {u : Unicode} (acc : list str * list str) (cls : str)
  : list str * list str :=
  let (categories, tags) := acc in
  if Py.startswith "category-" cls
     && negb (Py.eqb cls "category-uncategorized")
  then (categories
          ++ [Py.title (Py.replace "-" " " (Py.replace "category-" [] cls))],
        tags)
  else if Py.startswith "tag-" cls
  then (categories,
        tags ++ [Py.title (Py.replace "-" " " (Py.replace "tag-" [] cls))])
  else (categories, tags).

(** [metadata[key] = l] under [if l:]. *)
Definition if_nonempty (l : list str) : option (list str) :=
  match l with
  | [] => None
  | _ => Some l
  end.

Section Migrate.

Context {dt : Datetime} {u : Unicode}.

Definition extract_post_metadata (soup : Bs4.soup) (file_path : str)
  : metadata :=
  let title :=
    match Bs4.find (Bs4.is_tag_class "h1" "entry-title") soup with
    | Some title_elem => Py.strip (Bs4.get_text title_elem)
    | None =>
        match Bs4.find (Bs4.is_tag "title") soup with
        | Some title_elem =>
            Py.strip (Py.replace site_suffix [] (Bs4.get_text title_elem))
        | None => "Untitled"
        end
    end in
  let date :=
    match Bs4.find (Bs4.is_tag_class "time" "entry-date") soup with
    | Some date_elem =>
        match Bs4.get_attr "datetime" date_elem with
        | Some date_str =>
            if Bs4.is_nil date_str
            then Py.strip (Bs4.get_text date_elem)
            else match isoformat (Py.replace "Z" "+00:00" date_str) with
                 | Some formatted => formatted
                 | None => Py.strip (Bs4.get_text date_elem)
                 end
        | None => Py.strip (Bs4.get_text date_elem)
        end
    | None =>
        match Re.search_year file_path, Re.search_year_month file_path with
        | Some year_group1, Some (month_group1, _) =>
            let year := year_group1 in
            let month := month_group1 in
            year ++ "-" ++ month ++ "-01T00:00:00+00:00"
        | _, _ => "2008-01-01T00:00:00+00:00"
        end
    end in
  let taxonomy :=
    match Bs4.find (Bs4.is_tag "article") soup with
    | Some article_elem =>
        let (categories, tags) :=
          fold_left classify (Bs4.get_class article_elem) ([], []) in
        (if_nonempty categories, if_nonempty tags)
    | None => (None, None)
    end in
  let path_parts := Py.split "/" file_path in
  {| title := title;
     date := date;
     slug := clean_slug path_parts;
     categories := fst taxonomy;
     tags := snd taxonomy;
     type := None |}.

(** The elements that [extract_post_content] removes. *)
Definition unwanted (n : Bs4.node) : bool :=
  Bs4.is_tag "script" n || Bs4.is_tag "noscript" n.

(** [extract_post_content] changes the document it is given: the result is
    the content and the document as the call leaves it. *)
Definition extract_post_content (soup : Bs4.soup) : str * Bs4.soup :=
  match Bs4.find (Bs4.is_tag_class "div" "entry-content") soup with
  | Some (Bs4.Elem nm attrs kids) =>
      let content_elem :=
        Bs4.Elem nm attrs (Bs4.decompose_all unwanted kids) in
      let soup' :=
        match Bs4.find_place (Bs4.is_tag_class "div" "entry-content") soup with
        | Some pl => Bs4.put_place soup pl content_elem
        | None => soup
        end in
      let content_html := Bs4.to_html content_elem in
      let content_html := Re.sub_open_wrapper content_html in
      let content_html := Re.sub_close_div (Py.rstrip content_html) in
      (Py.strip content_html, soup')
  | _ => ([], soup)
  end.

Definition quote_item (x : str) : str := [dquote] ++ x ++ [dquote].

(** The lines of the front matter, as [create_hugo_content_file] builds
    them. *)
Definition front_matter (m : metadata) : list str :=
  ["+++"]
  ++ ["title = " ++ [dquote]
      ++ Py.replace [dquote] [backslash; dquote] (title m) ++ [dquote]]
  ++ ["date = " ++ [dquote] ++ date m ++ [dquote]]
  ++ ["slug = " ++ [dquote] ++ slug m ++ [dquote]]
  ++ match categories m with
     | Some cats =>
         ["categories = [" ++ Py.join ", " (map quote_item cats) ++ "]"]
     | None => []
     end
  ++ match tags m with
     | Some tgs => ["tags = [" ++ Py.join ", " (map quote_item tgs) ++ "]"]
     | None => []
     end
  ++ ["type = " ++ [dquote] ++ "post" ++ [dquote]]
  ++ ["+++"].

(** The text of the file: the front matter, an empty line, the content. *)
Definition file_text (m : metadata) (content : str) : str :=
  Py.join [newline] (front_matter m) ++ [newline; newline] ++ content.

Definition create_hugo_content_file (m : metadata) (content output_path : str)
  (o : output) : output :=
  write_file output_path (file_text m content) o.

Definition is_some (A : Type) (x : option A) : bool :=
  match x with Some _ => true | None => false end.

Definition process_blog_post (ex : export) (html_file hugo_content_dir : str)
  (o : output) : bool * output :=
  let soup := document ex html_file in
  if negb (is_some (Bs4.find (Bs4.is_tag "article") soup))
     || negb (is_some (Bs4.find (Bs4.is_tag_class "div" "entry-content") soup))
  then (false, o)
  else
    let metadata := extract_post_metadata soup html_file in
    let content := fst (extract_post_content soup) in
    if Bs4.is_nil (Py.strip content)
    then (false, print ("Warning: No content found in " ++ html_file) o)
    else
      let output_path :=
        match Re.search_year html_file, Re.search_year_month html_file with
        | Some year_group1, Some (month_group1, _) =>
            let year := year_group1 in
            let month := month_group1 in
            Os.join (Os.join (Os.join (Os.join hugo_content_dir "posts") year)
                       month)
              (slug metadata ++ ".html")
        | _, _ =>
            Os.join (Os.join hugo_content_dir "posts")
              (slug metadata ++ ".html")
        end in
      let o := create_hugo_content_file metadata content output_path o in
      (true, print ("Migrated: " ++ html_file ++ " -> " ++ output_path) o).

(** [a or b] on the results of [find]: a tag is always true. *)
Definition or_else (A : Type) (a b : option A) : option A :=
  match a with Some _ => a | None => b end.

(** [metadata['type'] = v]. *)
Definition set_type (v : str) (m : metadata) : metadata :=
  {| title := title m; date := date m; slug := slug m;
     categories := categories m; tags := tags m; type := Some v |}.

(** ['site-content' in str(classes)]: the text of the list holds the word
    exactly when one of the classes does. *)
Definition site_content_in (classes : list str) : bool :=
  existsb (Py.contains "site-content") classes.

Definition static_pages : list str := ["about"; "projects"; "open-source"].

Definition process_static_page (ex : export) (html_file hugo_content_dir : str)
  (o : output) : bool * output :=
  let soup := document ex html_file in
  match or_else (Bs4.find_place (Bs4.is_tag_class "div" "entry-content") soup)
          (or_else (Bs4.find_place (Bs4.is_tag "main") soup)
             (Bs4.find_place (Bs4.is_tag_class "div" "site-content") soup))
  with
  | None =>
      (false, print ("Warning: No content found for page " ++ html_file) o)
  | Some content_place =>
      let metadata := extract_post_metadata soup html_file in
      let (extracted, soup) := extract_post_content soup in
      match Bs4.at_place soup content_place with
      | None => (false, o)
      | Some content_elem =>
          let content :=
            if Bs4.is_nil extracted then Bs4.to_html content_elem
            else extracted in
          let content :=
            if site_content_in (Bs4.get_class content_elem) then
              match or_else
                      (Bs4.find (Bs4.is_tag_class "div" "entry-content")
                         (Bs4.children content_elem))
                      (Bs4.find (Bs4.is_tag "main")
                         (Bs4.children content_elem))
              with
              | Some inner_content => Bs4.to_html inner_content
              | None => content
              end
            else content in
          let page_name := Os.basename (Os.dirname html_file) in
          if existsb (Py.eqb page_name) static_pages then
            let output_path := Os.join hugo_content_dir (page_name ++ ".html") in
            let metadata := set_type "page" metadata in
            let o := create_hugo_content_file metadata content output_path o in
            (true,
              print ("Migrated page: " ++ html_file ++ " -> " ++ output_path) o)
          else (false, o)
      end
  end.

(** The two tests that [main] makes on a file of the scan before it hands
    it to [process_blog_post]. *)
Definition post_candidate (html_file : str) : bool :=
  Py.endswith "/index.html" html_file
  && (let path_parts := Py.split "/" html_file in
      (4 <=? length path_parts)
      && Re.match_4digits (Py.nth_last 4 path_parts)).

(** The loop of [main] over the files of the scan: the post counter and
    the output. *)
Definition migrate_posts (ex : export) (hugo_content_dir : str) (o : output)
  : nat * output :=
  fold_left
    (fun (st : nat * output) (html_file : str) =>
       let (post_count, o) := st in
       if post_candidate html_file then
         let (migrated, o) := process_blog_post ex html_file hugo_content_dir o in
         if migrated then (post_count + 1, o) else (post_count, o)
       else (post_count, o))
    (glob_index_html ex) (0, o).

(** The loop of [main] over the three static pages. *)
Definition migrate_pages (ex : export) (wp_dir hugo_content_dir : str)
  (o : output) : nat * output :=
  fold_left
    (fun (st : nat * output) (page_dir : str) =>
       let (page_count, o) := st in
       let page_file := Os.join (Os.join wp_dir page_dir) "index.html" in
       if path_exists ex page_file then
         let (migrated, o) := process_static_page ex page_file hugo_content_dir o in
         if migrated then (page_count + 1, o) else (page_count, o)
       else (page_count, o))
    static_pages (0, o).


End Migrate.

(** ** The statements of the specification, for comparison

    Each definition of this part follows the words of the specification,
    not the script. *)

Module Spec.

(** "strip the prefix": the class without its first [length prefix]
    characters, then hyphens to spaces and title case. *)
Definition name_of_class {u : Unicode} (prefix cls : str) : str :=
  Py.title (Py.replace "-" " " (skipn (length prefix) cls)).

(** "with a known site-name suffix stripped": the text without the suffix
    when it ends with it, the text itself otherwise. *)
Definition strip_suffix (suffix s : str) : str :=
  if Py.endswith suffix s then firstn (length s - length suffix) s else s.

(** "<digits>": a numeral. *)
Definition numeral (s : str) : bool :=
  negb (Bs4.is_nil s) && forallb Re.isdigit s.

(** A path of the form [.../<digits>/<digits>/<segment>/index.html] whose
    fourth segment from the end is a numeral of four digits. *)
Definition post_path (p : str) : bool :=
  let parts := Py.split "/" p in
  (4 <=? length parts)
  && Py.eqb (Py.nth_last 1 parts) "index.html"
  && (length (Py.nth_last 4 parts) =? 4)
  && numeral (Py.nth_last 4 parts)
  && numeral (Py.nth_last 3 parts).

(** The text between a prefix and a final double quote. *)
Definition between (prefix line : str) : option str :=
  if Py.startswith prefix line && Py.endswith [dquote] line
     && (length prefix + 1 <=? length line)
  then Some (firstn (length line - length prefix - 1)
               (skipn (length prefix) line))
  else None.

(** Modelled from the spec: the reader of a generated file, which the
    repository does not hold.  The front matter is read line by line
    ("a simple [key = value] assignment syntax", "scalars as quoted
    strings"); the title has its escaped quotes turned back
    ("quote-escaping is reversible").  The result is the title, the date
    and the slug. *)
Definition parse_front_matter (text : str) : option (str * str * str) :=
  match Py.split newline text with
  | _ :: title_line :: date_line :: slug_line :: _ =>
      match between ("title = " ++ [dquote]) title_line,
            between ("date = " ++ [dquote]) date_line,
            between ("slug = " ++ [dquote]) slug_line with
      | Some t, Some d, Some sl =>
          Some (Py.replace [backslash; dquote] [dquote] t, d, sl)
      | _, _, _ => None
      end
  | _ => None
  end.

End Spec.

(** ** A date library for the runs

    The date library on the strings of the form
    [YYYY-MM-DDTHH:MM:SS+HH:MM] (or with [-] before the offset) that name a
    date of the years 1000 to 9999: such a string comes back with its offset
    written [+HHMM].  On any other string the instance answers [None]; the
    theorems hold for every date library, and only their runs on concrete
    documents use this one. *)

Module Iso.

Definition digit (c : ascii) : nat := nat_of_ascii c - 48.

Definition two (a b : ascii) : option nat :=
  if Re.isdigit a && Re.isdigit b then Some (10 * digit a + digit b) else None.

Definition leap (y : nat) : bool :=
  ((y mod 4 =? 0) && negb (y mod 100 =? 0)) || (y mod 400 =? 0).

Definition days_in_month (y m : nat) : nat :=
  match m with
  | 2 => if leap y then 29 else 28
  | 4 | 6 | 9 | 11 => 30
  | _ => 31
  end.

Definition full_form (s : str) : option str :=
  match s with
  | [y1; y2; y3; y4; a; m1; m2; b; d1; d2; t; h1; h2; c; n1; n2; e; s1; s2;
     sign; o1; o2; f; p1; p2] =>
      match two y1 y2, two y3 y4, two m1 m2, two d1 d2, two h1 h2,
            two n1 n2, two s1 s2, two o1 o2, two p1 p2 with
      | Some yh, Some yl, Some mo, Some dd, Some hh, Some mi, Some ss,
        Some oh, Some om =>
          let y := 100 * yh + yl in
          if Ascii.eqb a "-" && Ascii.eqb b "-" && Ascii.eqb t "T"
             && Ascii.eqb c ":" && Ascii.eqb e ":" && Ascii.eqb f ":"
             && (Ascii.eqb sign "+" || Ascii.eqb sign "-")
             && (1000 <=? y) && (1 <=? mo) && (mo <=? 12)
             && (1 <=? dd) && (dd <=? days_in_month y mo)
             && (hh <=? 23) && (mi <=? 59) && (ss <=? 59)
             && (oh <=? 23) && (om <=? 59)
          then Some (firstn 19 s
                     ++ [if (oh =? 0) && (om =? 0) then "+"%char else sign]
                     ++ [o1; o2; p1; p2])
          else None
      | _, _, _, _, _, _, _, _, _ => None
      end
  | _ => None
  end.

End Iso.

#[export] Instance iso_dates : Datetime := {| isoformat := Iso.full_form |}.

(** ** Letters for the runs

    The runs on concrete documents give [title] ASCII texts only; the
    instance that they use leaves the characters beyond ASCII as they
    are. *)
#[export] Instance ascii_letters : Unicode :=
  {| title_beyond_ascii := Py.title_from false |}.

(** ** Documents for the runs *)

Module Sample.

Import Bs4.

Definition class_ (l : list str) : str * attr_value := ("class", AList l).

(** A post with its title, no date element, and a body. *)
Definition post : soup :=
  [Elem "html" []
     [Elem "head" [] [Elem "title" [] [Text "My Post – Adam Wulf"]];
      Elem "body" []
        [Elem "article" [class_ ["post"; "category-travel"; "tag-europe"]]
           [Elem "h1" [class_ ["entry-title"]] [Text "My Post"];
            Elem "div" [class_ ["entry-content"]]
              [Elem "p" [] [Text "Hello"];
               Elem "script" [] [Raw "track()"]]]]]].

(** The "about" page, with its content in an [entry-content] element. *)
Definition about : soup :=
  [Elem "html" []
     [Elem "head" [] [Elem "title" [] [Text "About – Adam Wulf"]];
      Elem "body" []
        [Elem "div" [class_ ["entry-content"]]
           [Elem "p" [] [Text "About me"]]]]].

(** The "about" page of a theme that has a [main] element and no
    [entry-content] element. *)
Definition about_main : soup :=
  [Elem "html" []
     [Elem "head" [] [Elem "title" [] [Text "About – Adam Wulf"]];
      Elem "body" []
        [Elem "main" []
           [Elem "script" [] [Raw "track()"];
            Elem "p" [] [Text "About me"]]]]].

(** A post whose content element carries a second class. *)
Definition post_two_classes : soup :=
  [Elem "article" []
     [Elem "div" [class_ ["entry-content"; "clearfix"]]
        [Elem "p" [] [Text "hi"]]]].

(** A post whose content element carries a second class and holds only
    white space. *)
Definition blank_post_two_classes : soup :=
  [Elem "article" []
     [Elem "div" [class_ ["entry-content"; "clearfix"]]
        [Text ("  " ++ [newline] ++ " ")]]].

(** A post whose content element holds only white space. *)
Definition blank_post : soup :=
  [Elem "article" []
     [Elem "div" [class_ ["entry-content"]]
        [Text ("  " ++ [newline] ++ " ")]]].

(** A document whose head holds a title element of text [t]. *)
Definition titled (t : str) : soup :=
  [Elem "html" [] [Elem "head" [] [Elem "title" [] [Text t]]]].

(** An article with the given classes. *)
Definition article (classes : list str) : soup :=
  [Elem "article" [class_ classes] []].

(** A date element without a [datetime] attribute. *)
Definition dated (t : str) : soup :=
  [Elem "article" []
     [Elem "time" [class_ ["entry-date"]] [Text t]]].

(** An export that holds one file. *)
Definition one_file (path : str) (doc : soup) : export :=
  {| glob_index_html := [path];
     path_exists := fun p => Py.eqb p path;
     document := fun _ => doc |}.

(** Two dictionaries that the writer cannot tell apart, and one whose title
    runs over two lines. *)
Definition m1 : metadata :=
  {| title := "T";
     date := "a" ++ [dquote; newline] ++ "slug = " ++ [dquote] ++ "b";
     slug := "c"; categories := None; tags := None; type := None |}.
Definition m2 : metadata :=
  {| title := "T";
     date := "a";
     slug := "b" ++ [dquote; newline] ++ "slug = " ++ [dquote] ++ "c";
     categories := None; tags := None; type := None |}.
Definition wrapped : metadata :=
  {| title := "Hello" ++ [newline] ++ "World";
     date := "2008-01-01T00:00:00+00:00";
     slug := "hello"; categories := None; tags := None; type := None |}.

(** A date text that holds double quotes. *)
Definition quoted_date : str := "say " ++ [dquote] ++ "hi" ++ [dquote].

(** A post with double quotes in its title, in the text of its date
    element and in the class of a tag. *)
Definition quoted_post : soup :=
  [Elem "article" [class_ ["post"; "tag-x" ++ [dquote] ++ "y"]]
     [Elem "h1" [class_ ["entry-title"]]
        [Text ("The " ++ [dquote] ++ "best" ++ [dquote] ++ " post")];
      Elem "time" [class_ ["entry-date"]] [Text quoted_date];
      Elem "div" [class_ ["entry-content"]] [Elem "p" [] [Text "Hello"]]]].

Definition no_output : output := {| written := []; console := [] |}.

End Sample.

(** ** Conditions on documents, for the statements *)

(** A string without [>]. *)
Definition no_gt (s : str) : bool :=
  forallb (fun c => negb (Ascii.eqb c ">")) s.

(** The names of the attributes hold no [>]: the parser ends a tag at the
    first [>] outside a quoted value, so that the attributes it builds are
    so. *)
Definition names_without_gt (attrs : list (str * Bs4.attr_value)) : bool :=
  forallb (fun kv => no_gt (fst kv)) attrs.

(** A text that stands, as it is, inside another. *)
Definition part_of (x s : str) : Prop :=
  exists before after, s = before ++ x ++ after.

(** The node at a place below a node; the empty place is the node itself. *)
Definition node_at (n : Bs4.node) (r : Bs4.place) : option Bs4.node :=
  match r with
  | [] => Some n
  | _ :: _ => Bs4.at_place (Bs4.children n) r
  end.

(** What it means for [place_node] to agree with [find_node] on a node, and
    for [find_place] to agree with [find] on a list. *)
Definition place_agrees_node (p : Bs4.node -> bool) (n : Bs4.node) : Prop :=
  match Bs4.place_node p n with
  | Some r => exists m, node_at n r = Some m /\ Bs4.find_node p n = Some m
  | None => Bs4.find_node p n = None
  end.

Definition place_agrees (p : Bs4.node -> bool) (l : list Bs4.node) : Prop :=
  match Bs4.find_place p l with
  | Some pl => exists m, Bs4.at_place l pl = Some m /\ Bs4.find p l = Some m
  | None => Bs4.find p l = None
  end.

(** ** Names for the parts of the script that the statements speak of *)

(** The names of the categories and of the tags, as maps over the classes
    that the loop selects. *)
Definition is_category (cls : str) : bool :=
  Py.startswith "category-" cls && negb (Py.eqb cls "category-uncategorized").

Definition category_name {u : Unicode} (cls : str) : str :=
  Py.title (Py.replace "-" " " (Py.replace "category-" [] cls)).

Definition is_tag_class_name (cls : str) : bool := Py.startswith "tag-" cls.

Definition tag_name {u : Unicode} (cls : str) : str :=
  Py.title (Py.replace "-" " " (Py.replace "tag-" [] cls)).

(** The writer's escaping of the title, and the reader's way back. *)
Definition escape_quotes (s : str) : str :=
  Py.replace [dquote] [backslash; dquote] s.

Definition unescape_quotes (s : str) : str :=
  Py.replace [backslash; dquote] [dquote] s.

(** Every double quote of [s] follows a backslash; [after_backslash] tells
    whether the character before [s] is one. *)
Fixpoint quotes_escaped (after_backslash : bool) (s : str) : bool :=
  match s with
  | [] => true
  | c :: s' => (if Ascii.eqb c dquote then after_backslash else true)
               && quotes_escaped (Ascii.eqb c backslash) s'
  end.

(** The text of a file in the words of the claim on the writer, without
    the functions of the script: a text with a backslash put before each
    of its double quotes; names between double quotes, one after the
    other with a comma and a space between them; and the lines of the
    file for given values of the title, the date and the slug. *)
Definition backslash_quotes (s : str) : str :=
  flat_map (fun c => if Ascii.eqb c dquote then [backslash; dquote] else [c]) s.

Fixpoint quoted_names (l : list str) : str :=
  match l with
  | [] => []
  | [x] => [dquote] ++ x ++ [dquote]
  | x :: l' => [dquote] ++ x ++ [dquote] ++ ", " ++ quoted_names l'
  end.

Definition text_of_values (title_value date_value slug_value : str)
  (category_names tag_names : option (list str)) (content : str) : str :=
  "+++" ++ [newline]
  ++ "title = " ++ [dquote] ++ title_value ++ [dquote; newline]
  ++ "date = " ++ [dquote] ++ date_value ++ [dquote; newline]
  ++ "slug = " ++ [dquote] ++ slug_value ++ [dquote; newline]
  ++ match category_names with
     | Some l => "categories = [" ++ quoted_names l ++ "]" ++ [newline]
     | None => []
     end
  ++ match tag_names with
     | Some l => "tags = [" ++ quoted_names l ++ "]" ++ [newline]
     | None => []
     end
  ++ "type = " ++ [dquote] ++ "post" ++ [dquote; newline]
  ++ "+++" ++ [newline; newline] ++ content.

(** The text of the file of the post with quotes of the runs. *)
Definition quoted_post_text : str :=
  Py.join [newline]
    [ "+++";
      "title = " ++ [dquote] ++ "The " ++ [backslash; dquote] ++ "best"
        ++ [backslash; dquote] ++ " post" ++ [dquote];
      "date = " ++ [dquote] ++ "say " ++ [dquote] ++ "hi" ++ [dquote]
        ++ [dquote];
      "slug = " ++ [dquote] ++ "my-post" ++ [dquote];
      "tags = [" ++ [dquote] ++ "X" ++ [dquote] ++ "Y" ++ [dquote] ++ "]";
      "type = " ++ [dquote] ++ "post" ++ [dquote];
      "+++";
      [];
      "<p>Hello</p>" ].

Definition no_newline (s : str) : bool :=
  forallb (fun c => negb (Ascii.eqb c newline)) s.

(** The two lines that the specification gives for the type, and the end
    of a date made from a path. *)
Definition type_post : str := "type = " ++ [dquote] ++ "post" ++ [dquote].
Definition type_page : str := "type = " ++ [dquote] ++ "page" ++ [dquote].
Definition path_date_tail : str := "-01T00:00:00+00:00".

(** The texts of two files that the runs below write. *)
Definition about_text : str :=
  Py.join [newline]
    [ "+++";
      "title = " ++ [dquote] ++ "About" ++ [dquote];
      "date = " ++ [dquote] ++ "2008-01-01T00:00:00+00:00" ++ [dquote];
      "slug = " ++ [dquote] ++ "about" ++ [dquote];
      type_post;
      "+++";
      [];
      "<p>About me</p>" ].

Definition blank_post_text : str :=
  Py.join [newline]
    [ "+++";
      "title = " ++ [dquote] ++ "Untitled" ++ [dquote];
      "date = " ++ [dquote] ++ "2010-2010-01T00:00:00+00:00" ++ [dquote];
      "slug = " ++ [dquote] ++ "my-post" ++ [dquote];
      type_post;
      "+++";
      [];
      "<div class=" ++ [dquote] ++ "entry-content clearfix" ++ [dquote] ++ ">" ].

(** ** Conditions on strings and predicates, for the further statements *)

(** A string without [/]. *)
Definition no_slash (s : str) : bool :=
  forallb (fun c => negb (Ascii.eqb c "/")) s.

(** A string that neither starts nor ends with white space. *)
Definition trimmed (s : str) : bool :=
  match s with
  | [] => true
  | c :: _ => negb (Py.isspace c)
  end
  && match rev s with
     | [] => true
     | c :: _ => negb (Py.isspace c)
     end.

(** A predicate on nodes that does not look at the children of an
    element, as are the tests on the name and the classes. *)
Definition ignores_children (p : Bs4.node -> bool) : Prop :=
  forall nm attrs kids1 kids2,
    p (Bs4.Elem nm attrs kids1) = p (Bs4.Elem nm attrs kids2).

(** The node [n] with the node at the place [r] below it replaced; the
    empty place is [n] itself. *)
Definition put_node (n : Bs4.node) (r : Bs4.place) (x : Bs4.node) : Bs4.node :=
  match r with
  | [] => x
  | _ :: _ =>
      match n with
      | Bs4.Elem nm attrs kids => Bs4.Elem nm attrs (Bs4.put_place kids r x)
      | _ => n
      end
  end.

(** A numeral of [n] digits. *)
Definition digits (n : nat) (s : str) : bool :=
  (length s =? n) && forallb Re.isdigit s.

(** The path that [process_blog_post] computes for a post. *)
Definition post_output_path (html_file hugo_content_dir slug : str) : str :=
  match Re.search_year html_file, Re.search_year_month html_file with
  | Some year, Some (month, _) =>
      Os.join (Os.join (Os.join (Os.join hugo_content_dir "posts") year) month)
        (slug ++ ".html")
  | _, _ => Os.join (Os.join hugo_content_dir "posts") (slug ++ ".html")
  end.

(** The document holds one of the three containers that
    [process_static_page] looks for. *)
Definition has_container (soup : Bs4.soup) : bool :=
  is_some (Bs4.find (Bs4.is_tag_class "div" "entry-content") soup)
  || is_some (Bs4.find (Bs4.is_tag "main") soup)
  || is_some (Bs4.find (Bs4.is_tag_class "div" "site-content") soup).

(** The path that [process_static_page] computes for a page. *)
Definition page_output_path (html_file hugo_content_dir : str) : str :=
  Os.join hugo_content_dir (Os.basename (Os.dirname html_file) ++ ".html").


Section Driver.

Context {dt : Datetime} {u : Unicode}.

(** The document holds what [process_blog_post] needs to write a post: an
    article, a content element and content that is not empty. *)
Definition has_post (soup : Bs4.soup) : bool :=
  is_some (Bs4.find (Bs4.is_tag "article") soup)
  && is_some (Bs4.find (Bs4.is_tag_class "div" "entry-content") soup)
  && negb (Bs4.is_nil (fst (extract_post_content soup))).

(** The file that [process_blog_post] writes for such a document. *)
Definition post_file (ex : export) (hugo_content_dir html_file : str)
  : str * str :=
  let soup := document ex html_file in
  let m := extract_post_metadata soup html_file in
  (post_output_path html_file hugo_content_dir (slug m),
   file_text m (fst (extract_post_content soup))).

(** The files of the scan that [main] hands over and that are written. *)
Definition migrated_posts (ex : export) : list str :=
  filter (fun f => post_candidate f && has_post (document ex f))
    (glob_index_html ex).

(** The path of the index file of a static page, and the pages that [main]
    finds and that are written. *)
Definition page_file (wp_dir page : str) : str :=
  Os.join (Os.join wp_dir page) "index.html".

Definition migrated_pages (ex : export) (wp_dir : str) : list str :=
  filter (fun page => path_exists ex (page_file wp_dir page)
                      && has_container (document ex (page_file wp_dir page)))
    static_pages.

End Driver.




(** An export of a front page, one post and the "about" page. *)
Module Site.

Definition ex : export :=
  {| glob_index_html :=
       ["export/index.html"; "export/2012/03/my-post/index.html";
        "export/about/index.html"];
     path_exists := fun p => Py.eqb p "export/about/index.html";
     document :=
       fun p => if Py.eqb p "export/about/index.html" then Sample.about
                else Sample.post |}.

(** The "about" page of a theme whose only container is the
    [site-content] element. *)
Definition about_site_content : Bs4.soup :=
  [Bs4.Elem "html" []
     [Bs4.Elem "body" []
        [Bs4.Elem "div" [Sample.class_ ["site-content"; "wide"]]
           [Bs4.Elem "p" [] [Bs4.Text "About me"]]]]].

End Site.

(** A string without [-]. *)
Definition no_hyphen (s : str) : bool :=
  forallb (fun c => negb (Ascii.eqb c "-")) s.

(** The values of the dictionary hold no line feed. *)
Definition names_single_line (names : option (list str)) : bool :=
  match names with
  | Some l => forallb no_newline l
  | None => true
  end.

Definition single_line (m : metadata) : bool :=
  no_newline (title m) && no_newline (date m) && no_newline (slug m)
  && names_single_line (categories m) && names_single_line (tags m).

(** * Properties *)

Unset Implicit Arguments.

(** ** Strings *)

Lemma eqb_eq (a b : str) : Py.eqb a b = true <-> a = b.
Proof.
  revert b; induction a as [|x a IH]; intros [|y b]; simpl;
    try (split; [discriminate | discriminate]); try tauto.
  rewrite andb_true_iff, Ascii.eqb_eq, IH.
  split; [intros [-> ->]; reflexivity | intros H; inversion H; auto].
Qed.

Lemma eqb_refl (a : str) : Py.eqb a a = true.
Proof. apply eqb_eq; reflexivity. Qed.

Lemma startswith_app (p s : str) : Py.startswith p (p ++ s) = true.
Proof.
  induction p as [|x p IH]; simpl; [reflexivity|].
  rewrite Ascii.eqb_refl; exact IH.
Qed.

Lemma startswith_inv (p s : str) :
  Py.startswith p s = true -> exists t, s = p ++ t.
Proof.
  revert s; induction p as [|x p IH]; intros s H; simpl in *.
  - exists s; reflexivity.
  - destruct s as [|y s]; [discriminate|].
    apply andb_true_iff in H; destruct H as [Hxy H].
    apply Ascii.eqb_eq in Hxy; subst y.
    destruct (IH _ H) as [t ->]; exists t; reflexivity.
Qed.

Lemma endswith_app (p s : str) : Py.endswith p (s ++ p) = true.
Proof.
  unfold Py.endswith; rewrite rev_app_distr; apply startswith_app.
Qed.

Lemma endswith_inv (p s : str) :
  Py.endswith p s = true -> exists t, s = t ++ p.
Proof.
  unfold Py.endswith; intros H.
  destruct (startswith_inv _ _ H) as [t Ht].
  exists (rev t).
  rewrite <- (rev_involutive s), Ht, rev_app_distr, rev_involutive.
  reflexivity.
Qed.

Lemma contains_here (p s : str) :
  Py.startswith p s = true -> Py.contains p s = true.
Proof. intros H; destruct s; simpl in *; rewrite H; reflexivity. Qed.

Lemma contains_app (p a b : str) : Py.contains p (a ++ p ++ b) = true.
Proof.
  induction a as [|x a IH].
  - change ([] ++ p ++ b) with (p ++ b).
    apply contains_here, startswith_app.
  - simpl; rewrite IH; apply orb_true_r.
Qed.

Lemma lstrip_unchanged (c : ascii) (s : str) :
  Py.isspace c = false -> Py.lstrip (c :: s) = c :: s.
Proof. intros H; simpl; rewrite H; reflexivity. Qed.

Lemma rstrip_unchanged (c : ascii) (s : str) :
  Py.isspace c = false -> Py.rstrip (s ++ [c]) = s ++ [c].
Proof.
  intros H; unfold Py.rstrip.
  rewrite rev_app_distr; simpl; rewrite H; simpl.
  rewrite rev_involutive; reflexivity.
Qed.

(** A replacement keeps a property that all the characters of the string
    and of the new text have. *)
Lemma replace_from_forallb (P : ascii -> bool) (old new : str) :
  forallb P new = true ->
  forall (s : str) (k : nat),
    forallb P s = true -> forallb P (Py.replace_from old new k s) = true.
Proof.
  intros Hnew; induction s as [|c s IH]; intros k Hs; simpl; [reflexivity|].
  simpl in Hs; apply andb_true_iff in Hs; destruct Hs as [Hc Hs].
  destruct k as [|k]; [|apply IH; exact Hs].
  destruct (Py.startswith old (c :: s)).
  - rewrite forallb_app, Hnew; simpl; apply IH; exact Hs.
  - simpl; rewrite Hc; simpl; apply IH; exact Hs.
Qed.

(** ** Documents *)

(** Induction on a node, with the property known of the children. *)
Lemma node_induction (P : Bs4.node -> Prop) :
  (forall s, P (Bs4.Text s)) ->
  (forall s, P (Bs4.Raw s)) ->
  (forall s, P (Bs4.Comment s)) ->
  (forall nm attrs kids, Forall P kids -> P (Bs4.Elem nm attrs kids)) ->
  forall n, P n.
Proof.
  intros HT HR HC HE.
  fix IH 1.
  intros [s|s|s|nm attrs kids]; [apply HT | apply HR | apply HC |].
  apply HE.
  induction kids as [|k kids IHk]; constructor; [apply IH | exact IHk].
Qed.

Lemma find_node_sat (p : Bs4.node -> bool) (n r : Bs4.node) :
  Bs4.find_node p n = Some r -> p r = true.
Proof.
  revert r; induction n as [s|s|s|nm attrs kids IH] using node_induction;
    intros r; simpl.
  - destruct (p (Bs4.Text s)) eqn:E; intros H; inversion H; subst; exact E.
  - destruct (p (Bs4.Raw s)) eqn:E; intros H; inversion H; subst; exact E.
  - destruct (p (Bs4.Comment s)) eqn:E; intros H; inversion H; subst; exact E.
  - destruct (p (Bs4.Elem nm attrs kids)) eqn:E.
    + intros H; inversion H; subst; exact E.
    + clear E; induction IH as [|k kids Hk _ IHk]; [discriminate|].
      destruct (Bs4.find_node p k) eqn:Ek.
      * intros H; inversion H; subst; apply Hk; reflexivity.
      * exact IHk.
Qed.

Lemma find_sat (p : Bs4.node -> bool) (l : list Bs4.node) (r : Bs4.node) :
  Bs4.find p l = Some r -> p r = true.
Proof.
  induction l as [|k l IH]; simpl; [discriminate|].
  destruct (Bs4.find_node p k) eqn:Ek.
  - intros H; inversion H; subst; eapply find_node_sat; exact Ek.
  - exact IH.
Qed.

Lemma to_html_elem (nm : str) (attrs : list (str * Bs4.attr_value))
  (kids : list Bs4.node) :
  Bs4.to_html (Bs4.Elem nm attrs kids)
  = if Bs4.is_nil kids && existsb (Py.eqb nm) Bs4.empty_element_tags
    then "<" ++ nm ++ Bs4.attrs_html attrs ++ "/>"
    else "<" ++ nm ++ Bs4.attrs_html attrs ++ ">"
         ++ Bs4.inner_html kids ++ "</" ++ nm ++ ">".
Proof. reflexivity. Qed.

Lemma find_node_elem (p : Bs4.node -> bool) (nm : str)
  (attrs : list (str * Bs4.attr_value)) (kids : list Bs4.node) :
  Bs4.find_node p (Bs4.Elem nm attrs kids)
  = if p (Bs4.Elem nm attrs kids) then Some (Bs4.Elem nm attrs kids)
    else Bs4.find p kids.
Proof.
  cbn -[Bs4.find].
  destruct (p (Bs4.Elem nm attrs kids)); [reflexivity|].
  induction kids as [|k kids IH]; simpl; [reflexivity|].
  rewrite IH; reflexivity.
Qed.

Lemma clean_node_elem (p : Bs4.node -> bool) (nm : str)
  (attrs : list (str * Bs4.attr_value)) (kids : list Bs4.node) :
  Bs4.clean_node p (Bs4.Elem nm attrs kids)
  = Bs4.Elem nm attrs (Bs4.decompose_all p kids).
Proof.
  cbn -[Bs4.decompose_all]; f_equal.
  induction kids as [|k kids IH]; simpl; [reflexivity|].
  rewrite IH; reflexivity.
Qed.

(** Whether an element is unwanted depends on its name alone. *)
Lemma unwanted_clean (n : Bs4.node) :
  unwanted (Bs4.clean_node unwanted n) = unwanted n.
Proof. destruct n; reflexivity. Qed.

Lemma find_node_clean (n : Bs4.node) :
  unwanted n = false ->
  Bs4.find_node unwanted (Bs4.clean_node unwanted n) = None.
Proof.
  induction n as [s|s|s|nm attrs kids IH] using node_induction; intros Hn;
    try reflexivity.
  rewrite clean_node_elem, find_node_elem.
  change (unwanted (Bs4.Elem nm attrs (Bs4.decompose_all unwanted kids)))
    with (unwanted (Bs4.Elem nm attrs kids)).
  rewrite Hn; clear Hn.
  induction IH as [|k kids Hk _ IHk]; simpl; [reflexivity|].
  destruct (unwanted k) eqn:Ek; [exact IHk|].
  simpl; rewrite (Hk eq_refl); exact IHk.
Qed.

(** After the removal no [script] and no [noscript] element is left, at any
    depth. *)
Lemma find_decompose_all (l : list Bs4.node) :
  Bs4.find unwanted (Bs4.decompose_all unwanted l) = None.
Proof.
  induction l as [|k l IH]; simpl; [reflexivity|].
  destruct (unwanted k) eqn:Ek; [exact IH|].
  simpl; rewrite (find_node_clean _ Ek); exact IH.
Qed.

(** *** The markup of an opening tag *)

Lemma no_gt_app (a b : str) : no_gt (a ++ b) = no_gt a && no_gt b.
Proof. apply forallb_app. Qed.

Lemma no_gt_escape (s : str) : no_gt (Bs4.escape s) = true.
Proof.
  induction s as [|c s IH]; [reflexivity|].
  unfold Bs4.escape in *; simpl; rewrite no_gt_app, IH, andb_true_r.
  unfold Bs4.escape_char.
  destruct (Ascii.eqb c "&"); [reflexivity|].
  destruct (Ascii.eqb c "<"); [reflexivity|].
  destruct (Ascii.eqb c ">") eqn:E; [reflexivity|].
  simpl; rewrite E; reflexivity.
Qed.

Lemma no_gt_quoted (v : str) :
  no_gt v = true -> no_gt (Bs4.quoted_attribute_value v) = true.
Proof.
  intros Hv; unfold Bs4.quoted_attribute_value.
  destruct (existsb (Ascii.eqb dquote) v);
    [destruct (existsb (Ascii.eqb "'") v)|];
    rewrite !no_gt_app; simpl; rewrite ?andb_true_r; try exact Hv.
  apply replace_from_forallb; [reflexivity | exact Hv].
Qed.

Lemma no_gt_attrs_html (attrs : list (str * Bs4.attr_value)) :
  names_without_gt attrs = true -> no_gt (Bs4.attrs_html attrs) = true.
Proof.
  induction attrs as [|kv attrs IH]; simpl; [reflexivity|].
  intros H; apply andb_true_iff in H; destruct H as [Hk H].
  unfold Bs4.attrs_html in *; simpl.
  rewrite no_gt_app, (IH H), andb_true_r.
  unfold Bs4.attr_html.
  rewrite !no_gt_app, Hk.
  change (no_gt ("="%char :: ?x)) with (no_gt x).
  rewrite no_gt_quoted by apply no_gt_escape.
  reflexivity.
Qed.

Lemma lookup_in (key : str) (attrs : list (str * Bs4.attr_value))
  (v : Bs4.attr_value) :
  Bs4.lookup key attrs = Some v ->
  exists a b, attrs = a ++ (key, v) :: b.
Proof.
  induction attrs as [|[k w] attrs IH]; simpl; [discriminate|].
  destruct (Py.eqb k key) eqn:E.
  - intros H; inversion H; subst.
    apply eqb_eq in E; subst.
    exists [], attrs; reflexivity.
  - intros H; destruct (IH H) as (a & b & ->).
    exists ((k, w) :: a), b; reflexivity.
Qed.

Lemma attrs_html_app (a b : list (str * Bs4.attr_value)) :
  Bs4.attrs_html (a ++ b) = Bs4.attrs_html a ++ Bs4.attrs_html b.
Proof. apply flat_map_app. Qed.

(** The class attribute [entry-content] is written as the pattern of
    [extract_post_content] expects it. *)
Lemma class_entry_content_written (attrs : list (str * Bs4.attr_value)) :
  Bs4.lookup "class" attrs = Some (Bs4.AList ["entry-content"]) ->
  Py.contains Re.class_entry_content (Bs4.attrs_html attrs) = true.
Proof.
  intros H; destruct (lookup_in _ _ _ H) as (a & b & ->).
  rewrite attrs_html_app.
  change (Bs4.attrs_html (("class", Bs4.AList ["entry-content"]) :: b))
    with (" " ++ Re.class_entry_content ++ Bs4.attrs_html b).
  rewrite app_assoc.
  apply contains_app.
Qed.

Lemma cut_first (c : ascii) (u rest : str) :
  forallb (fun x => negb (Ascii.eqb x c)) u = true ->
  Re.cut c (u ++ c :: rest) = Some (u, rest).
Proof.
  induction u as [|x u IH]; simpl.
  - rewrite Ascii.eqb_refl; reflexivity.
  - intros H; apply andb_true_iff in H; destruct H as [Hx H].
    apply negb_true_iff in Hx; rewrite Hx, (IH H); reflexivity.
Qed.

Lemma sub_close_div_end (x : str) : Re.sub_close_div (x ++ "</div>") = x.
Proof.
  unfold Re.sub_close_div.
  rewrite endswith_app, length_app, Nat.add_sub, firstn_app, firstn_all,
    Nat.sub_diag.
  apply app_nil_r.
Qed.

Lemma rstrip_close_div (x : str) : Py.rstrip (x ++ "</div>") = x ++ "</div>".
Proof.
  change "</div>" with ("</div" ++ [">"%char]).
  rewrite app_assoc.
  apply rstrip_unchanged; reflexivity.
Qed.

(** The two substitutions of [extract_post_content] on the markup of a
    [div] whose class attribute is [entry-content] alone: the tags of the
    [div] go, what is between them stays. *)
Lemma wrapper_stripped (attrs : list (str * Bs4.attr_value)) (inner : str) :
  names_without_gt attrs = true ->
  Bs4.lookup "class" attrs = Some (Bs4.AList ["entry-content"]) ->
  Re.sub_close_div
    (Py.rstrip
       (Re.sub_open_wrapper
          ("<div" ++ Bs4.attrs_html attrs ++ ">" ++ inner ++ "</div>")))
  = inner.
Proof.
  intros Hnames Hclass.
  unfold Re.sub_open_wrapper.
  rewrite startswith_app.
  change (skipn 4 ("<div" ++ ?x)) with x.
  change (Bs4.attrs_html attrs ++ ">" ++ inner ++ "</div>")
    with (Bs4.attrs_html attrs ++ ">"%char :: inner ++ "</div>").
  rewrite cut_first by (apply no_gt_attrs_html; exact Hnames).
  rewrite class_entry_content_written by exact Hclass.
  rewrite rstrip_close_div.
  apply sub_close_div_end.
Qed.

Lemma is_tag_class_inv (name cls nm : str)
  (attrs : list (str * Bs4.attr_value)) (kids : list Bs4.node) :
  Bs4.is_tag_class name cls (Bs4.Elem nm attrs kids) = true ->
  nm = name /\ In cls (Bs4.get_class (Bs4.Elem nm attrs kids)).
Proof.
  unfold Bs4.is_tag_class; intros H.
  apply andb_true_iff in H; destruct H as [Hn Hc].
  split; [apply eqb_eq; exact Hn|].
  apply existsb_exists in Hc; destruct Hc as (c & Hin & Hc).
  apply eqb_eq in Hc; subst c; exact Hin.
Qed.

(** The content of a document whose first [entry-content] element has that
    class alone: the markup of the children that stay, trimmed. *)
Lemma extract_post_content_exact (soup : Bs4.soup) (nm : str)
  (attrs : list (str * Bs4.attr_value)) (kids : list Bs4.node) :
  Bs4.find (Bs4.is_tag_class "div" "entry-content") soup
    = Some (Bs4.Elem nm attrs kids) ->
  names_without_gt attrs = true ->
  Bs4.lookup "class" attrs = Some (Bs4.AList ["entry-content"]) ->
  fst (extract_post_content soup)
  = Py.strip (Bs4.inner_html (Bs4.decompose_all unwanted kids)).
Proof.
  intros Hfind Hnames Hclass.
  unfold extract_post_content; rewrite Hfind.
  apply find_sat, is_tag_class_inv in Hfind; destruct Hfind as [-> _].
  cbn [fst].
  rewrite to_html_elem.
  change (existsb (Py.eqb "div") Bs4.empty_element_tags) with false.
  rewrite andb_false_r.
  change ("<" ++ "div" ++ ?x) with ("<div" ++ x).
  change ("</" ++ "div" ++ ">") with "</div>".
  rewrite wrapper_stripped by assumption.
  reflexivity.
Qed.

Lemma lstrip_app_nonspace (a b : str) (c : ascii) :
  Py.isspace c = false -> Py.lstrip (a ++ c :: b) = Py.lstrip a ++ c :: b.
Proof.
  intros Hc; induction a as [|x a IH]; cbn [app Py.lstrip].
  - rewrite Hc; reflexivity.
  - destruct (Py.isspace x); [exact IH | reflexivity].
Qed.

Lemma rstrip_app_nonspace (p w : str) (c : ascii) :
  Py.isspace c = false -> Py.rstrip (p ++ c :: w) = p ++ c :: Py.rstrip w.
Proof.
  intros Hc; unfold Py.rstrip.
  rewrite rev_app_distr; cbn [rev]; rewrite <- app_assoc; cbn [app].
  rewrite lstrip_app_nonspace by exact Hc.
  rewrite rev_app_distr; cbn [rev].
  rewrite rev_involutive, <- app_assoc; reflexivity.
Qed.

Lemma rstrip_open_tag (a r : str) :
  Py.rstrip ("<div" ++ a ++ ">" ++ r) = "<div" ++ a ++ ">" ++ Py.rstrip r.
Proof.
  replace ("<div" ++ a ++ ">" ++ r) with (("<div" ++ a) ++ ">"%char :: r)
    by (rewrite <- app_assoc; reflexivity).
  rewrite rstrip_app_nonspace by reflexivity.
  rewrite <- app_assoc; reflexivity.
Qed.

(** The two substitutions on the markup of a [div] whose opening tag does
    not hold the attribute text of the pattern: the opening tag stays. *)
Lemma wrapper_left (attrs : list (str * Bs4.attr_value)) (inner : str) :
  names_without_gt attrs = true ->
  Py.contains Re.class_entry_content (Bs4.attrs_html attrs) = false ->
  Py.strip
    (Re.sub_close_div
       (Py.rstrip
          (Re.sub_open_wrapper
             ("<div" ++ Bs4.attrs_html attrs ++ ">" ++ inner ++ "</div>"))))
  = "<div" ++ Bs4.attrs_html attrs ++ ">" ++ Py.rstrip inner.
Proof.
  intros Hnames Hclass.
  unfold Re.sub_open_wrapper.
  rewrite startswith_app.
  change (skipn 4 ("<div" ++ ?x)) with x.
  change (Bs4.attrs_html attrs ++ ">" ++ inner ++ "</div>")
    with (Bs4.attrs_html attrs ++ ">"%char :: inner ++ "</div>").
  rewrite cut_first by (apply no_gt_attrs_html; exact Hnames).
  rewrite Hclass.
  replace ("<div" ++ Bs4.attrs_html attrs ++ ">"%char :: inner ++ "</div>")
    with ((("<div" ++ Bs4.attrs_html attrs) ++ ">"%char :: inner) ++ "</div>")
    by (rewrite <- !app_assoc; reflexivity).
  rewrite rstrip_close_div, sub_close_div_end.
  unfold Py.strip.
  rewrite <- app_assoc.
  change (Py.lstrip ("<div" ++ ?x)) with ("<div" ++ x).
  apply rstrip_open_tag.
Qed.

Lemma length_lstrip (s : str) : length (Py.lstrip s) <= length s.
Proof.
  induction s as [|c s IH]; cbn [Py.lstrip length]; [lia|].
  destruct (Py.isspace c); cbn [length]; lia.
Qed.

Lemma lstrip_cases (s : str) :
  Py.lstrip s = []
  \/ exists w c r, s = w ++ c :: r /\ Py.isspace c = false
                   /\ Py.lstrip s = c :: r.
Proof.
  induction s as [|x s IH]; [left; reflexivity|].
  cbn [Py.lstrip].
  destruct (Py.isspace x) eqn:Hx.
  - destruct IH as [IH|(w & c & r & -> & Hc & IH)]; [left; exact IH|].
    right; exists (x :: w), c, r; auto.
  - right; exists [], x, s; auto.
Qed.

(** Trimming on both sides leaves no more than trimming on the right. *)
Lemma length_strip (s : str) : length (Py.strip s) <= length (Py.rstrip s).
Proof.
  unfold Py.strip.
  destruct (lstrip_cases s) as [H|(w & c & r & -> & Hc & H)]; rewrite H.
  - cbn; lia.
  - rewrite (rstrip_app_nonspace w r c Hc).
    change (Py.rstrip (c :: r)) with (Py.rstrip ([] ++ c :: r)).
    rewrite (rstrip_app_nonspace [] r c Hc).
    rewrite !length_app; cbn [length]; lia.
Qed.

(** The content of a document whose first [entry-content] element has an
    opening tag that the pattern does not match. *)
Lemma extract_post_content_unmatched (soup : Bs4.soup) (nm : str)
  (attrs : list (str * Bs4.attr_value)) (kids : list Bs4.node) :
  Bs4.find (Bs4.is_tag_class "div" "entry-content") soup
    = Some (Bs4.Elem nm attrs kids) ->
  names_without_gt attrs = true ->
  Py.contains Re.class_entry_content (Bs4.attrs_html attrs) = false ->
  fst (extract_post_content soup)
  = "<div" ++ Bs4.attrs_html attrs ++ ">"
    ++ Py.rstrip (Bs4.inner_html (Bs4.decompose_all unwanted kids)).
Proof.
  intros Hfind Hnames Hclass.
  unfold extract_post_content; rewrite Hfind.
  apply find_sat, is_tag_class_inv in Hfind; destruct Hfind as [-> _].
  cbn [fst].
  rewrite to_html_elem.
  change (existsb (Py.eqb "div") Bs4.empty_element_tags) with false.
  rewrite andb_false_r.
  change ("<" ++ "div" ++ ?x) with ("<div" ++ x).
  change ("</" ++ "div" ++ ">") with "</div>".
  apply wrapper_left; assumption.
Qed.

(** Claim C4.  When the opening tag of the first [div] of class
    [entry-content] does not hold the attribute text that the pattern
    wants, which is the case as soon as the element has a second class,
    the opening tag is not removed: the content is that tag followed by
    the markup of the children, only the final closing tag is gone, and
    the content is never the trimmed markup of the children. *)
Theorem wrapper_kept (soup : Bs4.soup) (nm : str)
  (attrs : list (str * Bs4.attr_value)) (kids : list Bs4.node) :
  Bs4.find (Bs4.is_tag_class "div" "entry-content") soup
    = Some (Bs4.Elem nm attrs kids) ->
  names_without_gt attrs = true ->
  Py.contains Re.class_entry_content (Bs4.attrs_html attrs) = false ->
  let inner := Bs4.inner_html (Bs4.decompose_all unwanted kids) in
  fst (extract_post_content soup)
    = "<div" ++ Bs4.attrs_html attrs ++ ">" ++ Py.rstrip inner
  /\ fst (extract_post_content soup) <> Py.strip inner.
Proof.
  intros Hfind Hnames Hclass inner.
  assert (H : fst (extract_post_content soup)
              = "<div" ++ Bs4.attrs_html attrs ++ ">" ++ Py.rstrip inner)
    by exact (extract_post_content_unmatched soup nm attrs kids Hfind Hnames
                Hclass).
  split; [exact H|].
  rewrite H; intros Heq.
  apply (f_equal (@length ascii)) in Heq.
  rewrite !length_app in Heq; cbn [length] in Heq.
  pose proof (length_strip inner); lia.
Qed.

(** On a content element of classes [entry-content clearfix] the opening
    tag stays. *)
Lemma wrapper_kept_witness :
  Py.contains Re.class_entry_content
    (Bs4.attrs_html [Sample.class_ ["entry-content"; "clearfix"]]) = false
  /\ fst (extract_post_content Sample.post_two_classes)
     = "<div class=" ++ [dquote] ++ "entry-content clearfix" ++ [dquote]
       ++ "><p>hi</p>".
Proof.
  split; [reflexivity|].
  destruct (wrapper_kept Sample.post_two_classes "div"
              [Sample.class_ ["entry-content"; "clearfix"]]
              [Bs4.Elem "p" [] [Bs4.Text "hi"]] eq_refl eq_refl eq_refl)
    as [H _].
  exact H.
Defined.


(** *** Places *)

Lemma place_node_elem (p : Bs4.node -> bool) (nm : str)
  (attrs : list (str * Bs4.attr_value)) (kids : list Bs4.node) :
  Bs4.place_node p (Bs4.Elem nm attrs kids)
  = if p (Bs4.Elem nm attrs kids) then Some [] else Bs4.find_place p kids.
Proof.
  cbn -[Bs4.find_place].
  destruct (p (Bs4.Elem nm attrs kids)); [reflexivity|].
  induction kids as [|k kids IH]; simpl; [reflexivity|].
  rewrite IH; reflexivity.
Qed.

Lemma at_place_first (k : Bs4.node) (l : list Bs4.node) (r : Bs4.place) :
  Bs4.at_place (k :: l) (0 :: r) = node_at k r.
Proof. destruct r; reflexivity. Qed.

Lemma at_place_bump (k : Bs4.node) (l : list Bs4.node) (pl : Bs4.place) :
  Bs4.at_place (k :: l) (Bs4.bump pl) = Bs4.at_place l pl.
Proof. destruct pl; reflexivity. Qed.

Lemma place_agrees_list (p : Bs4.node -> bool) (l : list Bs4.node) :
  Forall (place_agrees_node p) l -> place_agrees p l.
Proof.
  unfold place_agrees.
  induction 1 as [|k l Hk _ IH]; simpl; [reflexivity|].
  unfold place_agrees_node in Hk.
  destruct (Bs4.place_node p k) as [r|].
  - destruct Hk as (m & Hat & Hfind).
    exists m; rewrite Hfind; split; [|reflexivity].
    destruct r; exact Hat.
  - rewrite Hk.
    destruct (Bs4.find_place p l) as [pl|]; simpl; [|exact IH].
    destruct IH as (m & Hat & Hfind).
    exists m; split; [|exact Hfind].
    rewrite <- Hat; apply at_place_bump.
Qed.

Lemma place_agrees_all (p : Bs4.node -> bool) (n : Bs4.node) :
  place_agrees_node p n.
Proof.
  induction n as [s|s|s|nm attrs kids IH] using node_induction;
    unfold place_agrees_node.
  - simpl; destruct (p (Bs4.Text s)); [exists (Bs4.Text s)|]; auto.
  - simpl; destruct (p (Bs4.Raw s)); [exists (Bs4.Raw s)|]; auto.
  - simpl; destruct (p (Bs4.Comment s)); [exists (Bs4.Comment s)|]; auto.
  - rewrite place_node_elem, find_node_elem.
    destruct (p (Bs4.Elem nm attrs kids)).
    + exists (Bs4.Elem nm attrs kids); auto.
    + apply place_agrees_list in IH; unfold place_agrees in IH.
      destruct (Bs4.find_place p kids) as [[|i r]|]; [| exact IH | exact IH].
      destruct IH as (m & Hat & _); discriminate Hat.
Qed.

(** [find_place] gives the place of the node that [find] gives. *)
Lemma find_place_find (p : Bs4.node -> bool) (l : list Bs4.node)
  (n : Bs4.node) :
  Bs4.find p l = Some n ->
  exists pl, Bs4.find_place p l = Some pl /\ Bs4.at_place l pl = Some n.
Proof.
  intros Hfind.
  assert (H : place_agrees p l).
  { apply place_agrees_list, Forall_forall; intros k _.
    apply place_agrees_all. }
  unfold place_agrees in H.
  destruct (Bs4.find_place p l) as [pl|].
  - destruct H as (m & Hat & Hm).
    rewrite Hfind in Hm; inversion Hm; subst.
    exists pl; auto.
  - rewrite Hfind in H; discriminate.
Qed.

Lemma find_place_none (p : Bs4.node -> bool) (l : list Bs4.node) :
  Bs4.find p l = None -> Bs4.find_place p l = None.
Proof.
  intros Hfind.
  assert (H : place_agrees p l).
  { apply place_agrees_list, Forall_forall; intros k _.
    apply place_agrees_all. }
  unfold place_agrees in H.
  destruct (Bs4.find_place p l) as [pl|]; [|reflexivity].
  destruct H as (m & _ & Hm); rewrite Hfind in Hm; discriminate.
Qed.

Lemma nth_error_set_nth (A : Type) (i : nat) (x y : A) (l : list A) :
  nth_error l i = Some y -> nth_error (Bs4.set_nth i x l) i = Some x.
Proof.
  revert i; induction l as [|z l IH]; intros [|i]; simpl;
    try discriminate; auto.
Qed.

(** A place that holds a node holds the node put there. *)
Lemma at_place_put (pl : Bs4.place) (l : list Bs4.node) (n x : Bs4.node) :
  Bs4.at_place l pl = Some n ->
  Bs4.at_place (Bs4.put_place l pl x) pl = Some x.
Proof.
  revert l; induction pl as [|i pl IH]; intros l; simpl; [discriminate|].
  destruct (nth_error l i) as [k|] eqn:Ek; [|discriminate].
  destruct pl as [|j r].
  - intros _; rewrite (nth_error_set_nth _ i x k l Ek); reflexivity.
  - intros Hat.
    destruct k as [s|s|s|nm attrs kids];
      try (destruct j; discriminate Hat).
    rewrite (nth_error_set_nth _ i _ _ l Ek).
    apply IH; exact Hat.
Qed.

Lemma extract_post_content_eq (soup : Bs4.soup) (nm : str)
  (attrs : list (str * Bs4.attr_value)) (kids : list Bs4.node)
  (pl : Bs4.place) :
  Bs4.find (Bs4.is_tag_class "div" "entry-content") soup
    = Some (Bs4.Elem nm attrs kids) ->
  Bs4.find_place (Bs4.is_tag_class "div" "entry-content") soup = Some pl ->
  names_without_gt attrs = true ->
  Bs4.lookup "class" attrs = Some (Bs4.AList ["entry-content"]) ->
  extract_post_content soup
  = (Py.strip (Bs4.inner_html (Bs4.decompose_all unwanted kids)),
     Bs4.put_place soup pl
       (Bs4.Elem nm attrs (Bs4.decompose_all unwanted kids))).
Proof.
  intros Hfind Hplace Hnames Hclass.
  rewrite <- (extract_post_content_exact soup nm attrs kids Hfind Hnames Hclass).
  unfold extract_post_content; rewrite Hfind, Hplace; reflexivity.
Qed.

Lemma find_place_holds (p : Bs4.node -> bool) (l : list Bs4.node)
  (pl : Bs4.place) :
  Bs4.find_place p l = Some pl -> exists m, Bs4.at_place l pl = Some m.
Proof.
  intros Hplace.
  assert (H : place_agrees p l).
  { apply place_agrees_list, Forall_forall; intros k _.
    apply place_agrees_all. }
  unfold place_agrees in H; rewrite Hplace in H.
  destruct H as (m & Hat & _); exists m; exact Hat.
Qed.

(** The place that [process_static_page] keeps in [content_elem] still
    holds an element after [extract_post_content] has changed the
    document: the branch of the model for a place that holds nothing is
    never taken. *)
Lemma content_place_holds (soup : Bs4.soup) (pl : Bs4.place) :
  or_else (Bs4.find_place (Bs4.is_tag_class "div" "entry-content") soup)
    (or_else (Bs4.find_place (Bs4.is_tag "main") soup)
       (Bs4.find_place (Bs4.is_tag_class "div" "site-content") soup))
  = Some pl ->
  exists e, Bs4.at_place (snd (extract_post_content soup)) pl = Some e.
Proof.
  unfold extract_post_content.
  destruct (Bs4.find (Bs4.is_tag_class "div" "entry-content") soup)
    as [n|] eqn:Hfind.
  - destruct (find_place_find _ _ _ Hfind) as (pl0 & Hplace & Hat).
    rewrite Hplace; cbn [or_else]; intros H; inversion H; subst pl0.
    pose proof (find_sat _ _ _ Hfind) as Hsat.
    destruct n as [s|s|s|nm attrs kids]; try discriminate Hsat.
    cbn [snd]; eexists; eapply at_place_put; exact Hat.
  - rewrite (find_place_none _ _ Hfind); cbn [or_else snd].
    destruct (Bs4.find_place (Bs4.is_tag "main") soup) as [pl1|] eqn:Hmain;
      cbn [or_else].
    + intros H; inversion H; subst pl1.
      eapply find_place_holds; exact Hmain.
    + apply find_place_holds.
Qed.

Lemma written_print (line : str) (o : output) :
  written (print line o) = written o.
Proof. reflexivity. Qed.

Lemma written_create (m : metadata) (content path : str) (o : output) :
  written (create_hugo_content_file m content path o)
  = written o ++ [(path, file_text m content)].
Proof. reflexivity. Qed.

Lemma in_written_new (path text path' text' : str) (o : output) :
  In (path, text) (written o ++ [(path', text')]) ->
  In (path, text) (written o) \/ text = text'.
Proof.
  intros H; apply in_app_or in H; destruct H as [H|[H|[]]]; [left; exact H|].
  right; inversion H; reflexivity.
Qed.

(** *** Parts of a markup *)

Lemma part_of_refl (s : str) : part_of s s.
Proof. exists [], []; rewrite app_nil_r; reflexivity. Qed.

Lemma part_of_trans (a b c : str) : part_of a b -> part_of b c -> part_of a c.
Proof.
  intros (x & y & ->) (v & w & ->).
  exists (v ++ x), (y ++ w); rewrite <- !app_assoc; reflexivity.
Qed.

Lemma part_of_suffix (a b : str) : part_of b (a ++ b).
Proof. exists a, []; rewrite app_nil_r; reflexivity. Qed.

Lemma part_of_prefix (a b : str) : part_of a (a ++ b).
Proof. exists [], b; reflexivity. Qed.

Lemma part_of_middle (a b c : str) : part_of b (a ++ b ++ c).
Proof. exists a, c; reflexivity. Qed.

Lemma lstrip_suffix (s : str) : exists w, s = w ++ Py.lstrip s.
Proof.
  induction s as [|c s (w & IH)]; [exists []; reflexivity|].
  cbn [Py.lstrip]; destruct (Py.isspace c).
  - exists (c :: w); cbn [app]; rewrite <- IH; reflexivity.
  - exists []; reflexivity.
Qed.

Lemma rstrip_prefix (s : str) : exists w, s = Py.rstrip s ++ w.
Proof.
  destruct (lstrip_suffix (rev s)) as (w & H).
  exists (rev w); unfold Py.rstrip.
  rewrite <- rev_app_distr, <- H, rev_involutive; reflexivity.
Qed.

Lemma part_of_strip (s : str) : part_of (Py.strip s) s.
Proof.
  unfold Py.strip.
  destruct (lstrip_suffix s) as (w & Hl).
  destruct (rstrip_prefix (Py.lstrip s)) as (v & Hr).
  exists w, v; rewrite <- Hr; exact Hl.
Qed.

(** The last character of what [rstrip] returns is not white space. *)
Lemma rstrip_last (s t : str) (c : ascii) :
  Py.rstrip s = t ++ [c] -> Py.isspace c = false.
Proof.
  unfold Py.rstrip; intros H.
  apply (f_equal (@rev ascii)) in H.
  rewrite rev_involutive, rev_app_distr in H; cbn [rev app] in H.
  assert (G : forall x, match Py.lstrip x with
                        | [] => True
                        | d :: _ => Py.isspace d = false
                        end).
  { induction x as [|d x IH]; [exact I|].
    cbn [Py.lstrip]; destruct (Py.isspace d) eqn:E; [exact IH | exact E]. }
  specialize (G (rev s)); rewrite H in G; exact G.
Qed.

Lemma cut_inv (c : ascii) (s u rest : str) :
  Re.cut c s = Some (u, rest) -> s = u ++ c :: rest.
Proof.
  revert u; induction s as [|x s IH]; intros u; cbn [Re.cut]; [discriminate|].
  destruct (Ascii.eqb x c) eqn:E.
  - apply Ascii.eqb_eq in E; subst x.
    intros H; inversion H; reflexivity.
  - destruct (Re.cut c s) as [[u' v]|]; [|discriminate].
    intros H; inversion H; subst; rewrite (IH u' eq_refl); reflexivity.
Qed.

Lemma part_of_sub_open_wrapper (s : str) : part_of (Re.sub_open_wrapper s) s.
Proof.
  unfold Re.sub_open_wrapper.
  destruct (Py.startswith "<div" s); [|apply part_of_refl].
  destruct (Re.cut ">" (skipn 4 s)) as [[u rest]|] eqn:E; [|apply part_of_refl].
  destruct (Py.contains Re.class_entry_content u); [|apply part_of_refl].
  apply cut_inv in E.
  exists (firstn 4 s ++ u ++ [">"%char]), [].
  rewrite app_nil_r, <- !app_assoc; cbn [app].
  rewrite <- E; symmetry; apply firstn_skipn.
Qed.

(** On a text that [rstrip] returned, the second replacement takes the
    closing tag from the end, or nothing. *)
Lemma part_of_sub_close_div (s : str) :
  part_of (Re.sub_close_div (Py.rstrip s)) s.
Proof.
  destruct (rstrip_prefix s) as (w & Hs).
  apply (part_of_trans _ (Py.rstrip s)); [|exists [], w; exact Hs].
  unfold Re.sub_close_div.
  destruct (Py.endswith "</div>" (Py.rstrip s)) eqn:E1.
  - exists [], (skipn (length (Py.rstrip s) - 6) (Py.rstrip s)).
    symmetry; apply firstn_skipn.
  - destruct (Py.endswith ("</div>" ++ [newline]) (Py.rstrip s)) eqn:E2;
      [|apply part_of_refl].
    apply endswith_inv in E2; destruct E2 as (t & E2).
    rewrite app_assoc in E2.
    apply rstrip_last in E2; discriminate E2.
Qed.

Lemma part_of_find_node (p : Bs4.node -> bool) (n r : Bs4.node) :
  Bs4.find_node p n = Some r -> part_of (Bs4.to_html r) (Bs4.to_html n).
Proof.
  revert r; induction n as [s|s|s|nm attrs kids IH] using node_induction;
    intros r.
  1-3: cbn [Bs4.find_node];
       match goal with |- context [if ?b then _ else _] => destruct b end;
       [|discriminate]; intros H; inversion H; apply part_of_refl.
  rewrite find_node_elem.
  destruct (p (Bs4.Elem nm attrs kids));
    [intros H; inversion H; apply part_of_refl|].
  intros Hfind.
  assert (Hin : part_of (Bs4.to_html r) (Bs4.inner_html kids)).
  { induction IH as [|k kids Hk _ IHk]; [discriminate Hfind|].
    cbn [Bs4.find] in Hfind; cbn [Bs4.inner_html].
    destruct (Bs4.find_node p k) as [r'|] eqn:Ek.
    - inversion Hfind; subst r'.
      apply (part_of_trans _ (Bs4.to_html k)); [apply Hk; reflexivity|].
      apply part_of_prefix.
    - apply (part_of_trans _ (Bs4.inner_html kids)); [apply IHk; exact Hfind|].
      apply part_of_suffix. }
  rewrite to_html_elem.
  destruct kids as [|k kids]; [discriminate Hfind|].
  cbn [Bs4.is_nil andb].
  apply (part_of_trans _ _ _ Hin).
  exists ("<" ++ nm ++ Bs4.attrs_html attrs ++ ">"), ("</" ++ nm ++ ">").
  rewrite <- !app_assoc; reflexivity.
Qed.

Lemma part_of_find (p : Bs4.node -> bool) (l : list Bs4.node) (r : Bs4.node) :
  Bs4.find p l = Some r -> part_of (Bs4.to_html r) (Bs4.inner_html l).
Proof.
  induction l as [|k l IH]; cbn [Bs4.find Bs4.inner_html]; [discriminate|].
  destruct (Bs4.find_node p k) as [r'|] eqn:Ek.
  - intros H; inversion H; subst r'.
    apply (part_of_trans _ (Bs4.to_html k));
      [exact (part_of_find_node p k r Ek) | apply part_of_prefix].
  - intros H; apply (part_of_trans _ (Bs4.inner_html l));
      [exact (IH H) | apply part_of_suffix].
Qed.

Lemma part_of_children (nm : str) (attrs : list (str * Bs4.attr_value))
  (kids : list Bs4.node) (r : Bs4.node) (p : Bs4.node -> bool) :
  Bs4.find p kids = Some r ->
  part_of (Bs4.to_html r) (Bs4.to_html (Bs4.Elem nm attrs kids)).
Proof.
  intros Hfind.
  apply (part_of_trans _ _ _ (part_of_find p kids r Hfind)).
  rewrite to_html_elem.
  destruct kids as [|k kids]; [discriminate Hfind|].
  cbn [Bs4.is_nil andb].
  exists ("<" ++ nm ++ Bs4.attrs_html attrs ++ ">"), ("</" ++ nm ++ ">").
  rewrite <- !app_assoc; reflexivity.
Qed.

(** What [extract_post_content] returns is a part of the markup of the
    content element as the removal leaves it. *)
Lemma part_of_content (soup : Bs4.soup) (nm : str)
  (attrs : list (str * Bs4.attr_value)) (kids : list Bs4.node) :
  Bs4.find (Bs4.is_tag_class "div" "entry-content") soup
    = Some (Bs4.Elem nm attrs kids) ->
  part_of (fst (extract_post_content soup))
    (Bs4.to_html (Bs4.Elem nm attrs (Bs4.decompose_all unwanted kids))).
Proof.
  intros Hfind; unfold extract_post_content; rewrite Hfind; cbn [fst].
  eapply part_of_trans; [apply part_of_strip|].
  eapply part_of_trans; [apply part_of_sub_close_div|].
  apply part_of_sub_open_wrapper.
Qed.

Section ContentBody.

Context {dt : Datetime} {u : Unicode}.

(** Claim C3, amended.  When a document holds a [div] of class
    [entry-content], whatever its other classes: the first such [div], as
    the removal leaves it, holds no [script] and no [noscript] element, at
    any depth, and the body of every file that [process_blog_post] or
    [process_static_page] writes is a part of the markup of that [div].
    When the [div] has that class alone (and attribute names without
    [>]), the body of a post is the markup of its children, trimmed, hence
    without the tags of the [div]; and so is the body of a page, provided
    that it is not empty.  When a static page has no [div] of class
    [entry-content] but a [main] element, none of whose classes holds the
    text [site-content], the body of the file is the whole markup of that
    element, its own tags and whatever it holds included. *)
Theorem content_body_clean (ex : export) (html_file hugo_content_dir : str)
  (o : output) :
  let soup := document ex html_file in
  let content_div := Bs4.find (Bs4.is_tag_class "div" "entry-content") soup in
  (forall nm attrs kids,
     content_div = Some (Bs4.Elem nm attrs kids) ->
     names_without_gt attrs = true ->
     Bs4.lookup "class" attrs = Some (Bs4.AList ["entry-content"]) ->
     let kept := Bs4.decompose_all unwanted kids in
     let body := Py.strip (Bs4.inner_html kept) in
     Bs4.find unwanted kept = None
     /\ (forall path text,
           In (path, text)
             (written (snd (process_blog_post ex html_file hugo_content_dir o))) ->
           In (path, text) (written o)
           \/ text = file_text (extract_post_metadata soup html_file) body)
     /\ (body <> [] ->
         forall path text,
           In (path, text)
             (written (snd (process_static_page ex html_file hugo_content_dir o))) ->
           In (path, text) (written o)
           \/ text = file_text
                       (set_type "page" (extract_post_metadata soup html_file))
                       body))
  /\ (content_div = None ->
      forall main_elem,
        Bs4.find (Bs4.is_tag "main") soup = Some main_elem ->
        site_content_in (Bs4.get_class main_elem) = false ->
        forall path text,
          In (path, text)
            (written (snd (process_static_page ex html_file hugo_content_dir o))) ->
          In (path, text) (written o)
          \/ text = file_text
                      (set_type "page" (extract_post_metadata soup html_file))
                      (Bs4.to_html main_elem))
  /\ (forall nm attrs kids,
        content_div = Some (Bs4.Elem nm attrs kids) ->
        let cleaned := Bs4.Elem nm attrs (Bs4.decompose_all unwanted kids) in
        Bs4.find unwanted (Bs4.children cleaned) = None
        /\ (forall path text,
              In (path, text)
                (written
                   (snd (process_blog_post ex html_file hugo_content_dir o))) ->
              In (path, text) (written o)
              \/ exists body,
                   part_of body (Bs4.to_html cleaned)
                   /\ text
                      = file_text (extract_post_metadata soup html_file) body)
        /\ (forall path text,
              In (path, text)
                (written
                   (snd (process_static_page ex html_file hugo_content_dir
                           o))) ->
              In (path, text) (written o)
              \/ exists body,
                   part_of body (Bs4.to_html cleaned)
                   /\ text
                      = file_text
                          (set_type "page"
                             (extract_post_metadata soup html_file))
                          body)).
Proof.
  intros soup content_div; subst content_div.
  split; [|split].
  - intros nm attrs kids Hfind Hnames Hclass kept body.
    split; [apply find_decompose_all|].
    split.
    + intros path text.
      unfold process_blog_post.
      fold soup.
      rewrite (extract_post_content_exact soup nm attrs kids Hfind Hnames Hclass).
      fold kept; fold body.
      destruct (negb _ || negb _); [left; assumption|].
      destruct (Bs4.is_nil (Py.strip body)); [left; assumption|].
      cbn [snd]; rewrite written_print, written_create.
      apply in_written_new.
    + intros Hbody path text.
      destruct (find_place_find _ _ _ Hfind) as (pl & Hplace & Hat).
      unfold process_static_page.
      fold soup.
      rewrite Hplace; cbn [or_else].
      rewrite (extract_post_content_eq soup nm attrs kids pl Hfind Hplace
                 Hnames Hclass).
      fold kept; fold body.
      rewrite (at_place_put pl soup _ _ Hat).
      assert (Hnil : Bs4.is_nil body = false)
        by (destruct body; [contradiction Hbody; reflexivity | reflexivity]).
      rewrite Hnil.
      assert (Hsite : site_content_in (Bs4.get_class (Bs4.Elem nm attrs kept))
                      = false)
        by (unfold Bs4.get_class; rewrite Hclass; reflexivity).
      rewrite Hsite.
      destruct (existsb _ static_pages); [|left; assumption].
      cbn [snd]; rewrite written_print, written_create.
      apply in_written_new.
  - intros Hnone main_elem Hmain Hsite path text.
    destruct (find_place_find _ _ _ Hmain) as (pl & Hplace & Hat).
    unfold process_static_page, extract_post_content.
    fold soup.
    rewrite (find_place_none _ _ Hnone), Hplace, Hnone; cbn [or_else].
    rewrite Hat; cbn [Bs4.is_nil].
    rewrite Hsite.
    destruct (existsb _ static_pages); [|left; assumption].
    cbn [snd]; rewrite written_print, written_create.
    apply in_written_new.
  - intros nm attrs kids Hfind cleaned.
    pose proof (part_of_content soup nm attrs kids Hfind) as Hpart.
    fold cleaned in Hpart.
    split; [apply find_decompose_all|split].
    + intros path text.
      unfold process_blog_post; fold soup.
      destruct (negb _ || negb _); [left; assumption|].
      destruct (Bs4.is_nil (Py.strip (fst (extract_post_content soup))));
        [left; assumption|].
      cbn [snd]; rewrite written_print, written_create; intros H.
      apply in_written_new in H; destruct H as [H| ->]; [left; exact H|].
      right; exists (fst (extract_post_content soup)); auto.
    + intros path text.
      destruct (find_place_find _ _ _ Hfind) as (pl & Hplace & Hat).
      unfold process_static_page; fold soup.
      rewrite Hplace; cbn [or_else].
      destruct (extract_post_content soup) as [extracted soup'] eqn:E.
      assert (Hsnd : soup' = Bs4.put_place soup pl cleaned).
      { unfold extract_post_content in E; rewrite Hfind, Hplace in E.
        inversion E; reflexivity. }
      cbn [fst] in Hpart.
      rewrite Hsnd, (at_place_put pl soup _ _ Hat).
      assert (H1 : part_of (if Bs4.is_nil extracted then Bs4.to_html cleaned
                            else extracted) (Bs4.to_html cleaned))
        by (destruct extracted; [apply part_of_refl | exact Hpart]).
      destruct (existsb _ static_pages); [|left; assumption].
      cbn [snd]; rewrite written_print, written_create; intros H.
      apply in_written_new in H; destruct H as [H| ->]; [left; exact H|].
      right; eexists; split; [|reflexivity].
      destruct (site_content_in (Bs4.get_class cleaned)); [|exact H1].
      unfold cleaned at 1 2; cbn [Bs4.children].
      destruct (Bs4.find (Bs4.is_tag_class "div" "entry-content")
                  (Bs4.decompose_all unwanted kids)) as [inner|] eqn:E1;
        cbn [or_else].
      * exact (part_of_children nm attrs _ inner _ E1).
      * destruct (Bs4.find (Bs4.is_tag "main")
                    (Bs4.decompose_all unwanted kids)) as [inner|] eqn:E2;
          [|exact H1].
        exact (part_of_children nm attrs _ inner _ E2).
Qed.

End ContentBody.

(** ** Categories and tags *)

Lemma tag_not_category (cls : str) :
  Py.startswith "tag-" cls = true -> Py.startswith "category-" cls = false.
Proof.
  destruct cls as [|c cls]; [discriminate|].
  intros H; cbn [Py.startswith] in H.
  apply andb_true_iff in H; destruct H as [E _].
  apply Ascii.eqb_eq in E; subst c; reflexivity.
Qed.

Lemma classify_fold {u : Unicode} (classes : list str) (cats tgs : list str) :
  fold_left classify classes (cats, tgs)
  = (cats ++ map category_name (filter is_category classes),
     tgs ++ map tag_name (filter is_tag_class_name classes)).
Proof.
  revert cats tgs; induction classes as [|cls classes IH]; intros cats tgs.
  - simpl; rewrite !app_nil_r; reflexivity.
  - cbn [fold_left filter].
    unfold classify at 2.
    fold (is_category cls); fold (is_tag_class_name cls).
    fold (category_name cls); fold (tag_name cls).
    destruct (is_category cls) eqn:Ec.
    + assert (Et : is_tag_class_name cls = false).
      { unfold is_tag_class_name, is_category in *.
        destruct (Py.startswith "tag-" cls) eqn:E; [|reflexivity].
        rewrite (tag_not_category _ E) in Ec; discriminate. }
      rewrite Et, IH; cbn [map]; rewrite <- app_assoc; reflexivity.
    + destruct (is_tag_class_name cls); rewrite IH; cbn [map];
        rewrite <- ?app_assoc; reflexivity.
Qed.

Lemma if_nonempty_none (l : list str) : if_nonempty l = None <-> l = [].
Proof. destruct l; simpl; split; congruence. Qed.

Section Taxonomy.
Context {dt : Datetime} {u : Unicode}.

(** Claim C6.  The categories are the names of the classes that start
    with [category-], [category-uncategorized] apart, and the tags those
    of the classes that start with [tag-], in the order of the class list,
    and a key is absent exactly when its list is empty.  The name that
    the script makes is the class with every occurrence of [category-] or
    [tag-] taken out, where the prefix alone is meant, its hyphens turned
    to spaces, in title case. *)
Theorem categories_and_tags (soup : Bs4.soup) (file_path : str)
  (article_elem : Bs4.node) :
  Bs4.find (Bs4.is_tag "article") soup = Some article_elem ->
  let classes := Bs4.get_class article_elem in
  let cats := map category_name (filter is_category classes) in
  let tgs := map tag_name (filter is_tag_class_name classes) in
  categories (extract_post_metadata soup file_path) = if_nonempty cats
  /\ tags (extract_post_metadata soup file_path) = if_nonempty tgs
  /\ (categories (extract_post_metadata soup file_path) = None <-> cats = [])
  /\ (tags (extract_post_metadata soup file_path) = None <-> tgs = []).
Proof.
  intros Hfind classes cats tgs.
  assert (Hc : categories (extract_post_metadata soup file_path) = if_nonempty cats).
  { unfold extract_post_metadata; cbn [categories].
    rewrite Hfind; fold classes.
    rewrite classify_fold; reflexivity. }
  assert (Ht : tags (extract_post_metadata soup file_path) = if_nonempty tgs).
  { unfold extract_post_metadata; cbn [tags].
    rewrite Hfind; fold classes.
    rewrite classify_fold; reflexivity. }
  rewrite Hc, Ht.
  repeat split; try apply if_nonempty_none.
Qed.
End Taxonomy.

(** The classes [category-travel], [category-uncategorized] and
    [tag-europe] give the category [Travel] and the tag [Europe]; the
    class [tag-hashtag-fun] gives the tag [Hashfun]. *)
Lemma categories_and_tags_witness :
  let soup := Sample.article ["category-travel"; "category-uncategorized"; "tag-europe"] in
  let soup' := Sample.article ["tag-hashtag-fun"] in
  (categories (extract_post_metadata soup "export/2012/03/my-post/index.html") = Some ["Travel"]
   /\ tags (extract_post_metadata soup "export/2012/03/my-post/index.html") = Some ["Europe"])
  /\ categories (extract_post_metadata soup' "export/2012/03/my-post/index.html") = None
  /\ tags (extract_post_metadata soup' "export/2012/03/my-post/index.html") = Some ["Hashfun"].
Proof.
  intros soup soup'.
  destruct (categories_and_tags (dt := iso_dates) soup "export/2012/03/my-post/index.html" _ eq_refl)
    as (Hc & Ht & _).
  destruct (categories_and_tags (dt := iso_dates) soup' "export/2012/03/my-post/index.html" _ eq_refl)
    as (Hc' & Ht' & _).
  split; [split; [exact Hc | exact Ht]|].
  split; [exact Hc' | exact Ht'].
Defined.

(** The class [tag-hashtag-fun] loses both occurrences of [tag-] and gives
    the tag [Hashfun], where stripping the prefix gives [Hashtag Fun]. *)
Lemma tag_name_not_prefix_strip :
  tags (extract_post_metadata (Sample.article ["tag-hashtag-fun"]) "export/2012/03/my-post/index.html")
    = Some ["Hashfun"]
  /\ Spec.name_of_class "tag-" "tag-hashtag-fun" = "Hashtag Fun"
  /\ tags (extract_post_metadata (Sample.article ["tag-hashtag-fun"]) "export/2012/03/my-post/index.html")
     <> Some [Spec.name_of_class "tag-" "tag-hashtag-fun"].
Proof. repeat split; vm_compute; discriminate. Qed.

(** ** The title *)

Lemma startswith_refl (p : str) : Py.startswith p p = true.
Proof. rewrite <- (app_nil_r p) at 2; apply startswith_app. Qed.

Lemma startswith_long (p s t : str) :
  length p <= length s -> Py.startswith p (s ++ t) = Py.startswith p s.
Proof.
  revert s; induction p as [|x p IH]; intros s H; [reflexivity|].
  destruct s as [|y s]; [simpl in H; lia|].
  cbn [Py.startswith app]; rewrite IH by (simpl in H; lia); reflexivity.
Qed.

Lemma replace_from_skip_all (old new s : str) :
  Py.replace_from old new (length s) s = [].
Proof. induction s as [|c s IH]; simpl; [reflexivity | exact IH]. Qed.

Lemma contains_cons (p : str) (c : ascii) (s : str) :
  Py.contains p (c :: s) = Py.startswith p (c :: s) || Py.contains p s.
Proof. reflexivity. Qed.

(** Removing every occurrence of a text that occurs only once, at the end,
    removes that suffix. *)
Lemma replace_only_suffix (old x : str) :
  old <> [] ->
  Py.contains old (x ++ removelast old) = false ->
  Py.replace old [] (x ++ old) = x.
Proof.
  intros Hold; unfold Py.replace.
  induction x as [|c x IH]; intros Hx.
  - destruct old as [|c old]; [contradiction Hold; reflexivity|].
    cbn [app Py.replace_from].
    rewrite startswith_refl.
    cbn [length]; rewrite Nat.sub_succ, Nat.sub_0_r.
    apply replace_from_skip_all.
  - cbn [app] in Hx; rewrite contains_cons in Hx.
    apply orb_false_iff in Hx; destruct Hx as [Hhere Hx].
    cbn [app Py.replace_from].
    assert (E : old = removelast old ++ [last old "a"%char])
      by (apply app_removelast_last; exact Hold).
    assert (L : length old = length (removelast old) + 1)
      by (rewrite E at 1; rewrite length_app; reflexivity).
    assert (Hno : Py.startswith old (c :: x ++ old) = false).
    { rewrite E at 2.
      rewrite app_assoc.
      change (c :: (x ++ removelast old) ++ [last old "a"%char])
        with ((c :: x ++ removelast old) ++ [last old "a"%char]).
      rewrite startswith_long; [exact Hhere|].
      cbn [length]; rewrite length_app; lia. }
    rewrite Hno, (IH Hx); reflexivity.
Qed.

Lemma strip_suffix_app (suffix x : str) :
  Spec.strip_suffix suffix (x ++ suffix) = x.
Proof.
  unfold Spec.strip_suffix.
  rewrite endswith_app, length_app, Nat.add_sub, firstn_app, firstn_all,
    Nat.sub_diag.
  apply app_nil_r.
Qed.

Section Title.
Context {dt : Datetime} {u : Unicode}.

(** Claim C7, amended.  The title is the trimmed text of the first [h1] of
    class [entry-title]; without one, the text of the first [title]
    element with every occurrence of the site name removed, then trimmed,
    which is that text without its suffix, trimmed, when the site name
    occurs at its end and nowhere else; without either, [Untitled]. *)
Theorem title_fallbacks (soup : Bs4.soup) (file_path : str) :
  let title := title (extract_post_metadata soup file_path) in
  let heading := Bs4.find (Bs4.is_tag_class "h1" "entry-title") soup in
  let title_elem := Bs4.find (Bs4.is_tag "title") soup in
  (forall e, heading = Some e -> title = Py.strip (Bs4.get_text e))
  /\ (heading = None ->
      forall e, title_elem = Some e ->
        title = Py.strip (Py.replace site_suffix [] (Bs4.get_text e))
        /\ forall x, Bs4.get_text e = x ++ site_suffix ->
             Py.contains site_suffix (x ++ removelast site_suffix) = false ->
             title = Py.strip x
             /\ title = Py.strip (Spec.strip_suffix site_suffix (Bs4.get_text e)))
  /\ (heading = None -> title_elem = None -> title = "Untitled").
Proof.
  intros t heading title_elem; subst t.
  unfold extract_post_metadata; cbn [title].
  fold heading; fold title_elem.
  split; [|split].
  - intros e ->; reflexivity.
  - intros -> e ->.
    split; [reflexivity|].
    intros x Hx Honce.
    rewrite Hx, strip_suffix_app, replace_only_suffix;
      [split; reflexivity | discriminate | exact Honce].
  - intros -> ->; reflexivity.
Qed.
End Title.

(** A title element that ends with the site name gives the text before it. *)
Lemma title_fallbacks_witness :
  title (extract_post_metadata (Sample.titled "Foo – Adam Wulf") "export/2012/03/foo/index.html")
  = "Foo".
Proof.
  destruct (title_fallbacks (dt := iso_dates) (Sample.titled "Foo – Adam Wulf")
              "export/2012/03/foo/index.html") as (_ & H & _).
  destruct (H eq_refl _ eq_refl) as [_ H'].
  destruct (H' "Foo" eq_refl eq_refl) as [H'' _].
  exact H''.
Defined.

(** A title element that holds the site name in the middle loses it,
    although it is no suffix. *)
Lemma title_loses_inner_site_name :
  let soup := Sample.titled "Foo – Adam Wulf – Blog" in
  title (extract_post_metadata soup "export/2012/03/foo/index.html")
    = "Foo – Blog"
  /\ Py.strip (Spec.strip_suffix site_suffix "Foo – Adam Wulf – Blog")
     = "Foo – Adam Wulf – Blog"
  /\ title (extract_post_metadata soup "export/2012/03/foo/index.html")
     <> Py.strip (Spec.strip_suffix site_suffix "Foo – Adam Wulf – Blog").
Proof. repeat split; vm_compute; discriminate. Qed.

(** ** The scan *)

Lemma split_from_app (sep : ascii) (a b cur : str) :
  Py.split_from sep cur (a ++ sep :: b)
  = Py.split_from sep cur a ++ Py.split_from sep [] b.
Proof.
  revert cur; induction a as [|c a IH]; intros cur; cbn [app Py.split_from].
  - rewrite Ascii.eqb_refl; reflexivity.
  - destruct (Ascii.eqb c sep); rewrite IH; reflexivity.
Qed.

Lemma split_from_not_nil (sep : ascii) (s cur : str) :
  Py.split_from sep cur s <> [].
Proof.
  revert cur; induction s as [|c s IH]; intros cur; cbn [Py.split_from];
    [discriminate|].
  destruct (Ascii.eqb c sep); [discriminate | apply IH].
Qed.

Lemma join_cons (sep x : str) (l : list str) :
  l <> [] -> Py.join sep (x :: l) = x ++ sep ++ Py.join sep l.
Proof. destruct l; [intros H; contradiction H|]; reflexivity. Qed.

Lemma join_app (sep : str) (l1 l2 : list str) :
  l1 <> [] -> l2 <> [] ->
  Py.join sep (l1 ++ l2) = Py.join sep l1 ++ sep ++ Py.join sep l2.
Proof.
  intros H1 H2; induction l1 as [|x l1 IH]; [contradiction H1; reflexivity|].
  destruct l1 as [|y l1].
  - cbn [app]; rewrite join_cons by exact H2; reflexivity.
  - change ((x :: y :: l1) ++ l2) with (x :: ((y :: l1) ++ l2)).
    rewrite !join_cons by discriminate.
    rewrite IH by discriminate.
    rewrite <- !app_assoc; reflexivity.
Qed.

(** Joining the segments of a string gives the string back. *)
Lemma join_split_from (sep : ascii) (s cur : str) :
  Py.join [sep] (Py.split_from sep cur s) = rev cur ++ s.
Proof.
  revert cur; induction s as [|c s IH]; intros cur; cbn [Py.split_from].
  - symmetry; apply app_nil_r.
  - destruct (Ascii.eqb c sep) eqn:E.
    + apply Ascii.eqb_eq in E; subst c.
      rewrite join_cons by apply split_from_not_nil.
      rewrite IH; reflexivity.
    + rewrite IH; cbn [rev]; rewrite <- app_assoc; reflexivity.
Qed.

Lemma join_split (sep : ascii) (s : str) :
  Py.join [sep] (Py.split sep s) = s.
Proof. apply (join_split_from sep s []). Qed.

Lemma nth_last_app (l : list str) (x : str) (r : list str) :
  Py.nth_last (S (length r)) (l ++ x :: r) = x.
Proof.
  unfold Py.nth_last.
  rewrite length_app; cbn [length].
  replace (length l + S (length r) - S (length r)) with (length l) by lia.
  apply nth_middle.
Qed.

Lemma nth_last_4 (pre : list str) (y m sg x : str) :
  Py.nth_last 4 (pre ++ [y; m; sg; x]) = y.
Proof. exact (nth_last_app pre y [m; sg; x]). Qed.

(** A list of at least three items ends with three items. *)
Lemma last_three (A : Type) (l : list A) :
  3 <= length l -> exists pre a b c, l = pre ++ [a; b; c].
Proof.
  intros H.
  destruct (rev l) as [|c [|b [|a r]]] eqn:E;
    try (apply (f_equal (@length A)) in E; rewrite length_rev in E;
         simpl in E; lia).
  exists (rev r), a, b, c.
  rewrite <- (rev_involutive l), E; cbn [rev].
  rewrite <- !app_assoc; reflexivity.
Qed.

(** Claim C5.  The scan keeps a file exactly when its path ends with four
    segments of which the last is [index.html] and the first starts with
    four digits.  The two segments between them are not looked at, so
    that a page of the archive of a year is kept, where the script means
    to skip the pagination. *)
Theorem post_candidate_iff (html_file : str) :
  post_candidate html_file = true
  <-> exists pre year month segment,
        Py.split "/" html_file = pre ++ [year; month; segment; "index.html"]
        /\ Re.match_4digits year = true.
Proof.
  unfold post_candidate; split.
  - intros H.
    apply andb_true_iff in H; destruct H as [Hend H].
    apply andb_true_iff in H; destruct H as [Hlen Hyear].
    apply endswith_inv in Hend; destruct Hend as [q ->].
    apply Nat.leb_le in Hlen.
    change "/index.html" with ("/"%char :: "index.html") in *.
    unfold Py.split in *; rewrite split_from_app in *.
    change (Py.split_from "/" [] "index.html") with ["index.html"] in *.
    rewrite length_app in Hlen; cbn [length] in Hlen.
    destruct (last_three _ (Py.split_from "/" [] q)) as (pre & y & m & sg & E);
      [lia|].
    rewrite E in *; rewrite <- app_assoc in *.
    exists pre, y, m, sg; split; [reflexivity|].
    change (pre ++ [y; m; sg] ++ ["index.html"])
      with (pre ++ [y; m; sg; "index.html"]) in Hyear.
    rewrite nth_last_4 in Hyear.
    exact Hyear.
  - intros (pre & y & m & sg & E & Hyear).
    rewrite E.
    rewrite nth_last_4, Hyear.
    rewrite length_app; cbn [length].
    replace (4 <=? length pre + 4) with true by (symmetry; apply Nat.leb_le; lia).
    rewrite !andb_true_r.
    rewrite <- (join_split "/" html_file), E.
    change (pre ++ [y; m; sg; "index.html"])
      with (pre ++ [y; m; sg] ++ ["index.html"]).
    rewrite app_assoc, join_app;
      [| destruct pre; discriminate | discriminate].
    apply endswith_app.
Qed.

(** The second page of the archive of the year 2012 ends with the four
    segments [2012], [page], [2] and [index.html]. *)
Lemma post_candidate_iff_witness :
  Py.split "/" "export/2012/page/2/index.html"
  = ["export"; "2012"; "page"; "2"; "index.html"]
  /\ post_candidate "export/2012/page/2/index.html" = true.
Proof.
  split; [reflexivity|].
  apply (proj2 (post_candidate_iff "export/2012/page/2/index.html")).
  exists ["export"], "2012", "page", "2"; split; reflexivity.
Defined.

(** The second page of the archive of the year 2012 is kept by the scan,
    although its month segment is no numeral. *)
Lemma pagination_selected :
  post_candidate "export/2012/page/2/index.html" = true
  /\ Spec.post_path "export/2012/page/2/index.html" = false.
Proof. split; reflexivity. Qed.

(** ** The front matter *)

Lemma escape_quotes_cons (c : ascii) (s : str) :
  escape_quotes (c :: s)
  = if Ascii.eqb dquote c then backslash :: dquote :: escape_quotes s
    else c :: escape_quotes s.
Proof.
  unfold escape_quotes, Py.replace.
  cbn [Py.replace_from Py.startswith length Nat.sub app].
  rewrite andb_true_r; reflexivity.
Qed.

Lemma escape_quotes_head (s : str) :
  Py.startswith [dquote] (escape_quotes s) = false.
Proof.
  destruct s as [|c s]; [reflexivity|].
  rewrite escape_quotes_cons.
  destruct (Ascii.eqb dquote c) eqn:E; [reflexivity|].
  cbn [Py.startswith]; rewrite E; reflexivity.
Qed.

(** The escaping of the title can be undone. *)
Lemma unescape_escape (s : str) : unescape_quotes (escape_quotes s) = s.
Proof.
  induction s as [|c s IH]; [reflexivity|].
  rewrite escape_quotes_cons.
  destruct (Ascii.eqb dquote c) eqn:E.
  - apply Ascii.eqb_eq in E; subst c.
    unfold unescape_quotes, Py.replace in *.
    cbn [Py.replace_from Py.startswith length Nat.sub app].
    rewrite !Ascii.eqb_refl; cbn [andb app].
    rewrite IH; reflexivity.
  - unfold unescape_quotes, Py.replace in *.
    cbn [Py.replace_from].
    assert (Hno : Py.startswith [backslash; dquote] (c :: escape_quotes s) = false).
    { cbn [Py.startswith].
      destruct (Ascii.eqb backslash c); [|reflexivity].
      cbn [andb].
      pose proof (escape_quotes_head s) as H.
      destruct (escape_quotes s); [reflexivity|].
      cbn [Py.startswith] in H; rewrite andb_true_r in H.
      rewrite H; reflexivity. }
    rewrite Hno, IH; reflexivity.
Qed.

Lemma escape_quotes_injective (s t : str) :
  escape_quotes s = escape_quotes t -> s = t.
Proof.
  intros H; rewrite <- (unescape_escape s), <- (unescape_escape t), H.
  reflexivity.
Qed.

Lemma quotes_escaped_escape (s : str) (b : bool) :
  quotes_escaped b (escape_quotes s) = true.
Proof.
  revert b; induction s as [|c s IH]; intros b; [reflexivity|].
  rewrite escape_quotes_cons.
  destruct (Ascii.eqb dquote c) eqn:E.
  - cbn [quotes_escaped]; rewrite IH; reflexivity.
  - cbn [quotes_escaped]; rewrite IH, Ascii.eqb_sym, E; reflexivity.
Qed.

Lemma no_newline_app (a b : str) :
  no_newline (a ++ b) = no_newline a && no_newline b.
Proof. apply forallb_app. Qed.

Lemma no_newline_escape (s : str) :
  no_newline s = true -> no_newline (escape_quotes s) = true.
Proof. intros H; apply replace_from_forallb; [reflexivity | exact H]. Qed.

Lemma split_from_no_sep (sep : ascii) (s cur : str) :
  forallb (fun c => negb (Ascii.eqb c sep)) s = true ->
  Py.split_from sep cur s = [rev cur ++ s].
Proof.
  revert cur; induction s as [|c s IH]; intros cur H; cbn [Py.split_from].
  - rewrite app_nil_r; reflexivity.
  - cbn [forallb] in H; apply andb_true_iff in H; destruct H as [Hc H].
    apply negb_true_iff in Hc; rewrite Hc, (IH _ H).
    cbn [rev]; rewrite <- app_assoc; reflexivity.
Qed.

(** The first line of a text whose first line holds no line feed. *)
Lemma split_line (line rest : str) :
  no_newline line = true ->
  Py.split newline (line ++ newline :: rest) = line :: Py.split newline rest.
Proof.
  intros H; unfold Py.split.
  rewrite split_from_app, (split_from_no_sep newline line [] H); reflexivity.
Qed.

Lemma skipn_length_app (A : Type) (a b : list A) : skipn (length a) (a ++ b) = b.
Proof. induction a as [|x a IH]; [reflexivity | exact IH]. Qed.

Lemma firstn_length_app (A : Type) (a b : list A) : firstn (length a) (a ++ b) = a.
Proof. induction a as [|x a IH]; [reflexivity | simpl; rewrite IH; reflexivity]. Qed.

Lemma between_value (prefix v : str) :
  Spec.between prefix (prefix ++ v ++ [dquote]) = Some v.
Proof.
  unfold Spec.between.
  rewrite startswith_app, app_assoc, endswith_app.
  rewrite !length_app; cbn [length andb].
  replace (length prefix + 1 <=? length prefix + length v + 1) with true
    by (symmetry; apply Nat.leb_le; lia).
  rewrite <- app_assoc, skipn_length_app.
  replace (length prefix + length v + 1 - length prefix - 1) with (length v)
    by lia.
  rewrite firstn_length_app; reflexivity.
Qed.

Lemma front_matter_lines (m : metadata) :
  exists rest last,
    front_matter m
    = "+++"
      :: ("title = " ++ [dquote] ++ escape_quotes (title m) ++ [dquote])
      :: ("date = " ++ [dquote] ++ date m ++ [dquote])
      :: ("slug = " ++ [dquote] ++ slug m ++ [dquote])
      :: rest ++ [last].
Proof.
  unfold front_matter.
  destruct (categories m) as [cats|], (tags m) as [tgs|]; cbn [app];
    eexists _, "+++".
  - instantiate (1 := [_; _; _]); reflexivity.
  - instantiate (1 := [_; _]); reflexivity.
  - instantiate (1 := [_; _]); reflexivity.
  - instantiate (1 := [_]); reflexivity.
Qed.

(** The reader gives back what the writer was given, line feeds apart. *)
Lemma parse_file_text (m : metadata) (content : str) :
  no_newline (title m) = true ->
  no_newline (date m) = true ->
  no_newline (slug m) = true ->
  Spec.parse_front_matter (file_text m content)
  = Some (title m, date m, slug m).
Proof.
  intros Ht Hd Hs.
  unfold file_text, Spec.parse_front_matter.
  destruct (front_matter_lines m) as (rest & last & ->).
  set (tl := "title = " ++ [dquote] ++ escape_quotes (title m) ++ [dquote]).
  set (dl := "date = " ++ [dquote] ++ date m ++ [dquote]).
  set (sl := "slug = " ++ [dquote] ++ slug m ++ [dquote]).
  rewrite !join_cons by (try discriminate; destruct rest; discriminate).
  rewrite <- !app_assoc.
  repeat change ([newline] ++ ?x) with (newline :: x).
  rewrite split_line by reflexivity.
  rewrite split_line
    by (unfold tl; rewrite !no_newline_app, no_newline_escape by exact Ht;
        reflexivity).
  rewrite split_line
    by (unfold dl; rewrite !no_newline_app, Hd; reflexivity).
  assert (Hsl : no_newline sl = true)
    by (unfold sl; rewrite !no_newline_app, Hs; reflexivity).
  unfold Py.split; rewrite split_from_app.
  rewrite (split_from_no_sep newline sl [] Hsl).
  cbn [rev app].
  unfold tl, dl, sl.
  change ("title = " ++ [dquote] ++ escape_quotes (title m) ++ [dquote])
    with (("title = " ++ [dquote]) ++ escape_quotes (title m) ++ [dquote]).
  change ("date = " ++ [dquote] ++ date m ++ [dquote])
    with (("date = " ++ [dquote]) ++ date m ++ [dquote]).
  change ("slug = " ++ [dquote] ++ slug m ++ [dquote])
    with (("slug = " ++ [dquote]) ++ slug m ++ [dquote]).
  rewrite !between_value.
  fold (unescape_quotes (escape_quotes (title m))).
  rewrite unescape_escape; reflexivity.
Qed.

(** Claim C8, amended.  When the title, the date and the slug hold no line
    feed, the file that the writer writes reads back to them, so that two
    such files are equal only for the same title, date and slug; and the
    escaping of the double quotes of the title is injective. *)
Theorem front_matter_round_trip (m : metadata) (content output_path : str)
  (o : output) :
  no_newline (title m) = true ->
  no_newline (date m) = true ->
  no_newline (slug m) = true ->
  (exists text,
     written (create_hugo_content_file m content output_path o)
       = written o ++ [(output_path, text)]
     /\ Spec.parse_front_matter text = Some (title m, date m, slug m))
  /\ (forall m' content',
        no_newline (title m') = true ->
        no_newline (date m') = true ->
        no_newline (slug m') = true ->
        file_text m content = file_text m' content' ->
        title m = title m' /\ date m = date m' /\ slug m = slug m')
  /\ (forall t, escape_quotes t = escape_quotes (title m) -> t = title m).
Proof.
  intros Ht Hd Hs.
  split; [|split].
  - exists (file_text m content); split; [reflexivity|].
    apply parse_file_text; assumption.
  - intros m' content' Ht' Hd' Hs' Hsame.
    pose proof (parse_file_text m content Ht Hd Hs) as H.
    rewrite Hsame, (parse_file_text m' content' Ht' Hd' Hs') in H.
    inversion H; auto.
  - intros t; apply escape_quotes_injective.
Qed.

(** A title over two lines does not read back; and as two different
    dictionaries give the same file, no reader reads every file back. *)
Lemma round_trip_fails :
  Spec.parse_front_matter (file_text Sample.wrapped "<p>x</p>")
    <> Some (title Sample.wrapped, date Sample.wrapped, slug Sample.wrapped)
  /\ ~ (exists read : str -> option (str * str * str),
          forall m content,
            read (file_text m content) = Some (title m, date m, slug m)).
Proof.
  split.
  - vm_compute; discriminate.
  - intros (read & H).
    pose proof (H Sample.m1 "<p>x</p>") as H1.
    pose proof (H Sample.m2 "<p>x</p>") as H2.
    change (file_text Sample.m2 "<p>x</p>") with (file_text Sample.m1 "<p>x</p>") in H2.
    rewrite H1 in H2.
    vm_compute in H2; discriminate H2.
Qed.

(** The file of the sample post reads back to its title, date and slug. *)
Lemma front_matter_round_trip_witness :
  exists text,
    written (create_hugo_content_file
               (extract_post_metadata Sample.post "export/2012/03/my-post/index.html")
               "<p>Hello</p>" "hugo/content/posts/2012/2012/my-post.html"
               Sample.no_output)
      = [("hugo/content/posts/2012/2012/my-post.html", text)]
    /\ Spec.parse_front_matter text
       = Some ("My Post", "2012-2012-01T00:00:00+00:00", "my-post").
Proof.
  destruct (front_matter_round_trip
              (extract_post_metadata Sample.post "export/2012/03/my-post/index.html")
              "<p>Hello</p>" "hugo/content/posts/2012/2012/my-post.html"
              Sample.no_output eq_refl eq_refl eq_refl) as [H _].
  exact H.
Defined.

(** The escaping of the script puts a backslash before each double
    quote, and its lists of names are the quoted names. *)
Lemma escape_backslash_quotes (s : str) :
  escape_quotes s = backslash_quotes s.
Proof.
  induction s as [|c s IH]; [reflexivity|].
  rewrite escape_quotes_cons, IH; cbn [backslash_quotes flat_map].
  rewrite Ascii.eqb_sym; destruct (Ascii.eqb c dquote); reflexivity.
Qed.

Lemma join_quoted_names (l : list str) :
  Py.join ", " (map quote_item l) = quoted_names l.
Proof.
  induction l as [|x l IH]; [reflexivity|].
  destruct l as [|y l]; [reflexivity|].
  change (map quote_item (x :: y :: l))
    with (quote_item x :: map quote_item (y :: l)).
  rewrite join_cons by discriminate.
  rewrite IH; unfold quote_item; cbn [quoted_names].
  rewrite <- !app_assoc; reflexivity.
Qed.

Section Writer.
Context {dt : Datetime} {u : Unicode}.

(** Claim C10.  The file that the writer adds holds, between the quotes of
    its title line, the title with a backslash put before each of its
    double quotes, while the date, the slug and every category and tag
    name stand between their quotes as they are, their double quotes
    included; and the date is the trimmed text of the date element,
    whatever characters it holds, when the element has no [datetime]
    attribute, an empty one or one that the date library rejects. *)
Theorem only_title_is_escaped (m : metadata) (content output_path : str)
  (o : output) :
  written (create_hugo_content_file m content output_path o)
  = written o
    ++ [(output_path,
         text_of_values (backslash_quotes (title m)) (date m) (slug m)
           (categories m) (tags m) content)]
  /\ quotes_escaped false (backslash_quotes (title m)) = true
  /\ (forall soup file_path date_elem,
        Bs4.find (Bs4.is_tag_class "time" "entry-date") soup = Some date_elem ->
        match Bs4.get_attr "datetime" date_elem with
        | None => True
        | Some date_str =>
            Bs4.is_nil date_str = true
            \/ isoformat (Py.replace "Z" "+00:00" date_str) = None
        end ->
        date (extract_post_metadata soup file_path)
        = Py.strip (Bs4.get_text date_elem)).
Proof.
  split; [|split].
  - rewrite written_create; do 3 f_equal.
    unfold file_text, front_matter, text_of_values.
    fold (escape_quotes (title m)); rewrite escape_backslash_quotes.
    destruct (categories m) as [cats|], (tags m) as [tgs|];
      rewrite ?join_quoted_names; cbn [app Py.join];
      repeat first [rewrite <- app_assoc | progress cbn [app]]; reflexivity.
  - rewrite <- escape_backslash_quotes; apply quotes_escaped_escape.
  - intros soup file_path date_elem Hfind Hattr.
    unfold extract_post_metadata; cbn [date].
    rewrite Hfind.
    destruct (Bs4.get_attr "datetime" date_elem) as [date_str|];
      [|reflexivity].
    destruct Hattr as [Hnil|Hiso]; [rewrite Hnil; reflexivity|].
    rewrite Hiso; destruct (Bs4.is_nil date_str); reflexivity.
Qed.
End Writer.

(** The file of a post whose title, date text and tag class hold double
    quotes: those of the title follow a backslash, the others stand as
    they are. *)
Lemma only_title_is_escaped_witness :
  let html_file := "export/2012/03/my-post/index.html" in
  let m := extract_post_metadata Sample.quoted_post html_file in
  date m = Sample.quoted_date
  /\ tags m = Some ["X" ++ [dquote] ++ "Y"]
  /\ written (create_hugo_content_file m "<p>Hello</p>" "out.html"
                Sample.no_output)
     = [("out.html", quoted_post_text)]
  /\ written (snd (process_blog_post
                     (Sample.one_file html_file Sample.quoted_post)
                     html_file "hugo/content" Sample.no_output))
     = [("hugo/content/posts/2012/2012/my-post.html", quoted_post_text)].
Proof.
  cbv zeta.
  destruct (only_title_is_escaped (dt := iso_dates)
              (extract_post_metadata Sample.quoted_post
                 "export/2012/03/my-post/index.html")
              "<p>Hello</p>" "out.html" Sample.no_output) as (Hw & _ & Hr).
  split.
  { exact (Hr Sample.quoted_post "export/2012/03/my-post/index.html"
             _ eq_refl I). }
  split; [reflexivity|].
  split; [rewrite Hw; reflexivity|reflexivity].
Defined.

(** ** The date made from the path *)

Lemma year_here_inv (s y : str) :
  Re.year_here s = Some y -> length y = 4.
Proof.
  unfold Re.year_here.
  destruct s as [|c0 [|d1 [|d2 [|d3 [|d4 [|c5 s]]]]]]; try discriminate.
  destruct (_ && _); [|discriminate].
  intros H; inversion H; reflexivity.
Qed.

Lemma year_month_here_inv (s y m : str) :
  Re.year_month_here s = Some (y, m) ->
  Re.year_here s = Some y /\ length y = 4 /\ length m = 2.
Proof.
  unfold Re.year_month_here, Re.year_here.
  destruct s as [|c0 [|d1 [|d2 [|d3 [|d4 [|c5 [|m1 [|m2 [|c8 s]]]]]]]]];
    try discriminate.
  destruct (_ && _) eqn:E; [|discriminate].
  intros H; inversion H; subst.
  repeat (apply andb_true_iff in E; destruct E as [E ?]).
  repeat match goal with H : _ = true |- _ => rewrite H; clear H end.
  auto.
Qed.

Lemma search_year_month_inv (s y m : str) :
  Re.search_year_month s = Some (y, m) ->
  length y = 4 /\ length m = 2
  /\ exists y0, Re.search_year s = Some y0 /\ length y0 = 4.
Proof.
  unfold Re.search_year_month, Re.search_year.
  induction s as [|c s IH]; cbn [Re.search].
  - destruct (Re.year_month_here []) eqn:E; discriminate.
  - destruct (Re.year_month_here (c :: s)) as [[y' m']|] eqn:E.
    + intros H; inversion H; subst.
      destruct (year_month_here_inv _ _ _ E) as (Hy & Ly & Lm).
      rewrite Hy; eauto.
    + intros H; destruct (IH H) as (Ly & Lm & y0 & Hy0 & Ly0).
      split; [exact Ly|]; split; [exact Lm|].
      destruct (Re.year_here (c :: s)) as [y1|] eqn:E1.
      * exists y1; split; [reflexivity | eapply year_here_inv; exact E1].
      * exists y0; auto.
Qed.

Section PathDate.
Context {dt : Datetime} {u : Unicode}.

(** Claim C1.  For a document without a [time] element of class
    [entry-date]: when the path holds [/YYYY/MM/], the date is the first
    four-digit segment of the path, a hyphen, and group 1 of the
    [/YYYY/MM/] match, which is its year, where group 2, the month, was
    meant; that date is never the one made of the year and the month.
    When the path holds no [/YYYY/MM/], the date is
    [2008-01-01T00:00:00+00:00]. *)
Theorem date_from_path (soup : Bs4.soup) (file_path : str) :
  Bs4.find (Bs4.is_tag_class "time" "entry-date") soup = None ->
  (forall y m,
     Re.search_year_month file_path = Some (y, m) ->
     (exists y0,
        Re.search_year file_path = Some y0
        /\ date (extract_post_metadata soup file_path)
           = y0 ++ "-" ++ y ++ path_date_tail)
     /\ date (extract_post_metadata soup file_path)
        <> y ++ "-" ++ m ++ path_date_tail)
  /\ (Re.search_year_month file_path = None ->
      date (extract_post_metadata soup file_path)
      = "2008-01-01T00:00:00+00:00").
Proof.
  intros Hfind.
  unfold extract_post_metadata; cbn [date]; rewrite Hfind.
  split.
  - intros y m Hym.
    destruct (search_year_month_inv _ _ _ Hym) as (Ly & Lm & y0 & Hy0 & Ly0).
    rewrite Hym, Hy0.
    split; [exists y0; split; reflexivity|].
    intros H; apply (f_equal (@length ascii)) in H.
    rewrite !length_app, Ly, Lm, Ly0 in H.
    unfold path_date_tail in H; cbn [length] in H; lia.
  - intros ->.
    destruct (Re.search_year file_path); reflexivity.
Qed.

End PathDate.

(** On a post at [export/2012/03/my-post/index.html] the date repeats the
    year. *)
Lemma date_from_path_witness :
  Bs4.find (Bs4.is_tag_class "time" "entry-date") Sample.post = None
  /\ date (extract_post_metadata Sample.post "export/2012/03/my-post/index.html")
     = "2012-2012-01T00:00:00+00:00".
Proof.
  split; [reflexivity|].
  destruct (date_from_path (dt := iso_dates) Sample.post
              "export/2012/03/my-post/index.html" eq_refl) as [H _].
  destruct (H "2012" "03" eq_refl) as [(y0 & Hy & Hd) _].
  cbv in Hy; inversion Hy; subst y0.
  exact Hd.
Defined.

(** ** The driver *)

Lemma type_page_not_in (m : metadata) : ~ In type_page (front_matter m).
Proof.
  unfold front_matter.
  destruct (categories m), (tags m); cbn [app In]; intros H;
    repeat (destruct H as [H|H]; [discriminate H|]); exact H.
Qed.

Lemma type_post_in (m : metadata) : In type_post (front_matter m).
Proof.
  unfold front_matter.
  destruct (categories m), (tags m); cbn [app In];
    repeat (first [left; reflexivity | right]).
Qed.

Section Pages.
Context {dt : Datetime} {u : Unicode}.

(** Claim C2.  The writer does not read the key [type]: setting it changes
    no line, and whatever the metadata the front matter holds the line of
    type [post] and no line of type [page].  The run on the about page
    shows the file written. *)
Theorem static_page_type_is_post :
  (forall m v, front_matter (set_type v m) = front_matter m
               /\ In type_post (front_matter m)
               /\ ~ In type_page (front_matter m))
  /\ process_static_page
       (Sample.one_file "export/about/index.html" Sample.about)
       "export/about/index.html" "hugo/content" Sample.no_output
     = (true,
        {| written := [("hugo/content/about.html", about_text)];
           console := ["Migrated page: export/about/index.html -> hugo/content/about.html"] |}).
Proof.
  split; [|reflexivity].
  intros m v; split; [reflexivity|].
  split; [apply type_post_in | apply type_page_not_in].
Qed.

(** A post whose content is blank once the unwanted elements are gone is
    skipped with a warning when its content element has the class
    [entry-content] alone. *)
Lemma blank_post_skipped (ex : export) (html_file hugo_content_dir : str)
  (o : output) (nm : str) (attrs : list (str * Bs4.attr_value))
  (kids : list Bs4.node) (article_elem : Bs4.node) :
  Bs4.find (Bs4.is_tag "article") (document ex html_file) = Some article_elem ->
  Bs4.find (Bs4.is_tag_class "div" "entry-content") (document ex html_file)
    = Some (Bs4.Elem nm attrs kids) ->
  names_without_gt attrs = true ->
  Bs4.lookup "class" attrs = Some (Bs4.AList ["entry-content"]) ->
  Py.strip (Bs4.inner_html (Bs4.decompose_all unwanted kids)) = [] ->
  process_blog_post ex html_file hugo_content_dir o
  = (false, print ("Warning: No content found in " ++ html_file) o).
Proof.
  intros Harticle Hfind Hnames Hclass Hblank.
  unfold process_blog_post.
  rewrite (extract_post_content_exact _ nm attrs kids Hfind Hnames Hclass).
  rewrite Harticle, Hfind, Hblank; reflexivity.
Qed.

End Pages.

Section Skip.
Context {dt : Datetime} {u : Unicode}.

(** Claim C9.  A post whose content element keeps its opening tag (see
    claim C4) is never skipped, whatever its children, blank ones
    included: [process_blog_post] answers true, writes a file whose body
    is the opening tag followed by the markup of the children, and prints
    no warning. *)
Theorem blank_post_not_skipped (ex : export)
  (html_file hugo_content_dir : str) (o : output) (nm : str)
  (attrs : list (str * Bs4.attr_value)) (kids : list Bs4.node)
  (article_elem : Bs4.node) :
  let soup := document ex html_file in
  Bs4.find (Bs4.is_tag "article") soup = Some article_elem ->
  Bs4.find (Bs4.is_tag_class "div" "entry-content") soup
    = Some (Bs4.Elem nm attrs kids) ->
  names_without_gt attrs = true ->
  Py.contains Re.class_entry_content (Bs4.attrs_html attrs) = false ->
  exists output_path,
    process_blog_post ex html_file hugo_content_dir o
    = (true,
       print ("Migrated: " ++ html_file ++ " -> " ++ output_path)
         (create_hugo_content_file (extract_post_metadata soup html_file)
            ("<div" ++ Bs4.attrs_html attrs ++ ">"
             ++ Py.rstrip (Bs4.inner_html (Bs4.decompose_all unwanted kids)))
            output_path o)).
Proof.
  intros soup Harticle Hfind Hnames Hclass.
  unfold process_blog_post; fold soup.
  rewrite (extract_post_content_unmatched soup nm attrs kids Hfind Hnames
             Hclass).
  rewrite Harticle, Hfind.
  cbn [is_some negb orb].
  change (Py.strip ("<div" ++ ?x)) with (Py.rstrip ("<div" ++ x)).
  rewrite rstrip_open_tag.
  cbn [app Bs4.is_nil].
  eexists; reflexivity.
Qed.
End Skip.

(** A blank post whose content element has the classes
    [entry-content clearfix] is written, and counted. *)
Lemma blank_post_not_skipped_witness :
  let html_file := "export/2010/05/my-post/index.html" in
  let ex := Sample.one_file html_file Sample.blank_post_two_classes in
  Py.contains Re.class_entry_content
    (Bs4.attrs_html [Sample.class_ ["entry-content"; "clearfix"]]) = false
  /\ fst (process_blog_post ex html_file "hugo/content" Sample.no_output)
     = true
  /\ migrate_posts ex "hugo/content" Sample.no_output
     = (1,
        {| written :=
             [("hugo/content/posts/2010/2010/my-post.html", blank_post_text)];
           console :=
             ["Migrated: export/2010/05/my-post/index.html -> hugo/content/posts/2010/2010/my-post.html"] |}).
Proof.
  intros html_file ex.
  split; [reflexivity|].
  split; [|reflexivity].
  destruct (blank_post_not_skipped (dt := iso_dates) ex html_file
              "hugo/content" Sample.no_output "div"
              [Sample.class_ ["entry-content"; "clearfix"]]
              [Bs4.Text ("  " ++ [newline] ++ " ")]
              (Bs4.Elem "article" []
                 [Bs4.Elem "div" [Sample.class_ ["entry-content"; "clearfix"]]
                    [Bs4.Text ("  " ++ [newline] ++ " ")]])
              eq_refl eq_refl eq_refl eq_refl) as [output_path H].
  rewrite H; reflexivity.
Defined.


(** A static page whose content is in a [main] element is written with the
    tags of that element and with the script that it holds. *)
Lemma main_fallback_keeps_wrapper :
  exists m body,
    written (snd (process_static_page
                    (Sample.one_file "export/about/index.html" Sample.about_main)
                    "export/about/index.html" "hugo/content" Sample.no_output))
    = [("hugo/content/about.html", file_text m body)]
    /\ body = "<main><script>track()</script><p>About me</p></main>"
    /\ Py.startswith "<main>" body = true
    /\ Py.contains "<script>" body = true.
Proof.
  eexists _, _; split; [reflexivity|].
  repeat split.
Qed.

(** On the sample post the file holds the paragraph and not the script. *)
Lemma content_body_clean_witness :
  let html_file := "export/2012/03/my-post/index.html" in
  let ex := Sample.one_file html_file Sample.post in
  Bs4.find (Bs4.is_tag_class "div" "entry-content") (document ex html_file)
    = Some (Bs4.Elem "div" [Sample.class_ ["entry-content"]]
              [Bs4.Elem "p" [] [Bs4.Text "Hello"];
               Bs4.Elem "script" [] [Bs4.Raw "track()"]])
  /\ exists text,
       written (snd (process_blog_post ex html_file "hugo/content"
                       Sample.no_output))
         = [("hugo/content/posts/2012/2012/my-post.html", text)]
       /\ text = file_text (extract_post_metadata Sample.post html_file)
                   "<p>Hello</p>".
Proof.
  intros html_file ex.
  split; [reflexivity|].
  eexists; split; [reflexivity|].
  destruct (content_body_clean (dt := iso_dates) ex html_file "hugo/content"
              Sample.no_output) as [Hdiv _].
  destruct (Hdiv "div" [Sample.class_ ["entry-content"]]
              [Bs4.Elem "p" [] [Bs4.Text "Hello"];
               Bs4.Elem "script" [] [Bs4.Raw "track()"]]
              eq_refl eq_refl eq_refl) as (_ & Hpost & _).
  destruct (Hpost _ _ (or_introl eq_refl)) as [[]|Ht].
  exact Ht.
Defined.

(** ** Runs of the library functions *)

Example to_html_ex :
  Bs4.to_html
    (Bs4.Elem "div" [("id", Bs4.AStr "a>b"); ("class", Bs4.AList ["entry-content"; "x"])]
       [Bs4.Text "1 < 2"; Bs4.Elem "br" [] []; Bs4.Comment " c "])
  = "<div id=" ++ [dquote] ++ "a&gt;b" ++ [dquote] ++ " class=" ++ [dquote]
    ++ "entry-content x" ++ [dquote] ++ ">1 &lt; 2<br/><!-- c --></div>".
Proof. reflexivity. Qed.
Example strip_ex : Py.strip ([newline] ++ "  a b " ++ [newline]) = "a b".
Proof. reflexivity. Qed.
Example replace_ex : Py.replace "tag-" [] "tag-hashtag-fun" = "hashfun".
Proof. reflexivity. Qed.
Example split_ex : Py.split "/" "/a//b" = [[]; "a"; []; "b"].
Proof. reflexivity. Qed.
Example title_ex : Py.title "3d printing it's" = "3D Printing It'S".
Proof. reflexivity. Qed.
Example search_ex :
  Re.search_year_month "export/2012/03/my-post/index.html" = Some ("2012", "03").
Proof. reflexivity. Qed.
Example search_ex2 :
  Re.search_year "a/12345/1999/2012/03/x" = Some "1999".
Proof. reflexivity. Qed.
Example top_level_index_excluded :
  post_candidate "export/index.html" = false
  /\ post_candidate "export/page/2/index.html" = false
  /\ post_candidate "export/2010/05/my-post/index.html" = true.
Proof. repeat split. Qed.
Example iso_ex :
  isoformat (Py.replace "Z" "+00:00" "2012-03-15T10:00:00Z")
  = Some "2012-03-15T10:00:00+0000".
Proof. reflexivity. Qed.

(** * Further properties *)

(** ** Segments and slugs *)

Lemma forallb_rev (A : Type) (f : A -> bool) (l : list A) :
  forallb f (rev l) = forallb f l.
Proof.
  induction l as [|x l IH]; [reflexivity|].
  cbn [rev forallb]; rewrite forallb_app, IH; cbn [forallb].
  rewrite andb_true_r; apply andb_comm.
Qed.

Lemma split_from_segments (sep : ascii) (s cur : str) :
  forallb (fun c => negb (Ascii.eqb c sep)) cur = true ->
  Forall (fun seg => forallb (fun c => negb (Ascii.eqb c sep)) seg = true)
    (Py.split_from sep cur s).
Proof.
  revert cur; induction s as [|c s IH]; intros cur Hcur; cbn [Py.split_from].
  - constructor; [|constructor].
    rewrite forallb_rev; exact Hcur.
  - destruct (Ascii.eqb c sep) eqn:E.
    + constructor; [rewrite forallb_rev; exact Hcur | apply IH; reflexivity].
    + apply IH; cbn [forallb]; rewrite E, Hcur; reflexivity.
Qed.

Lemma split_segments (s : str) :
  Forall (fun seg => no_slash seg = true) (Py.split "/" s).
Proof. apply (split_from_segments "/" s []); reflexivity. Qed.

Lemma split_no_sep (sep : ascii) (s : str) :
  forallb (fun c => negb (Ascii.eqb c sep)) s = true ->
  Py.split sep s = [s].
Proof. intros H; apply (split_from_no_sep sep s [] H). Qed.

Lemma split_app (sep : ascii) (a b : str) :
  Py.split sep (a ++ sep :: b) = Py.split sep a ++ Py.split sep b.
Proof. apply split_from_app. Qed.

Lemma nth_last_2 (pre : list str) (x y : str) :
  Py.nth_last 2 (pre ++ [x; y]) = x.
Proof. exact (nth_last_app pre x [y]). Qed.

Lemma clean_slug_no_slash (parts : list str) :
  Forall (fun seg => no_slash seg = true) parts ->
  no_slash (clean_slug parts) = true.
Proof.
  intros H; unfold clean_slug.
  destruct (1 <? length parts) eqn:E; [|reflexivity].
  apply Nat.ltb_lt in E.
  unfold Py.nth_last.
  rewrite Forall_forall in H; apply H, nth_In; lia.
Qed.

Section Slug.
Context {dt : Datetime} {u : Unicode}.

(** Property X1.  The slug that [extract_post_metadata] takes from the
    path holds no [/]; it is [index] for a path without [/], and for a path
    [dir/segment/file] it is the segment before the file name. *)
Theorem slug_of_path (soup : Bs4.soup) (file_path : str) :
  no_slash (slug (extract_post_metadata soup file_path)) = true
  /\ (no_slash file_path = true ->
      slug (extract_post_metadata soup file_path) = "index")
  /\ (forall dir segment file,
        file_path = dir ++ "/" ++ segment ++ "/" ++ file ->
        no_slash segment = true ->
        no_slash file = true ->
        slug (extract_post_metadata soup file_path) = segment).
Proof.
  unfold extract_post_metadata; cbn [slug].
  split; [apply clean_slug_no_slash, split_segments|].
  split.
  - intros H; rewrite (split_no_sep "/" file_path H); reflexivity.
  - intros dir segment file -> Hseg Hfile.
    change (dir ++ "/" ++ segment ++ "/" ++ file)
      with (dir ++ "/"%char :: segment ++ "/"%char :: file).
    rewrite split_app, split_app.
    rewrite (split_no_sep "/" segment Hseg), (split_no_sep "/" file Hfile).
    unfold clean_slug.
    change ([segment] ++ [file]) with [segment; file].
    rewrite length_app; cbn [length].
    replace (1 <? length (Py.split "/" dir) + 2) with true
      by (symmetry; apply Nat.ltb_lt; lia).
    apply nth_last_2.
Qed.
End Slug.

(** ** Trimmed texts *)

Lemma lstrip_head (s : str) :
  match Py.lstrip s with
  | [] => True
  | c :: _ => Py.isspace c = false
  end.
Proof.
  induction s as [|x s IH]; cbn [Py.lstrip]; [exact I|].
  destruct (Py.isspace x) eqn:E; [exact IH | exact E].
Qed.

Lemma rev_rstrip (s : str) : rev (Py.rstrip s) = Py.lstrip (rev s).
Proof. unfold Py.rstrip; apply rev_involutive. Qed.

(** What [strip] returns is trimmed. *)
Lemma trimmed_strip (s : str) : trimmed (Py.strip s) = true.
Proof.
  unfold trimmed, Py.strip.
  rewrite rev_rstrip.
  pose proof (lstrip_head (rev (Py.lstrip s))) as Hlast.
  destruct (lstrip_cases s) as [H|(w & c & r & _ & Hc & H)]; rewrite H in *.
  - reflexivity.
  - change (Py.rstrip (c :: r)) with (Py.rstrip ([] ++ c :: r)).
    rewrite (rstrip_app_nonspace [] r c Hc).
    cbn [app]; rewrite Hc; cbn [negb andb].
    destruct (Py.lstrip (rev (c :: r))); [reflexivity|].
    rewrite Hlast; reflexivity.
Qed.

(** A trimmed string is left as it is by [strip]. *)
Lemma strip_trimmed (s : str) : trimmed s = true -> Py.strip s = s.
Proof.
  unfold trimmed, Py.strip, Py.rstrip; intros H.
  apply andb_true_iff in H; destruct H as [Hhead Hlast].
  assert (Hl : Py.lstrip s = s).
  { destruct s as [|c s]; [reflexivity|].
    apply negb_true_iff in Hhead; cbn [Py.lstrip]; rewrite Hhead.
    reflexivity. }
  rewrite Hl.
  destruct (rev s) as [|c r] eqn:E.
  - apply (f_equal (@rev ascii)) in E; rewrite rev_involutive in E.
    subst s; reflexivity.
  - apply negb_true_iff in Hlast; cbn [Py.lstrip]; rewrite Hlast, <- E.
    apply rev_involutive.
Qed.

Section Trimmed.
Context {dt : Datetime} {u : Unicode}.

(** Property X2.  The title and the content that are extracted neither
    start nor end with white space, so that the [content.strip()] of
    [process_blog_post] tests the content itself. *)
Theorem extracted_text_trimmed (soup : Bs4.soup) (file_path : str) :
  let content := fst (extract_post_content soup) in
  trimmed (title (extract_post_metadata soup file_path)) = true
  /\ trimmed content = true
  /\ Py.strip content = content.
Proof.
  intros content.
  assert (Hc : trimmed content = true).
  { unfold content, extract_post_content.
    destruct (Bs4.find (Bs4.is_tag_class "div" "entry-content") soup)
      as [[s|s|s|nm attrs kids]|]; try reflexivity.
    cbn [fst]; apply trimmed_strip. }
  split; [|split; [exact Hc | apply strip_trimmed; exact Hc]].
  unfold extract_post_metadata; cbn [title].
  destruct (Bs4.find (Bs4.is_tag_class "h1" "entry-title") soup);
    [apply trimmed_strip|].
  destruct (Bs4.find (Bs4.is_tag "title") soup);
    [apply trimmed_strip | reflexivity].
Qed.
End Trimmed.

(** ** The document after [extract_post_content] *)

Lemma find_node_none (p : Bs4.node -> bool) (n : Bs4.node) :
  Bs4.find_node p n = None ->
  p n = false /\ Bs4.find p (Bs4.children n) = None.
Proof.
  destruct n as [s|s|s|nm attrs kids].
  1-3: cbn [Bs4.find_node Bs4.children Bs4.find];
       match goal with |- context [if ?b then _ else _] => destruct b end;
       [discriminate | auto].
  rewrite find_node_elem; cbn [Bs4.children].
  destruct (p (Bs4.Elem nm attrs kids)); [discriminate | auto].
Qed.

(** Where nothing satisfies [p], the removal changes nothing. *)
Lemma clean_node_none (p : Bs4.node -> bool) (n : Bs4.node) :
  Bs4.find p (Bs4.children n) = None -> Bs4.clean_node p n = n.
Proof.
  induction n as [s|s|s|nm attrs kids IH] using node_induction;
    try reflexivity.
  cbn [Bs4.children]; intros H.
  rewrite clean_node_elem; f_equal.
  induction IH as [|k kids Hk _ IHk]; [reflexivity|].
  cbn [Bs4.find] in H.
  destruct (Bs4.find_node p k) eqn:Ek; [discriminate|].
  destruct (find_node_none p k Ek) as [Hp Hkids].
  cbn [Bs4.decompose_all]; rewrite Hp, (Hk Hkids), (IHk H); reflexivity.
Qed.

Lemma decompose_all_none (p : Bs4.node -> bool) (l : list Bs4.node) :
  Bs4.find p l = None -> Bs4.decompose_all p l = l.
Proof.
  intros H.
  pose proof (clean_node_none p (Bs4.Elem [] [] l) H) as E.
  rewrite clean_node_elem in E; inversion E as [E'].
  rewrite E'; exact E'.
Qed.

Lemma set_nth_same (A : Type) (i : nat) (x : A) (l : list A) :
  nth_error l i = Some x -> Bs4.set_nth i x l = l.
Proof.
  revert i; induction l as [|y l IH]; intros [|i]; cbn; try discriminate.
  - intros H; inversion H; reflexivity.
  - intros H; rewrite (IH i H); reflexivity.
Qed.

(** Putting at a place the node that it holds changes nothing. *)
Lemma put_place_same (pl : Bs4.place) (l : list Bs4.node) (n : Bs4.node) :
  Bs4.at_place l pl = Some n -> Bs4.put_place l pl n = l.
Proof.
  revert l; induction pl as [|i pl IH]; intros l; [reflexivity|].
  cbn [Bs4.at_place Bs4.put_place].
  destruct (nth_error l i) as [k|] eqn:Ek; [|discriminate].
  destruct pl as [|j r].
  - intros H; inversion H; subst; apply set_nth_same; exact Ek.
  - intros Hat.
    destruct k as [s|s|s|nm attrs kids]; try reflexivity.
    cbn [Bs4.children] in Hat.
    rewrite (IH kids Hat); apply set_nth_same; exact Ek.
Qed.

Lemma find_node_self (p : Bs4.node -> bool) (x : Bs4.node) :
  p x = true -> Bs4.find_node p x = Some x /\ Bs4.place_node p x = Some [].
Proof.
  intros H; destruct x; cbn [Bs4.find_node Bs4.place_node]; rewrite H; auto.
Qed.

Lemma place_node_none (p : Bs4.node -> bool) (n : Bs4.node) :
  Bs4.place_node p n = None -> Bs4.find_node p n = None.
Proof.
  intros H; pose proof (place_agrees_all p n) as A.
  unfold place_agrees_node in A; rewrite H in A; exact A.
Qed.

Lemma find_place_not_nil (p : Bs4.node -> bool) (l : list Bs4.node) :
  Bs4.find_place p l <> Some [].
Proof.
  induction l as [|k l IH]; cbn [Bs4.find_place]; [discriminate|].
  destruct (Bs4.place_node p k); [discriminate|].
  destruct (Bs4.find_place p l) as [[|i r]|]; cbn; try discriminate.
  contradiction IH; reflexivity.
Qed.

Lemma put_place_first (k : Bs4.node) (l : list Bs4.node) (r : Bs4.place)
  (x : Bs4.node) :
  Bs4.put_place (k :: l) (0 :: r) x = put_node k r x :: l.
Proof. destruct r as [|j r]; [reflexivity|]; destruct k; reflexivity. Qed.

Lemma put_place_bump (k : Bs4.node) (l : list Bs4.node) (pl : Bs4.place)
  (x : Bs4.node) :
  Bs4.put_place (k :: l) (Bs4.bump pl) x = k :: Bs4.put_place l pl x.
Proof.
  destruct pl as [|i [|j r]]; try reflexivity.
  cbn [Bs4.bump Bs4.put_place nth_error].
  destruct (nth_error l i) as [[s|s|s|nm attrs kids]|]; reflexivity.
Qed.

(** What it means for the replacement of the node found to leave it the
    node found, below a node and in a list. *)
Section FindPut.

Variable p : Bs4.node -> bool.
Variable x : Bs4.node.
Hypothesis p_ignores_children : ignores_children p.
Hypothesis p_x : p x = true.

Lemma find_put_list (l : list Bs4.node) :
  Forall (fun n => forall r, Bs4.place_node p n = Some r ->
                   Bs4.find_node p (put_node n r x) = Some x
                   /\ Bs4.place_node p (put_node n r x) = Some r) l ->
  forall pl, Bs4.find_place p l = Some pl ->
    Bs4.find p (Bs4.put_place l pl x) = Some x
    /\ Bs4.find_place p (Bs4.put_place l pl x) = Some pl.
Proof.
  induction 1 as [|k l Hk _ IH]; intros pl; cbn [Bs4.find_place];
    [discriminate|].
  destruct (Bs4.place_node p k) as [r|] eqn:Ek.
  - intros H; inversion H; subst pl.
    rewrite put_place_first; cbn [Bs4.find Bs4.find_place].
    destruct (Hk r eq_refl) as [Hf Hp]; rewrite Hf, Hp; auto.
  - destruct (Bs4.find_place p l) as [pl'|]; [|discriminate].
    intros H; inversion H; subst pl.
    rewrite put_place_bump; cbn [Bs4.find Bs4.find_place].
    rewrite Ek, (place_node_none p k Ek).
    destruct (IH pl' eq_refl) as [Hf Hp]; rewrite Hf, Hp; auto.
Qed.

Lemma find_put_node (n : Bs4.node) (r : Bs4.place) :
  Bs4.place_node p n = Some r ->
  Bs4.find_node p (put_node n r x) = Some x
  /\ Bs4.place_node p (put_node n r x) = Some r.
Proof.
  revert r; induction n as [s|s|s|nm attrs kids IH] using node_induction;
    intros r.
  1-3: cbn [Bs4.place_node];
       match goal with |- context [if ?b then _ else _] => destruct b end;
       [|discriminate]; intros H; inversion H; subst r;
       apply find_node_self; exact p_x.
  rewrite place_node_elem.
  destruct (p (Bs4.Elem nm attrs kids)) eqn:En.
  - intros H; inversion H; subst r; apply find_node_self; exact p_x.
  - intros H.
    destruct r as [|j r]; [contradiction (find_place_not_nil p kids H)|].
    cbn [put_node].
    rewrite find_node_elem, place_node_elem.
    rewrite (p_ignores_children nm attrs _ kids), En.
    apply find_put_list; assumption.
Qed.

(** The node put at the place of the node found is the node found. *)
Lemma find_put (l : list Bs4.node) (pl : Bs4.place) :
  Bs4.find_place p l = Some pl ->
  Bs4.find p (Bs4.put_place l pl x) = Some x
  /\ Bs4.find_place p (Bs4.put_place l pl x) = Some pl.
Proof.
  apply find_put_list, Forall_forall; intros n _ r; apply find_put_node.
Qed.

End FindPut.

Lemma is_tag_class_ignores_children (name cls : str) :
  ignores_children (Bs4.is_tag_class name cls).
Proof. intros nm attrs kids1 kids2; reflexivity. Qed.

(** [extract_post_content] on a document that has a content element. *)
Lemma extract_post_content_found (soup : Bs4.soup) (nm : str)
  (attrs : list (str * Bs4.attr_value)) (kids : list Bs4.node) :
  Bs4.find (Bs4.is_tag_class "div" "entry-content") soup
    = Some (Bs4.Elem nm attrs kids) ->
  exists pl,
    Bs4.find_place (Bs4.is_tag_class "div" "entry-content") soup = Some pl
    /\ Bs4.at_place soup pl = Some (Bs4.Elem nm attrs kids)
    /\ snd (extract_post_content soup)
       = Bs4.put_place soup pl
           (Bs4.Elem nm attrs (Bs4.decompose_all unwanted kids)).
Proof.
  intros Hfind.
  destruct (find_place_find _ _ _ Hfind) as (pl & Hplace & Hat).
  exists pl; split; [exact Hplace | split; [exact Hat|]].
  unfold extract_post_content; rewrite Hfind, Hplace; reflexivity.
Qed.

(** Property X3.  What [extract_post_content] does to the document.
    Without a content element it returns the empty string and leaves the
    document as it is.  Otherwise the first content element of the document
    it leaves is the one found with its children cleaned; these hold no
    [script] and no [noscript] element; and the document is unchanged when
    the children held none. *)
Theorem extract_post_content_document (soup : Bs4.soup) :
  let content_div := Bs4.find (Bs4.is_tag_class "div" "entry-content") in
  (content_div soup = None -> extract_post_content soup = ([], soup))
  /\ (forall nm attrs kids,
        content_div soup = Some (Bs4.Elem nm attrs kids) ->
        let kept := Bs4.decompose_all unwanted kids in
        content_div (snd (extract_post_content soup))
          = Some (Bs4.Elem nm attrs kept)
        /\ Bs4.find unwanted kept = None
        /\ (Bs4.find unwanted kids = None ->
            snd (extract_post_content soup) = soup)).
Proof.
  intros content_div; subst content_div; split.
  - intros H; unfold extract_post_content; rewrite H; reflexivity.
  - intros nm attrs kids Hfind kept.
    destruct (extract_post_content_found soup nm attrs kids Hfind)
      as (pl & Hplace & Hat & Hsnd).
    rewrite Hsnd.
    split; [|split; [apply find_decompose_all|]].
    + apply find_put; [apply is_tag_class_ignores_children | | exact Hplace].
      exact (find_sat _ _ _ Hfind).
    + intros Hnone; unfold kept.
      rewrite (decompose_all_none unwanted kids Hnone).
      apply put_place_same; exact Hat.
Qed.

(** Property X4.  A second call of [extract_post_content], on the
    document that the first call leaves, returns the same content and
    leaves the same document. *)
Theorem extract_post_content_idempotent (soup : Bs4.soup) :
  extract_post_content (snd (extract_post_content soup))
  = extract_post_content soup.
Proof.
  destruct (Bs4.find (Bs4.is_tag_class "div" "entry-content") soup)
    as [n|] eqn:Hfind.
  - pose proof (find_sat _ _ _ Hfind) as Hsat.
    destruct n as [s|s|s|nm attrs kids]; try discriminate Hsat.
    destruct (extract_post_content_found soup nm attrs kids Hfind)
      as (pl & Hplace & Hat & Hsnd).
    set (kept := Bs4.decompose_all unwanted kids) in *.
    assert (Hput : Bs4.find (Bs4.is_tag_class "div" "entry-content")
                     (snd (extract_post_content soup))
                   = Some (Bs4.Elem nm attrs kept)
                   /\ Bs4.find_place (Bs4.is_tag_class "div" "entry-content")
                        (snd (extract_post_content soup)) = Some pl).
    { rewrite Hsnd; apply find_put;
        [apply is_tag_class_ignores_children | exact Hsat | exact Hplace]. }
    destruct Hput as [Hfind' Hplace'].
    unfold extract_post_content at 1.
    rewrite Hfind', Hplace'.
    assert (Hkept : Bs4.decompose_all unwanted kept = kept)
      by (apply decompose_all_none, find_decompose_all).
    rewrite Hkept.
    assert (Hsame : Bs4.put_place (snd (extract_post_content soup)) pl
                      (Bs4.Elem nm attrs kept)
                    = snd (extract_post_content soup)).
    { apply put_place_same; rewrite Hsnd.
      eapply at_place_put; exact Hat. }
    rewrite Hsame.
    unfold extract_post_content at 2; rewrite Hfind, Hplace.
    fold kept; rewrite <- Hsnd; reflexivity.
  - unfold extract_post_content at 2 3; rewrite Hfind; cbn [snd].
    unfold extract_post_content; rewrite Hfind; reflexivity.
Qed.

(** ** The steps of the driver *)

Lemma is_nil_false (A : Type) (l : list A) : l <> [] -> Bs4.is_nil l = false.
Proof. destruct l; [intros H; contradiction H; reflexivity | reflexivity]. Qed.

Lemma content_strip (soup : Bs4.soup) :
  Py.strip (fst (extract_post_content soup)) = fst (extract_post_content soup).
Proof.
  apply strip_trimmed.
  unfold extract_post_content.
  destruct (Bs4.find (Bs4.is_tag_class "div" "entry-content") soup)
    as [[s|s|s|nm attrs kids]|]; try reflexivity.
  cbn [fst]; apply trimmed_strip.
Qed.

Lemma basename_join (a b : str) :
  no_slash b = true -> Os.basename (Os.join a b) = b.
Proof.
  intros H; unfold Os.basename, Os.join.
  rewrite rev_app_distr, rev_app_distr; cbn [rev app].
  rewrite <- app_assoc; cbn [app].
  assert (G : forall (x y : str),
             forallb (fun c => negb (Ascii.eqb c "/")) x = true ->
             Os.take_until_slash (x ++ "/"%char :: y) = x).
  { induction x as [|c x IH]; intros y Hx; [reflexivity|].
    cbn [forallb] in Hx; apply andb_true_iff in Hx; destruct Hx as [Hc Hx].
    apply negb_true_iff in Hc.
    cbn [app Os.take_until_slash]; rewrite Hc, (IH y Hx); reflexivity. }
  rewrite G by (unfold no_slash in H; rewrite forallb_rev; exact H).
  apply rev_involutive.
Qed.

Section Steps.
Context {dt : Datetime} {u : Unicode}.

(** The three ways in which [process_blog_post] ends. *)
Lemma process_blog_post_cases (ex : export) (html_file hugo_content_dir : str)
  (o : output) :
  let soup := document ex html_file in
  let content := fst (extract_post_content soup) in
  let m := extract_post_metadata soup html_file in
  let path := post_output_path html_file hugo_content_dir (slug m) in
  ((Bs4.find (Bs4.is_tag "article") soup = None
    \/ Bs4.find (Bs4.is_tag_class "div" "entry-content") soup = None)
   /\ process_blog_post ex html_file hugo_content_dir o = (false, o))
  \/ (content = []
      /\ process_blog_post ex html_file hugo_content_dir o
         = (false, print ("Warning: No content found in " ++ html_file) o))
  \/ (content <> []
      /\ process_blog_post ex html_file hugo_content_dir o
         = (true,
            print ("Migrated: " ++ html_file ++ " -> " ++ path)
              (create_hugo_content_file m content path o))).
Proof.
  intros soup content m path.
  unfold process_blog_post; fold soup.
  destruct (Bs4.find (Bs4.is_tag "article") soup) as [a|];
    [|left; auto].
  destruct (Bs4.find (Bs4.is_tag_class "div" "entry-content") soup) as [d|];
    [|left; auto].
  right; cbn [is_some negb orb].
  rewrite content_strip; fold content.
  destruct content as [|c content'] eqn:E; [left; auto|].
  right; split; [discriminate|].
  cbn [Bs4.is_nil].
  unfold path, post_output_path; fold m.
  destruct (Re.search_year html_file) as [y0|];
    [destruct (Re.search_year_month html_file) as [[y mo]|]|]; reflexivity.
Qed.

End Steps.

Lemma post_output_path_shape (html_file hugo_content_dir slug : str) :
  no_slash slug = true ->
  let path := post_output_path html_file hugo_content_dir slug in
  Py.startswith (hugo_content_dir ++ "/posts/") path = true
  /\ Os.basename path = slug ++ ".html".
Proof.
  intros Hslug path.
  assert (Hfile : no_slash (slug ++ ".html") = true)
    by (unfold no_slash in *; rewrite forallb_app, Hslug; reflexivity).
  unfold path, post_output_path.
  destruct (Re.search_year html_file) as [y0|];
    [destruct (Re.search_year_month html_file) as [[y mo]|]|];
    (split; [|apply basename_join; exact Hfile]);
    unfold Os.join; repeat rewrite <- app_assoc;
    change ("/" ++ "posts" ++ ?x) with ("/posts/" ++ tl x);
    rewrite app_assoc; apply startswith_app.
Qed.

Section Outcomes.
Context {dt : Datetime} {u : Unicode}.

(** Property X5.  [process_blog_post] returns [True] exactly when the
    document holds an [article], a content element and content that is not
    empty.  It then writes one file, named [slug.html] and below
    [hugo_content_dir/posts/], and prints one line.  When it returns [False]
    it writes nothing, and prints nothing or the one warning. *)
Theorem process_blog_post_outcomes (ex : export)
  (html_file hugo_content_dir : str) (o : output) :
  let soup := document ex html_file in
  let content := fst (extract_post_content soup) in
  let m := extract_post_metadata soup html_file in
  let path := post_output_path html_file hugo_content_dir (slug m) in
  let r := process_blog_post ex html_file hugo_content_dir o in
  (fst r = true
   <-> Bs4.find (Bs4.is_tag "article") soup <> None
       /\ Bs4.find (Bs4.is_tag_class "div" "entry-content") soup <> None
       /\ content <> [])
  /\ (fst r = true ->
      written (snd r) = written o ++ [(path, file_text m content)]
      /\ console (snd r)
         = console o ++ ["Migrated: " ++ html_file ++ " -> " ++ path]
      /\ Py.startswith (hugo_content_dir ++ "/posts/") path = true
      /\ Os.basename path = slug m ++ ".html")
  /\ (fst r = false ->
      written (snd r) = written o
      /\ (console (snd r) = console o
          \/ console (snd r)
             = console o ++ ["Warning: No content found in " ++ html_file])).
Proof.
  cbv zeta.
  set (soup := document ex html_file).
  set (m := extract_post_metadata soup html_file).
  assert (Hslug : no_slash (slug m) = true)
    by (unfold m, extract_post_metadata; cbn [slug];
        apply clean_slug_no_slash, split_segments).
  pose proof (post_output_path_shape html_file hugo_content_dir (slug m) Hslug)
    as Hshape; cbv zeta in Hshape.
  pose proof (process_blog_post_cases ex html_file hugo_content_dir o) as C.
  cbv zeta in C; fold soup in C; fold m in C.
  destruct C as [[Hmiss H]|[[Hempty H]|[Hfull H]]]; rewrite H; cbn [fst snd].
  - split; [split; [discriminate|]|split; [discriminate|auto]].
    intros (Ha & Hd & _); destruct Hmiss; contradiction.
  - split; [split; [discriminate|]|split; [discriminate|auto]].
    intros (_ & _ & Hc); contradiction.
  - assert (Hpresent :
              Bs4.find (Bs4.is_tag "article") soup <> None
              /\ Bs4.find (Bs4.is_tag_class "div" "entry-content") soup <> None).
    { unfold process_blog_post in H; fold soup in H.
      destruct (Bs4.find (Bs4.is_tag "article") soup);
        [|discriminate H].
      destruct (Bs4.find (Bs4.is_tag_class "div" "entry-content") soup);
        [|discriminate H].
      split; discriminate. }
    destruct Hpresent as [Ha Hd]; destruct Hshape as [Hstart Hbase].
    split; [split; auto|split; [auto|discriminate]].
Qed.
End Outcomes.

(** ** The usual layout of an export *)

Lemma isdigit_not_slash (c : ascii) :
  Re.isdigit c = true -> Ascii.eqb c "/" = false.
Proof.
  destruct c as [[] [] [] [] [] [] [] []]; intros H;
    solve [reflexivity | discriminate H].
Qed.

Lemma digits_no_slash (n : nat) (s : str) :
  digits n s = true -> no_slash s = true.
Proof.
  unfold digits, no_slash; intros H.
  apply andb_true_iff in H; destruct H as [_ H].
  induction s as [|c s IH]; [reflexivity|].
  cbn [forallb] in *; apply andb_true_iff in H; destruct H as [Hc H].
  rewrite (isdigit_not_slash c Hc), (IH H); reflexivity.
Qed.

(** A pattern that starts with [/] matches nowhere in a text without
    [/]: the search goes on after such a text. *)
Lemma search_skip (A : Type) (here : str -> option A) (root s : str) :
  (forall c t, Ascii.eqb c "/" = false -> here (c :: t) = None) ->
  no_slash root = true ->
  Re.search here (root ++ s) = Re.search here s.
Proof.
  intros Hhere; induction root as [|c root IH]; intros H; [reflexivity|].
  cbn [no_slash forallb] in H; apply andb_true_iff in H.
  destruct H as [Hc H]; apply negb_true_iff in Hc.
  cbn [app Re.search]; rewrite (Hhere c _ Hc); apply IH; exact H.
Qed.

Lemma year_here_slash (c : ascii) (t : str) :
  Ascii.eqb c "/" = false -> Re.year_here (c :: t) = None.
Proof.
  intros H; unfold Re.year_here.
  destruct t as [|d1 [|d2 [|d3 [|d4 [|c5 t]]]]]; try reflexivity.
  rewrite H; reflexivity.
Qed.

Lemma year_month_here_slash (c : ascii) (t : str) :
  Ascii.eqb c "/" = false -> Re.year_month_here (c :: t) = None.
Proof.
  intros H; unfold Re.year_month_here.
  destruct t as [|d1 [|d2 [|d3 [|d4 [|c5 [|m1 [|m2 [|c8 t]]]]]]]];
    try reflexivity.
  rewrite H; reflexivity.
Qed.

Lemma digits_4 (y : str) :
  digits 4 y = true ->
  exists d1 d2 d3 d4,
    y = [d1; d2; d3; d4]
    /\ Re.isdigit d1 = true /\ Re.isdigit d2 = true
    /\ Re.isdigit d3 = true /\ Re.isdigit d4 = true.
Proof.
  unfold digits; intros H; apply andb_true_iff in H; destruct H as [L H].
  destruct y as [|d1 [|d2 [|d3 [|d4 [|x y]]]]]; try discriminate L.
  cbn [forallb] in H.
  repeat (apply andb_true_iff in H; destruct H as [? H]).
  exists d1, d2, d3, d4; auto.
Qed.

Lemma digits_2 (m : str) :
  digits 2 m = true ->
  exists m1 m2,
    m = [m1; m2] /\ Re.isdigit m1 = true /\ Re.isdigit m2 = true.
Proof.
  unfold digits; intros H; apply andb_true_iff in H; destruct H as [L H].
  destruct m as [|m1 [|m2 [|x m]]]; try discriminate L.
  cbn [forallb] in H.
  repeat (apply andb_true_iff in H; destruct H as [? H]).
  exists m1, m2; auto.
Qed.

(** The two searches of the script on a path [root/YYYY/MM/...] whose root
    holds no [/]. *)
Lemma search_year_month_layout (root y mo rest : str) :
  no_slash root = true ->
  digits 4 y = true ->
  digits 2 mo = true ->
  let path := root ++ "/" ++ y ++ "/" ++ mo ++ "/" ++ rest in
  Re.search_year path = Some y
  /\ Re.search_year_month path = Some (y, mo).
Proof.
  intros Hroot Hy Hmo path; unfold path, Re.search_year, Re.search_year_month.
  rewrite (search_skip _ Re.year_here root _ year_here_slash Hroot).
  rewrite (search_skip _ Re.year_month_here root _ year_month_here_slash
             Hroot).
  destruct (digits_4 y Hy) as (d1 & d2 & d3 & d4 & -> & H1 & H2 & H3 & H4).
  destruct (digits_2 mo Hmo) as (m1 & m2 & -> & G1 & G2).
  cbn [app Re.search Re.year_here Re.year_month_here].
  rewrite H1, H2, H3, H4, G1, G2, !Ascii.eqb_refl; cbn [andb].
  split; reflexivity.
Qed.

Section Layout.
Context {dt : Datetime} {u : Unicode}.

(** Property X6.  A file [root/YYYY/MM/segment/index.html] is a post
    candidate of slug [segment].  When it is written, its file is
    [hugo_content_dir/posts/YYYY/YYYY/segment.html]: the year stands where
    the month is meant, so that the same segment under another month of
    that year has the same output path. *)
Theorem post_of_usual_layout (ex : export) (hugo_content_dir : str)
  (o : output) (root y mo segment : str) :
  no_slash root = true ->
  digits 4 y = true ->
  digits 2 mo = true ->
  no_slash segment = true ->
  let html_file :=
    root ++ "/" ++ y ++ "/" ++ mo ++ "/" ++ segment ++ "/index.html" in
  let soup := document ex html_file in
  let r := process_blog_post ex html_file hugo_content_dir o in
  post_candidate html_file = true
  /\ slug (extract_post_metadata soup html_file) = segment
  /\ (fst r = true ->
      written (snd r)
      = written o
        ++ [(hugo_content_dir ++ "/posts/" ++ y ++ "/" ++ y ++ "/"
             ++ segment ++ ".html",
             file_text (extract_post_metadata soup html_file)
               (fst (extract_post_content soup)))])
  /\ (forall mo',
        digits 2 mo' = true ->
        post_output_path
          (root ++ "/" ++ y ++ "/" ++ mo' ++ "/" ++ segment ++ "/index.html")
          hugo_content_dir segment
        = post_output_path html_file hugo_content_dir segment).
Proof.
  intros Hroot Hy Hmo Hseg; cbv zeta.
  set (html_file :=
         root ++ "/" ++ y ++ "/" ++ mo ++ "/" ++ segment ++ "/index.html").
  set (soup := document ex html_file).
  assert (Hsplit : Py.split "/" html_file
                   = [root; y; mo; segment; "index.html"]).
  { unfold html_file.
    change (root ++ "/" ++ y ++ "/" ++ mo ++ "/" ++ segment ++ "/index.html")
      with (root ++ "/"%char :: y ++ "/"%char :: mo ++ "/"%char
              :: segment ++ "/"%char :: "index.html").
    rewrite !split_app.
    rewrite (split_no_sep "/" root Hroot),
      (split_no_sep "/" y (digits_no_slash 4 y Hy)),
      (split_no_sep "/" mo (digits_no_slash 2 mo Hmo)),
      (split_no_sep "/" segment Hseg).
    reflexivity. }
  assert (Hslug : slug (extract_post_metadata soup html_file) = segment).
  { unfold extract_post_metadata; cbn [slug]; rewrite Hsplit; reflexivity. }
  split; [|split; [exact Hslug|split]].
  - unfold post_candidate; rewrite Hsplit.
    change (Py.nth_last 4 [root; y; mo; segment; "index.html"]) with y.
    destruct (digits_4 y Hy) as (d1 & d2 & d3 & d4 & -> & H1 & H2 & H3 & H4).
    cbn [length Nat.leb Re.match_4digits]; rewrite H1, H2, H3, H4.
    rewrite andb_true_r.
    unfold html_file; rewrite !app_assoc; apply endswith_app.
  - pose proof (process_blog_post_cases ex html_file hugo_content_dir o) as C.
    cbv zeta in C; fold soup in C.
    destruct C as [[_ H]|[[_ H]|[_ H]]]; rewrite H; cbn [fst snd];
      try discriminate.
    intros _; rewrite written_print, written_create, Hslug.
    unfold post_output_path.
    destruct (search_year_month_layout root y mo (segment ++ "/index.html")
                Hroot Hy Hmo) as [Hsy Hsm].
    fold html_file in Hsy, Hsm; rewrite Hsy, Hsm.
    unfold Os.join; repeat rewrite <- app_assoc; reflexivity.
  - intros mo' Hmo'; unfold post_output_path.
    destruct (search_year_month_layout root y mo (segment ++ "/index.html")
                Hroot Hy Hmo) as [Hsy Hsm].
    destruct (search_year_month_layout root y mo' (segment ++ "/index.html")
                Hroot Hy Hmo') as [Hsy' Hsm'].
    fold html_file in Hsy, Hsm; rewrite Hsy, Hsm, Hsy', Hsm'; reflexivity.
Qed.
End Layout.

(** On [export/2012/03/my-post/index.html] the sample post goes to
    [posts/2012/2012/my-post.html]. *)
Lemma post_of_usual_layout_witness :
  let html_file := "export/2012/03/my-post/index.html" in
  let ex := Sample.one_file html_file Sample.post in
  digits 4 "2012" = true /\ digits 2 "03" = true
  /\ (exists text,
        written (snd (process_blog_post ex html_file "hugo/content"
                        Sample.no_output))
        = [("hugo/content/posts/2012/2012/my-post.html", text)])
  /\ post_output_path "export/2012/11/my-post/index.html" "hugo/content"
       "my-post"
     = post_output_path html_file "hugo/content" "my-post".
Proof.
  intros html_file ex.
  split; [reflexivity|]; split; [reflexivity|].
  destruct (post_of_usual_layout (dt := iso_dates) ex "hugo/content"
              Sample.no_output "export" "2012" "03" "my-post"
              eq_refl eq_refl eq_refl eq_refl) as (_ & _ & H & Hsame).
  split; [eexists; exact (H eq_refl)|].
  exact (Hsame "11" eq_refl).
Defined.

(** ** Static pages *)

Lemma find_place_is_some (p : Bs4.node -> bool) (l : list Bs4.node) :
  is_some (Bs4.find_place p l) = is_some (Bs4.find p l).
Proof.
  destruct (Bs4.find p l) as [n|] eqn:E.
  - destruct (find_place_find p l n E) as (pl & -> & _); reflexivity.
  - rewrite (find_place_none p l E); reflexivity.
Qed.

Lemma is_some_or_else (A : Type) (a b : option A) :
  is_some (or_else a b) = is_some a || is_some b.
Proof. destruct a; reflexivity. Qed.


(** The name of the directory of [wp_dir/page/file]. *)
Lemma drop_until_slash_app (x y : str) :
  no_slash x = true -> Os.drop_until_slash (x ++ "/"%char :: y) = "/"%char :: y.
Proof.
  induction x as [|c x IH]; intros H; [reflexivity|].
  cbn [no_slash forallb] in H; apply andb_true_iff in H.
  destruct H as [Hc H]; apply negb_true_iff in Hc.
  cbn [app Os.drop_until_slash]; rewrite Hc; apply IH; exact H.
Qed.

Lemma dirname_join (a b : str) (c : ascii) (r : str) :
  rev a = c :: r -> Ascii.eqb c "/" = false -> no_slash b = true ->
  Os.dirname (Os.join a b) = a.
Proof.
  intros Er Hc Hb.
  unfold Os.dirname, Os.join.
  rewrite rev_app_distr; cbn [rev app].
  rewrite <- app_assoc; cbn [app].
  rewrite drop_until_slash_app
    by (unfold no_slash; rewrite forallb_rev; exact Hb).
  assert (Hhead : rev ("/"%char :: rev a) = a ++ ["/"%char])
    by (cbn [rev]; rewrite rev_involutive; reflexivity).
  rewrite Hhead.
  assert (Hnil : Bs4.is_nil (a ++ ["/"%char]) = false)
    by (destruct a; reflexivity).
  assert (Hall : forallb (Ascii.eqb "/") (a ++ ["/"%char]) = false).
  { rewrite forallb_app, <- (forallb_rev _ _ a), Er; cbn [forallb].
    rewrite Ascii.eqb_sym, Hc; reflexivity. }
  rewrite Hnil, Hall; cbn [orb].
  rewrite rev_app_distr; cbn [rev app Os.drop_slashes].
  rewrite Ascii.eqb_refl, Er; cbn [Os.drop_slashes]; rewrite Hc.
  rewrite <- Er; apply rev_involutive.
Qed.

Lemma dirname_of_page_file (wp_dir page file : str) :
  no_slash page = true -> page <> [] -> no_slash file = true ->
  Os.dirname (Os.join (Os.join wp_dir page) file) = Os.join wp_dir page.
Proof.
  intros Hpage Hne Hfile.
  destruct (rev page) as [|c r] eqn:E.
  - apply (f_equal (@rev ascii)) in E; rewrite rev_involutive in E.
    contradiction.
  - apply (dirname_join _ _ c (r ++ "/"%char :: rev wp_dir)).
    + unfold Os.join; rewrite rev_app_distr; cbn [rev app].
      rewrite <- app_assoc; cbn [app]; rewrite E; reflexivity.
    + unfold no_slash in Hpage; rewrite <- forallb_rev, E in Hpage.
      cbn [forallb] in Hpage; apply andb_true_iff in Hpage.
      destruct Hpage as [Hc _]; apply negb_true_iff; exact Hc.
    + exact Hfile.
Qed.

Lemma page_name_of_page_file (wp_dir page : str) :
  no_slash page = true -> page <> [] ->
  Os.basename (Os.dirname (Os.join (Os.join wp_dir page) "index.html")) = page.
Proof.
  intros Hpage Hne.
  rewrite dirname_of_page_file by (try assumption; reflexivity).
  apply basename_join; exact Hpage.
Qed.

(** The place found holds an element that passes the test. *)
Lemma find_place_sat (p : Bs4.node -> bool) (l : list Bs4.node)
  (pl : Bs4.place) :
  Bs4.find_place p l = Some pl ->
  exists n, Bs4.at_place l pl = Some n /\ p n = true.
Proof.
  intros Hplace.
  assert (H : place_agrees p l).
  { apply place_agrees_list, Forall_forall; intros k _.
    apply place_agrees_all. }
  unfold place_agrees in H; rewrite Hplace in H.
  destruct H as (m & Hat & Hfind); exists m; split; [exact Hat|].
  exact (find_sat _ _ _ Hfind).
Qed.

Lemma is_tag_elem (name : str) (n : Bs4.node) :
  Bs4.is_tag name n = true -> exists nm attrs kids, n = Bs4.Elem nm attrs kids.
Proof.
  destruct n as [s|s|s|nm attrs kids]; try discriminate; eauto.
Qed.

Lemma is_tag_class_elem (name cls : str) (n : Bs4.node) :
  Bs4.is_tag_class name cls n = true ->
  exists nm attrs kids, n = Bs4.Elem nm attrs kids.
Proof.
  destruct n as [s|s|s|nm attrs kids]; try discriminate; eauto.
Qed.

(** What [process_static_page] keeps in [content_elem] is an element, also
    after [extract_post_content] has changed the document. *)
Lemma content_elem_is_element (soup : Bs4.soup) (pl : Bs4.place) :
  or_else (Bs4.find_place (Bs4.is_tag_class "div" "entry-content") soup)
    (or_else (Bs4.find_place (Bs4.is_tag "main") soup)
       (Bs4.find_place (Bs4.is_tag_class "div" "site-content") soup))
  = Some pl ->
  exists nm attrs kids,
    Bs4.at_place (snd (extract_post_content soup)) pl
    = Some (Bs4.Elem nm attrs kids).
Proof.
  destruct (Bs4.find (Bs4.is_tag_class "div" "entry-content") soup)
    as [n|] eqn:Hfind.
  - pose proof (find_sat _ _ _ Hfind) as Hsat.
    destruct n as [s|s|s|nm attrs kids]; try discriminate Hsat.
    destruct (extract_post_content_found soup nm attrs kids Hfind)
      as (pl0 & Hplace & Hat & Hsnd).
    rewrite Hplace; cbn [or_else]; intros H; inversion H; subst pl0.
    rewrite Hsnd; do 3 eexists; eapply at_place_put; exact Hat.
  - unfold extract_post_content; rewrite Hfind.
    rewrite (find_place_none _ _ Hfind); cbn [or_else snd].
    destruct (Bs4.find_place (Bs4.is_tag "main") soup) as [pl1|] eqn:Hmain;
      cbn [or_else]; intros H.
    + inversion H; subst pl1.
      destruct (find_place_sat _ _ _ Hmain) as (n & Hat & Hn).
      destruct (is_tag_elem _ _ Hn) as (nm & attrs & kids & ->); eauto.
    + destruct (find_place_sat _ _ _ H) as (n & Hat & Hn).
      destruct (is_tag_class_elem _ _ _ Hn) as (nm & attrs & kids & ->); eauto.
Qed.

Lemma to_html_elem_not_nil (nm : str) (attrs : list (str * Bs4.attr_value))
  (kids : list Bs4.node) :
  Bs4.to_html (Bs4.Elem nm attrs kids) <> [].
Proof.
  rewrite to_html_elem.
  destruct (Bs4.is_nil kids && existsb (Py.eqb nm) Bs4.empty_element_tags);
    cbn [app]; discriminate.
Qed.

Section PageSteps.
Context {dt : Datetime} {u : Unicode}.

(** The three ways in which [process_static_page] ends. *)
Lemma process_static_page_cases (ex : export)
  (html_file hugo_content_dir : str) (o : output) :
  let soup := document ex html_file in
  let page_name := Os.basename (Os.dirname html_file) in
  let path := page_output_path html_file hugo_content_dir in
  (has_container soup = false
   /\ process_static_page ex html_file hugo_content_dir o
      = (false, print ("Warning: No content found for page " ++ html_file) o))
  \/ (has_container soup = true
      /\ existsb (Py.eqb page_name) static_pages = false
      /\ process_static_page ex html_file hugo_content_dir o = (false, o))
  \/ (has_container soup = true
      /\ existsb (Py.eqb page_name) static_pages = true
      /\ exists content,
           content <> []
           /\ process_static_page ex html_file hugo_content_dir o
              = (true,
                 print ("Migrated page: " ++ html_file ++ " -> " ++ path)
                   (create_hugo_content_file
                      (set_type "page" (extract_post_metadata soup html_file))
                      content path o))).
Proof.
  cbv zeta.
  set (soup := document ex html_file).
  assert (Hc : has_container soup
               = is_some
                   (or_else
                      (Bs4.find_place (Bs4.is_tag_class "div" "entry-content")
                         soup)
                      (or_else (Bs4.find_place (Bs4.is_tag "main") soup)
                         (Bs4.find_place
                            (Bs4.is_tag_class "div" "site-content") soup)))).
  { rewrite !is_some_or_else, !find_place_is_some.
    unfold has_container; rewrite orb_assoc; reflexivity. }
  unfold process_static_page; fold soup.
  destruct (or_else
              (Bs4.find_place (Bs4.is_tag_class "div" "entry-content") soup)
              _) as [pl|] eqn:Epl.
  - right.
    destruct (content_elem_is_element soup pl Epl)
      as (nm & attrs & kids & He).
    destruct (extract_post_content soup) as [extracted soup'].
    cbn [snd] in He; rewrite He.
    destruct (existsb (Py.eqb (Os.basename (Os.dirname html_file)))
                static_pages).
    + right; split; [exact Hc|]; split; [reflexivity|].
      eexists; split; [|reflexivity].
      assert (H1 : (if Bs4.is_nil extracted
                    then Bs4.to_html (Bs4.Elem nm attrs kids)
                    else extracted) <> []).
      { destruct extracted; cbn [Bs4.is_nil];
          [apply to_html_elem_not_nil | discriminate]. }
      destruct (site_content_in (Bs4.get_class (Bs4.Elem nm attrs kids)));
        [|exact H1].
      destruct (Bs4.find (Bs4.is_tag_class "div" "entry-content")
                  (Bs4.children (Bs4.Elem nm attrs kids))) as [n|] eqn:E1;
        cbn [or_else].
      * destruct (is_tag_class_elem _ _ _ (find_sat _ _ _ E1))
          as (nm1 & attrs1 & kids1 & ->).
        apply to_html_elem_not_nil.
      * destruct (Bs4.find (Bs4.is_tag "main")
                    (Bs4.children (Bs4.Elem nm attrs kids))) as [n|] eqn:E2;
          [|exact H1].
        destruct (is_tag_elem _ _ (find_sat _ _ _ E2))
          as (nm1 & attrs1 & kids1 & ->).
        apply to_html_elem_not_nil.
    + left; auto.
  - left; auto.
Qed.

(** Property X7.  [process_static_page] returns [True] exactly when the
    document holds one of the three containers and the directory of the
    file has the name of one of the three pages.  It then writes one file,
    with a body that is not empty, and prints one line.  When it returns
    [False] nothing is written; the warning is printed when no container
    was found, and nothing is printed when the name is not that of a
    page. *)
Theorem process_static_page_outcomes (ex : export)
  (html_file hugo_content_dir : str) (o : output) :
  let soup := document ex html_file in
  let page_name := Os.basename (Os.dirname html_file) in
  let path := page_output_path html_file hugo_content_dir in
  let r := process_static_page ex html_file hugo_content_dir o in
  (fst r = true
   <-> has_container soup = true
       /\ existsb (Py.eqb page_name) static_pages = true)
  /\ (fst r = true ->
      exists content,
        content <> []
        /\ written (snd r)
           = written o
             ++ [(path,
                  file_text
                    (set_type "page" (extract_post_metadata soup html_file))
                    content)]
        /\ console (snd r)
           = console o ++ ["Migrated page: " ++ html_file ++ " -> " ++ path])
  /\ (fst r = false ->
      written (snd r) = written o
      /\ console (snd r)
         = if has_container soup then console o
           else console o
                ++ ["Warning: No content found for page " ++ html_file]).
Proof.
  cbv zeta.
  pose proof (process_static_page_cases ex html_file hugo_content_dir o) as C.
  cbv zeta in C.
  destruct C as [[Hno H]|[(Hc & Hname & H)|(Hc & Hname & content & Hne & H)]];
    rewrite H; cbn [fst snd].
  - rewrite Hno.
    split; [split; [discriminate|intros [? _]; discriminate]|].
    split; [discriminate|auto].
  - rewrite Hc, Hname.
    split; [split; [discriminate|intros [_ ?]; discriminate]|].
    split; [discriminate|auto].
  - split; [split; auto|].
    split; [|discriminate].
    intros _; exists content; auto.
Qed.

(** Property X8.  On the index file [wp_dir/page/index.html] of one of the
    three pages, as [main] builds it, the test of the name in
    [process_static_page] succeeds: the result is [True] exactly when the
    document holds a container, and the file written is
    [hugo_content_dir/page.html]. *)
Theorem static_page_name_always_accepted (ex : export)
  (wp_dir hugo_content_dir page : str) (o : output) :
  In page static_pages ->
  let page_file := Os.join (Os.join wp_dir page) "index.html" in
  let r := process_static_page ex page_file hugo_content_dir o in
  Os.basename (Os.dirname page_file) = page
  /\ page_output_path page_file hugo_content_dir
     = hugo_content_dir ++ "/" ++ page ++ ".html"
  /\ fst r = has_container (document ex page_file)
  /\ (has_container (document ex page_file) = true ->
      exists text,
        written (snd r)
        = written o ++ [(hugo_content_dir ++ "/" ++ page ++ ".html", text)]).
Proof.
  intros Hin page_file r.
  assert (Hname : Os.basename (Os.dirname page_file) = page).
  { unfold page_file.
    destruct Hin as [<-|[<-|[<-|[]]]];
      apply page_name_of_page_file; solve [reflexivity | discriminate]. }
  assert (Hpath : page_output_path page_file hugo_content_dir
                  = hugo_content_dir ++ "/" ++ page ++ ".html")
    by (unfold page_output_path, Os.join; rewrite Hname; reflexivity).
  assert (Hmem : existsb (Py.eqb (Os.basename (Os.dirname page_file)))
                   static_pages = true).
  { rewrite Hname; apply existsb_exists; exists page; split; [exact Hin|].
    apply eqb_eq; reflexivity. }
  split; [exact Hname|split; [exact Hpath|]].
  pose proof (process_static_page_cases ex page_file hugo_content_dir o) as C.
  cbv zeta in C; fold r in C.
  destruct C as [[Hno H]|[(Hc & Hn & H)|(Hc & Hn & content & Hne & H)]].
  - rewrite H, Hno; split; [reflexivity|discriminate].
  - rewrite Hmem in Hn; discriminate Hn.
  - rewrite H, Hc; split; [reflexivity|].
    intros _; eexists; cbn [snd].
    rewrite written_print, written_create, Hpath; reflexivity.
Qed.

End PageSteps.

Lemma static_page_name_always_accepted_witness :
  let page_file := "export/about/index.html" in
  let r := process_static_page (Sample.one_file page_file Sample.about)
             page_file "hugo/content" Sample.no_output in
  In "about" static_pages
  /\ Os.basename (Os.dirname page_file) = "about"
  /\ fst r = true
  /\ map fst (written (snd r)) = ["hugo/content/about.html"].
Proof.
  pose proof (static_page_name_always_accepted
                (Sample.one_file "export/about/index.html" Sample.about)
                "export" "hugo/content" "about" Sample.no_output
                (or_introl eq_refl)) as H.
  cbv zeta in H; destruct H as (Hname & _ & Hfst & Hw).
  cbv zeta; split; [left; reflexivity|].
  split; [exact Hname|].
  split; [exact Hfst|].
  destruct (Hw eq_refl) as [text Ht].
  change (Os.join (Os.join "export" "about") "index.html")
    with ("export/about/index.html" : str) in Ht.
  rewrite Ht; reflexivity.
Defined.

(** ** The loops of the driver *)

Section Loops.
Context {dt : Datetime} {u : Unicode}.

(** One call of [process_blog_post], by its result and its output. *)
Lemma post_step (ex : export) (html_file hugo_content_dir : str)
  (o : output) :
  let r := process_blog_post ex html_file hugo_content_dir o in
  fst r = has_post (document ex html_file)
  /\ written (snd r)
     = written o
       ++ (if has_post (document ex html_file)
           then [post_file ex hugo_content_dir html_file] else [])
  /\ exists lines,
       console (snd r) = console o ++ lines
       /\ length lines <= 1
       /\ (has_post (document ex html_file) = true -> length lines = 1).
Proof.
  cbv zeta.
  pose proof (process_blog_post_cases ex html_file hugo_content_dir o) as C.
  cbv zeta in C; unfold has_post, post_file.
  set (soup := document ex html_file) in *.
  destruct C as [[Hmiss H]|[[Hempty H]|[Hfull H]]]; rewrite H; cbn [fst snd].
  - assert (E : is_some (Bs4.find (Bs4.is_tag "article") soup)
                && is_some
                     (Bs4.find (Bs4.is_tag_class "div" "entry-content") soup)
                = false).
    { destruct Hmiss as [-> | ->]; [reflexivity|].
      apply andb_false_r. }
    rewrite E; cbn [andb].
    split; [reflexivity|split; [symmetry; apply app_nil_r|]].
    exists []; rewrite app_nil_r; cbn [length].
    split; [reflexivity|split; [lia|discriminate]].
  - rewrite Hempty; cbn [Bs4.is_nil negb]; rewrite andb_false_r.
    split; [reflexivity|split; [symmetry; apply app_nil_r|]].
    eexists; split; [reflexivity|]; cbn [length]; split; [lia|discriminate].
  - assert (Hpresent :
              is_some (Bs4.find (Bs4.is_tag "article") soup) = true
              /\ is_some
                   (Bs4.find (Bs4.is_tag_class "div" "entry-content") soup)
                 = true).
    { unfold process_blog_post in H; fold soup in H.
      destruct (Bs4.find (Bs4.is_tag "article") soup);
        [|discriminate H].
      destruct (Bs4.find (Bs4.is_tag_class "div" "entry-content") soup);
        [|discriminate H].
      split; reflexivity. }
    destruct Hpresent as [-> ->]; rewrite (is_nil_false _ _ Hfull).
    cbn [andb negb].
    split; [reflexivity|split; [reflexivity|]].
    eexists; split; [reflexivity|]; cbn [length]; split; [lia|reflexivity].
Qed.

(** The loop over the scan, by its counter and its output. *)
Lemma migrate_posts_fold (ex : export) (hugo_content_dir : str)
  (o : output) :
  let r := migrate_posts ex hugo_content_dir o in
  fst r = length (migrated_posts ex)
  /\ written (snd r)
     = written o ++ map (post_file ex hugo_content_dir) (migrated_posts ex)
  /\ exists lines,
       console (snd r) = console o ++ lines
       /\ fst r <= length lines
       /\ length lines <= length (filter post_candidate (glob_index_html ex)).
Proof.
  cbv zeta; unfold migrate_posts, migrated_posts.
  set (step := fun (st : nat * output) (html_file : str) => _).
  set (keep := fun f : str => post_candidate f && has_post (document ex f)).
  assert (Hstep : forall n o0 f,
             let st := step (n, o0) f in
             fst st = n + (if keep f then 1 else 0)
             /\ written (snd st)
                = written o0
                  ++ (if keep f then [post_file ex hugo_content_dir f] else [])
             /\ exists lines,
                  console (snd st) = console o0 ++ lines
                  /\ (if keep f then 1 else 0) <= length lines
                  /\ length lines <= (if post_candidate f then 1 else 0)).
  { intros n o0 f; cbv zeta; unfold step, keep.
    destruct (post_candidate f); cbn [andb fst snd].
    - pose proof (post_step ex f hugo_content_dir o0) as S.
      cbv zeta in S.
      destruct (process_blog_post ex f hugo_content_dir o0)
        as [migrated o1].
      cbn [fst snd] in S; destruct S as (-> & Hw & lines1 & Hl & Hle & Hone).
      destruct (has_post (document ex f)); cbn [fst snd].
      + split; [reflexivity|split; [exact Hw|]].
        exists lines1; rewrite (Hone eq_refl); auto.
      + split; [symmetry; apply Nat.add_0_r|split; [exact Hw|]].
        exists lines1; split; [exact Hl|lia].
    - rewrite app_nil_r, Nat.add_0_r.
      split; [reflexivity|split; [reflexivity|]].
      exists []; rewrite app_nil_r; cbn [length]; auto. }
  clearbody step.
  assert (G : forall l n o0,
             let r := fold_left step l (n, o0) in
             fst r = n + length (filter keep l)
             /\ written (snd r)
                = written o0
                  ++ map (post_file ex hugo_content_dir) (filter keep l)
             /\ exists lines,
                  console (snd r) = console o0 ++ lines
                  /\ length (filter keep l) <= length lines
                  /\ length lines <= length (filter post_candidate l)).
  { induction l as [|f l IH]; intros n o0; cbv zeta.
    - cbn [fold_left filter map length fst snd].
      rewrite app_nil_r, Nat.add_0_r.
      split; [reflexivity|split; [reflexivity|]].
      exists []; rewrite app_nil_r; cbn [length]; auto.
    - cbn [fold_left filter].
      specialize (Hstep n o0 f); cbv zeta in Hstep.
      destruct (step (n, o0) f) as [n1 o1]; cbn [fst snd] in Hstep.
      destruct Hstep as (-> & Hw & lines1 & Hl & Ha & Hb).
      specialize (IH (n + (if keep f then 1 else 0)) o1); cbv zeta in IH.
      destruct IH as (IHn & IHw & lines & IHl & IHa & IHb).
      rewrite IHn, IHw, Hw, <- app_assoc.
      split; [|split].
      + destruct (keep f); cbn [length]; lia.
      + destruct (keep f); reflexivity.
      + exists (lines1 ++ lines).
        rewrite IHl, Hl, <- app_assoc, length_app.
        split; [reflexivity|].
        destruct (keep f), (post_candidate f); cbn [length] in *; lia. }
  specialize (G (glob_index_html ex) 0 o); cbv zeta in G.
  destruct G as (Gn & Gw & lines & Gl & Ga & Gb).
  split; [exact Gn|split; [exact Gw|]].
  exists lines; rewrite Gn; auto.
Qed.

End Loops.

Lemma length_filter_le (A : Type) (f : A -> bool) (l : list A) :
  length (filter f l) <= length l.
Proof.
  induction l as [|x l IH]; [apply le_n|].
  cbn [filter]; destruct (f x); cbn [length]; lia.
Qed.

Section PageLoop.
Context {dt : Datetime} {u : Unicode}.

(** One call of [process_static_page] on the index file of one of the
    three pages, as [main] makes it. *)
Lemma page_step (ex : export) (wp_dir hugo_content_dir page : str)
  (o : output) :
  In page static_pages ->
  let r := process_static_page ex (page_file wp_dir page) hugo_content_dir o in
  let found := has_container (document ex (page_file wp_dir page)) in
  fst r = found
  /\ (if found
      then exists text,
             text <> []
             /\ written (snd r)
                = written o
                  ++ [(hugo_content_dir ++ "/" ++ page ++ ".html", text)]
      else written (snd r) = written o)
  /\ exists line, console (snd r) = console o ++ [line].
Proof.
  intros Hin; cbv zeta; unfold page_file.
  set (file := Os.join (Os.join wp_dir page) "index.html").
  assert (Hname : Os.basename (Os.dirname file) = page).
  { unfold file.
    destruct Hin as [<-|[<-|[<-|[]]]];
      apply page_name_of_page_file; solve [reflexivity | discriminate]. }
  assert (Hpath : page_output_path file hugo_content_dir
                  = hugo_content_dir ++ "/" ++ page ++ ".html")
    by (unfold page_output_path, Os.join; rewrite Hname; reflexivity).
  assert (Hmem : existsb (Py.eqb (Os.basename (Os.dirname file)))
                   static_pages = true).
  { rewrite Hname; apply existsb_exists; exists page; split; [exact Hin|].
    apply eqb_eq; reflexivity. }
  pose proof (process_static_page_cases ex file hugo_content_dir o) as C.
  cbv zeta in C.
  destruct C as [[Hno H]|[(Hc & Hn & H)|(Hc & Hn & content & Hne & H)]].
  - rewrite H, Hno; cbn [fst snd].
    split; [reflexivity|split; [reflexivity|]].
    eexists; reflexivity.
  - rewrite Hmem in Hn; discriminate Hn.
  - rewrite H, Hc, Hpath; cbn [fst snd].
    split; [reflexivity|split].
    + eexists; split; [|rewrite written_print, written_create; reflexivity].
      unfold file_text; intros E.
      apply app_eq_nil in E; destruct E as [_ E]; discriminate E.
    + eexists; reflexivity.
Qed.

(** The loop over the three pages, by its counter and its output. *)
Lemma migrate_pages_fold (ex : export) (wp_dir hugo_content_dir : str)
  (o : output) :
  let r := migrate_pages ex wp_dir hugo_content_dir o in
  fst r = length (migrated_pages ex wp_dir)
  /\ fst r <= 3
  /\ (exists new,
        written (snd r) = written o ++ new
        /\ map fst new
           = map (fun page => hugo_content_dir ++ "/" ++ page ++ ".html")
               (migrated_pages ex wp_dir))
  /\ exists lines,
       console (snd r) = console o ++ lines
       /\ length lines
          = length (filter (fun page => path_exists ex (page_file wp_dir page))
                      static_pages).
Proof.
  cbv zeta; unfold migrate_pages, migrated_pages.
  set (step := fun (st : nat * output) (page_dir : str) => _).
  set (here := fun page : str => path_exists ex (page_file wp_dir page)).
  set (keep := fun page : str =>
                 path_exists ex (page_file wp_dir page)
                 && has_container (document ex (page_file wp_dir page))).
  set (target := fun page : str => hugo_content_dir ++ "/" ++ page ++ ".html").
  assert (Hstep : forall n o0 page,
             In page static_pages ->
             let st := step (n, o0) page in
             fst st = n + (if keep page then 1 else 0)
             /\ (exists new,
                   written (snd st) = written o0 ++ new
                   /\ map fst new = if keep page then [target page] else [])
             /\ exists lines,
                  console (snd st) = console o0 ++ lines
                  /\ length lines = if here page then 1 else 0).
  { intros n o0 page Hin; cbv zeta; unfold step, keep, here.
    fold (page_file wp_dir page).
    destruct (path_exists ex (page_file wp_dir page)); cbn [andb fst snd].
    - pose proof (page_step ex wp_dir hugo_content_dir page o0 Hin) as S.
      cbv zeta in S.
      destruct (process_static_page ex (page_file wp_dir page)
                  hugo_content_dir o0) as [migrated o1].
      cbn [fst snd] in S.
      destruct S as (-> & Hw & line & Hl).
      destruct (has_container (document ex (page_file wp_dir page)));
        cbn [fst snd].
      + destruct Hw as (text & _ & Hw).
        split; [reflexivity|split].
        * eexists; split; [exact Hw|reflexivity].
        * eexists; split; [exact Hl|reflexivity].
      + split; [symmetry; apply Nat.add_0_r|split].
        * exists []; rewrite app_nil_r; auto.
        * eexists; split; [exact Hl|reflexivity].
    - split; [symmetry; apply Nat.add_0_r|split].
      + exists []; rewrite app_nil_r; auto.
      + exists []; rewrite app_nil_r; auto. }
  clearbody step.
  assert (G : forall l n o0,
             (forall page, In page l -> In page static_pages) ->
             let r := fold_left step l (n, o0) in
             fst r = n + length (filter keep l)
             /\ (exists new,
                   written (snd r) = written o0 ++ new
                   /\ map fst new = map target (filter keep l))
             /\ exists lines,
                  console (snd r) = console o0 ++ lines
                  /\ length lines = length (filter here l)).
  { induction l as [|page l IH]; intros n o0 Hl; cbv zeta.
    - cbn [fold_left filter map length fst snd].
      rewrite Nat.add_0_r.
      split; [reflexivity|split].
      + exists []; rewrite app_nil_r; auto.
      + exists []; rewrite app_nil_r; auto.
    - cbn [fold_left filter].
      specialize (Hstep n o0 page (Hl page (or_introl eq_refl))).
      cbv zeta in Hstep.
      destruct (step (n, o0) page) as [n1 o1]; cbn [fst snd] in Hstep.
      destruct Hstep as (-> & (new1 & Hw & Hnew1) & lines1 & Hc & Hlen1).
      specialize (IH (n + (if keep page then 1 else 0)) o1
                    (fun p Hp => Hl p (or_intror Hp))).
      cbv zeta in IH.
      destruct IH as (IHn & (new & IHw & IHnew) & lines & IHc & IHlen).
      rewrite IHn, IHw, Hw, IHc, Hc, <- !app_assoc.
      split; [|split].
      + destruct (keep page); cbn [length]; lia.
      + exists (new1 ++ new); split; [reflexivity|].
        rewrite map_app, Hnew1, IHnew.
        destruct (keep page); reflexivity.
      + exists (lines1 ++ lines); split; [reflexivity|].
        rewrite length_app, Hlen1, IHlen.
        destruct (here page); reflexivity. }
  specialize (G static_pages 0 o (fun _ H => H)); cbv zeta in G.
  destruct G as (Gn & Gw & Gl).
  split; [exact Gn|split; [|split; [exact Gw|exact Gl]]].
  rewrite Gn; exact (length_filter_le _ keep static_pages).
Qed.

End PageLoop.

(** ** The driver as a whole *)

Section Main.
Context {dt : Datetime} {u : Unicode}.




End Main.


(** ** What the loops write *)

Lemma nodup_map_injective (A B : Type) (f : A -> B) (l : list A) :
  (forall x y, f x = f y -> x = y) -> NoDup l -> NoDup (map f l).
Proof.
  intros Hf; induction 1 as [|x l Hx _ IH]; cbn [map]; constructor;
    [|exact IH].
  intros Hin; apply in_map_iff in Hin; destruct Hin as (y & E & Hy).
  apply Hf in E; subst y; contradiction.
Qed.

Lemma nodup_static_pages : NoDup static_pages.
Proof.
  unfold static_pages; repeat constructor; cbn [In];
    intuition discriminate.
Qed.

Section Written.
Context {dt : Datetime} {u : Unicode}.

(** Property X11.  The loop over the scan keeps what was written before
    it, and adds as many files as it counts, at most one for each post
    candidate.  Each file added is that of a candidate of the scan whose
    content is not empty; it is below [hugo_content_dir/posts/] and has the
    name [slug.html]. *)
Theorem migrate_posts_files (ex : export) (hugo_content_dir : str)
  (o : output) :
  let r := migrate_posts ex hugo_content_dir o in
  exists new,
    written (snd r) = written o ++ new
    /\ length new = fst r
    /\ fst r <= length (filter post_candidate (glob_index_html ex))
    /\ Forall
         (fun file =>
            exists html_file,
              In html_file (glob_index_html ex)
              /\ post_candidate html_file = true
              /\ file = post_file ex hugo_content_dir html_file
              /\ Py.startswith (hugo_content_dir ++ "/posts/") (fst file)
                 = true
              /\ Os.basename (fst file)
                 = clean_slug (Py.split "/" html_file) ++ ".html"
              /\ fst (extract_post_content (document ex html_file)) <> [])
         new.
Proof.
  cbv zeta.
  pose proof (migrate_posts_fold ex hugo_content_dir o) as P; cbv zeta in P.
  destruct P as (Pn & Pw & lines & _ & Pa & Pb).
  exists (map (post_file ex hugo_content_dir) (migrated_posts ex)).
  split; [exact Pw|].
  split; [rewrite length_map; symmetry; exact Pn|].
  split; [lia|].
  apply Forall_forall; intros file Hfile.
  apply in_map_iff in Hfile; destruct Hfile as (html_file & <- & Hin).
  unfold migrated_posts in Hin; apply filter_In in Hin.
  destruct Hin as [Hin Hkeep]; apply andb_true_iff in Hkeep.
  destruct Hkeep as [Hcand Hpost].
  exists html_file.
  split; [exact Hin|split; [exact Hcand|split; [reflexivity|]]].
  assert (Hslug : no_slash (clean_slug (Py.split "/" html_file)) = true)
    by apply clean_slug_no_slash, split_segments.
  pose proof (post_output_path_shape html_file hugo_content_dir
                (clean_slug (Py.split "/" html_file)) Hslug) as Hshape.
  cbv zeta in Hshape; destruct Hshape as [Hstart Hbase].
  split; [exact Hstart|split; [exact Hbase|]].
  unfold has_post in Hpost; apply andb_true_iff in Hpost.
  destruct Hpost as [_ Hne]; apply negb_true_iff in Hne.
  intros E; rewrite E in Hne; discriminate Hne.
Qed.

(** Property X12.  The loop over the three pages keeps what was written
    before it, and adds as many files as it counts, three at most.  The
    paths added are all different, and they are the [hugo_content_dir/page.html]
    of the pages whose index file exists and holds a container. *)
Theorem migrate_pages_files (ex : export) (wp_dir hugo_content_dir : str)
  (o : output) :
  let r := migrate_pages ex wp_dir hugo_content_dir o in
  exists new,
    written (snd r) = written o ++ new
    /\ length new = fst r
    /\ fst r <= 3
    /\ NoDup (map fst new)
    /\ (forall path,
          In path (map fst new) <->
          exists page,
            In page static_pages
            /\ path = hugo_content_dir ++ "/" ++ page ++ ".html"
            /\ path_exists ex (page_file wp_dir page) = true
            /\ has_container (document ex (page_file wp_dir page)) = true).
Proof.
  cbv zeta.
  pose proof (migrate_pages_fold ex wp_dir hugo_content_dir o) as Q.
  cbv zeta in Q.
  destruct Q as (Qn & Qle & (new & Qw & Qnew) & _).
  exists new.
  split; [exact Qw|].
  split; [rewrite <- (length_map fst new), Qnew, length_map; symmetry;
          exact Qn|].
  split; [exact Qle|].
  rewrite Qnew; split.
  - apply nodup_map_injective.
    + intros x y E.
      apply app_inv_head in E; apply app_inv_head in E.
      apply app_inv_tail in E; exact E.
    + apply NoDup_filter, nodup_static_pages.
  - intros path; rewrite in_map_iff; unfold migrated_pages; split.
    + intros (page & <- & Hin); apply filter_In in Hin.
      destruct Hin as [Hin Hkeep]; apply andb_true_iff in Hkeep.
      destruct Hkeep as [Hhere Hcont]; exists page; auto.
    + intros (page & Hin & -> & Hhere & Hcont); exists page.
      split; [reflexivity|].
      apply filter_In; split; [exact Hin|].
      rewrite Hhere, Hcont; reflexivity.
Qed.

End Written.

(** ** The names of the categories and the tags *)

Lemma replace_hyphens (s : str) : no_hyphen (Py.replace "-" " " s) = true.
Proof.
  unfold Py.replace; induction s as [|c s IH]; [reflexivity|].
  cbn [Py.replace_from Py.startswith length Nat.sub].
  rewrite andb_true_r.
  destruct (Ascii.eqb "-" c) eqn:E.
  - cbn [app no_hyphen forallb]; exact IH.
  - cbn [no_hyphen forallb]; rewrite Ascii.eqb_sym, E; exact IH.
Qed.

Lemma case_keeps_hyphens (c : ascii) :
  Ascii.eqb (Py.upper c) "-" = Ascii.eqb c "-"
  /\ Ascii.eqb (Py.lower c) "-" = Ascii.eqb c "-".
Proof. destruct c as [[] [] [] [] [] [] [] []]; split; reflexivity. Qed.

Lemma case_twice (c : ascii) :
  Py.upper (Py.upper c) = Py.upper c
  /\ Py.lower (Py.lower c) = Py.lower c
  /\ Py.iscased (Py.upper c) = Py.iscased c
  /\ Py.iscased (Py.lower c) = Py.iscased c.
Proof. destruct c as [[] [] [] [] [] [] [] []]; repeat split. Qed.

Lemma title_from_hyphens (s : str) (b : bool) :
  no_hyphen (Py.title_from b s) = no_hyphen s.
Proof.
  revert b; induction s as [|c s IH]; intros b; [reflexivity|].
  cbn [Py.title_from no_hyphen forallb].
  destruct (case_keeps_hyphens c) as [Hu Hl].
  fold (no_hyphen (Py.title_from (Py.iscased c) s)); fold (no_hyphen s).
  rewrite IH; destruct b; [rewrite Hl | rewrite Hu]; reflexivity.
Qed.

Lemma title_from_twice (s : str) (b : bool) :
  Py.title_from b (Py.title_from b s) = Py.title_from b s.
Proof.
  revert b; induction s as [|c s IH]; intros b; [reflexivity|].
  cbn [Py.title_from].
  destruct (case_twice c) as (Hu & Hl & Hcu & Hcl).
  destruct b; [rewrite Hl, Hcl | rewrite Hu, Hcu]; rewrite IH; reflexivity.
Qed.

Lemma case_ascii (c : ascii) :
  (nat_of_ascii c <? 128) = true ->
  (nat_of_ascii (Py.upper c) <? 128) = true
  /\ (nat_of_ascii (Py.lower c) <? 128) = true.
Proof.
  destruct c as [[] [] [] [] [] [] [] []]; intros H; split;
    solve [reflexivity | discriminate H].
Qed.

Lemma title_from_ascii (s : str) (b : bool) :
  Py.isascii s = true -> Py.isascii (Py.title_from b s) = true.
Proof.
  revert b; induction s as [|c s IH]; intros b H; [reflexivity|].
  cbn [Py.isascii forallb] in H; apply andb_true_iff in H.
  destruct H as [Hc Hs]; destruct (case_ascii c Hc) as [Hu Hl].
  cbn [Py.title_from Py.isascii forallb].
  apply andb_true_iff; split; [destruct b; assumption|].
  apply IH; exact Hs.
Qed.

Lemma replace_ascii (old new s : str) :
  Py.isascii new = true -> Py.isascii s = true ->
  Py.isascii (Py.replace old new s) = true.
Proof. intros Hnew Hs; apply replace_from_forallb; assumption. Qed.

(** The name made from an ASCII text. *)
Lemma name_shape {u : Unicode} (s : str) :
  Py.isascii s = true ->
  let name := Py.title (Py.replace "-" " " s) in
  no_hyphen name = true /\ Py.title name = name.
Proof.
  intros Hs; cbv zeta.
  assert (Hr : Py.isascii (Py.replace "-" " " s) = true)
    by (apply replace_ascii; [reflexivity | exact Hs]).
  unfold Py.title at 1 3 4; rewrite Hr.
  unfold Py.title; rewrite (title_from_ascii _ false Hr).
  split.
  - rewrite title_from_hyphens; apply replace_hyphens.
  - apply title_from_twice.
Qed.

Lemma if_nonempty_some (l names : list str) :
  if_nonempty l = Some names -> names = l /\ l <> [].
Proof.
  destruct l; [discriminate|].
  intros H; inversion H; split; [reflexivity|discriminate].
Qed.

Section Names.
Context {dt : Datetime} {u : Unicode}.

(** Property X13.  The lists of categories and of tags are never present
    and empty; when the classes of the [article] are ASCII texts, every
    name in them is free of hyphens and in title case; and a document
    without an [article] has neither list. *)
Theorem taxonomy_names (soup : Bs4.soup) (file_path : str) :
  let m := extract_post_metadata soup file_path in
  categories m <> Some [] /\ tags m <> Some []
  /\ (forall article_elem names name,
        Bs4.find (Bs4.is_tag "article") soup = Some article_elem ->
        forallb Py.isascii (Bs4.get_class article_elem) = true ->
        categories m = Some names \/ tags m = Some names ->
        In name names ->
        no_hyphen name = true /\ Py.title name = name)
  /\ (Bs4.find (Bs4.is_tag "article") soup = None ->
      categories m = None /\ tags m = None).
Proof.
  cbv zeta.
  destruct (Bs4.find (Bs4.is_tag "article") soup) as [article_elem|] eqn:Hfind.
  - set (classes := Bs4.get_class article_elem).
    assert (Hc : categories (extract_post_metadata soup file_path)
                 = if_nonempty (map category_name (filter is_category classes))).
    { unfold extract_post_metadata; cbn [categories].
      rewrite Hfind; fold classes.
      rewrite classify_fold; reflexivity. }
    assert (Ht : tags (extract_post_metadata soup file_path)
                 = if_nonempty
                     (map tag_name (filter is_tag_class_name classes))).
    { unfold extract_post_metadata; cbn [tags].
      rewrite Hfind; fold classes.
      rewrite classify_fold; reflexivity. }
    rewrite Hc, Ht.
    split; [intros E; apply if_nonempty_some in E; destruct E as [E1 E2];
            apply E2; symmetry; exact E1|].
    split; [intros E; apply if_nonempty_some in E; destruct E as [E1 E2];
            apply E2; symmetry; exact E1|].
    split; [|discriminate].
    intros article_elem' names name Ha Hascii HE Hin.
    inversion Ha; subst article_elem'; fold classes in Hascii.
    rewrite forallb_forall in Hascii.
    destruct HE as [E|E]; apply if_nonempty_some in E;
      destruct E as [-> _]; apply in_map_iff in Hin;
      destruct Hin as (cls & <- & Hcls); apply filter_In in Hcls;
      destruct Hcls as [Hcls _]; apply name_shape;
      (apply replace_ascii; [reflexivity | exact (Hascii cls Hcls)]).
  - unfold extract_post_metadata; cbn [categories tags]; rewrite Hfind.
    cbn [fst snd].
    split; [discriminate|split; [discriminate|]].
    split; [|auto].
    intros article_elem names name Ha; discriminate Ha.
Qed.

End Names.

(** ** The lines of the file *)

Lemma no_newline_join (sep : str) (l : list str) :
  no_newline sep = true -> forallb no_newline l = true ->
  no_newline (Py.join sep l) = true.
Proof.
  intros Hsep; induction l as [|x l IH]; [reflexivity|].
  cbn [forallb]; intros H; apply andb_true_iff in H; destruct H as [Hx Hl].
  destruct l as [|y l]; [exact Hx|].
  rewrite join_cons by discriminate.
  rewrite !no_newline_app, Hx, Hsep, (IH Hl); reflexivity.
Qed.

Lemma no_newline_names (key : str) (l : list str) :
  no_newline key = true -> forallb no_newline l = true ->
  no_newline (key ++ Py.join ", " (map quote_item l) ++ "]") = true.
Proof.
  intros Hkey Hl.
  rewrite !no_newline_app, Hkey, no_newline_join; [reflexivity|reflexivity|].
  rewrite forallb_forall in *; intros x Hx.
  apply in_map_iff in Hx; destruct Hx as (y & <- & Hy).
  unfold quote_item; rewrite !no_newline_app, (Hl y Hy); reflexivity.
Qed.

(** The lines of a text made by joining lines that hold no line feed. *)
Lemma split_join_lines (lines : list str) (rest : str) :
  lines <> [] -> forallb no_newline lines = true ->
  Py.split newline (Py.join [newline] lines ++ newline :: rest)
  = lines ++ Py.split newline rest.
Proof.
  induction lines as [|x l IH]; intros Hne H; [contradiction Hne; reflexivity|].
  cbn [forallb] in H; apply andb_true_iff in H; destruct H as [Hx Hl].
  destruct l as [|y l].
  - cbn [Py.join app]; apply split_line; exact Hx.
  - rewrite join_cons by discriminate.
    rewrite <- !app_assoc; cbn [app].
    rewrite split_line by exact Hx.
    rewrite IH by (try discriminate; exact Hl); reflexivity.
Qed.

(** The lines of the front matter between the two delimiters. *)
Lemma front_matter_fields (m : metadata) :
  exists fields,
    front_matter m = ["+++"] ++ fields ++ ["+++"]
    /\ 4 <= length fields <= 6
    /\ (single_line m = true -> forallb no_newline fields = true)
    /\ Forall (fun line => exists key,
                 In key ["title"; "date"; "slug"; "categories"; "tags"; "type"]
                 /\ Py.startswith (key ++ " = ") line = true) fields.
Proof.
  exists (["title = " ++ [dquote] ++ escape_quotes (title m) ++ [dquote];
           "date = " ++ [dquote] ++ date m ++ [dquote];
           "slug = " ++ [dquote] ++ slug m ++ [dquote]]
          ++ match categories m with
             | Some cats =>
                 ["categories = [" ++ Py.join ", " (map quote_item cats) ++ "]"]
             | None => []
             end
          ++ match tags m with
             | Some tgs =>
                 ["tags = [" ++ Py.join ", " (map quote_item tgs) ++ "]"]
             | None => []
             end
          ++ [type_post]).
  unfold front_matter, single_line.
  split; [destruct (categories m), (tags m); reflexivity|].
  split; [destruct (categories m), (tags m); cbn [app length]; lia|].
  split.
  - intros H.
    repeat match goal with
           | H : _ && _ = true |- _ => apply andb_true_iff in H; destruct H
           end.
    rewrite !forallb_app; cbn [forallb].
    rewrite !no_newline_app, no_newline_escape by assumption.
    repeat match goal with
           | H : no_newline _ = true |- _ => rewrite H; clear H
           end.
    cbn [andb].
    destruct (categories m) as [cats|], (tags m) as [tgs|];
      cbn [names_single_line forallb] in *;
      rewrite ?no_newline_names by (assumption || reflexivity); reflexivity.
  - apply Forall_app; split; [|apply Forall_app; split;
                               [|apply Forall_app; split]].
    + repeat constructor.
      * exists "title"; split; [cbn [In]; tauto|].
        exact (startswith_app "title = " _).
      * exists "date"; split; [cbn [In]; tauto|].
        exact (startswith_app "date = " _).
      * exists "slug"; split; [cbn [In]; tauto|].
        exact (startswith_app "slug = " _).
    + destruct (categories m); repeat constructor.
      exists "categories"; split; [cbn [In]; tauto|].
      exact (startswith_app "categories = " _).
    + destruct (tags m); repeat constructor.
      exists "tags"; split; [cbn [In]; tauto|].
      exact (startswith_app "tags = " _).
    + repeat constructor.
      exists "type"; split; [cbn [In]; tauto|reflexivity].
Qed.

(** Property X14.  When no value of the dictionary holds a line feed, the
    lines of the file are the opening [+++], between four and six lines
    none of which is [+++] or empty, the closing [+++], an empty line, and
    the lines of the content; joining the lines after that empty line
    gives the content back. *)
Theorem file_lines (m : metadata) (content : str) :
  single_line m = true ->
  exists fields,
    Py.split newline (file_text m content)
    = ["+++"] ++ fields ++ ["+++"; []] ++ Py.split newline content
    /\ 4 <= length fields <= 6
    /\ Forall (fun line => line <> "+++" /\ line <> []) fields
    /\ Py.join [newline]
         (skipn (length fields + 3) (Py.split newline (file_text m content)))
       = content.
Proof.
  intros Hm.
  destruct (front_matter_fields m) as (fields & Hfm & Hlen & Hnl & Hkeys).
  specialize (Hnl Hm).
  exists fields.
  assert (Hsplit : Py.split newline (file_text m content)
                   = ["+++"] ++ fields ++ ["+++"; []]
                     ++ Py.split newline content).
  { unfold file_text; rewrite Hfm.
    change ([newline; newline] ++ content)
      with (newline :: ([] ++ newline :: content)).
    rewrite split_join_lines.
    - rewrite (split_line [] content eq_refl).
      rewrite <- !app_assoc; reflexivity.
    - discriminate.
    - rewrite !forallb_app.
      apply andb_true_iff; split; [reflexivity|].
      apply andb_true_iff; split; [exact Hnl|reflexivity]. }
  split; [exact Hsplit|split; [exact Hlen|split]].
  - apply Forall_forall; intros line Hin.
    rewrite Forall_forall in Hkeys.
    destruct (Hkeys line Hin) as (key & Hkey & Hstart).
    cbn [In] in Hkey.
    split; intros ->;
      destruct Hkey as [<-|[<-|[<-|[<-|[<-|[<-|[]]]]]]]; discriminate Hstart.
  - rewrite Hsplit.
    replace (["+++"] ++ fields ++ ["+++"; []] ++ Py.split newline content)
      with ((["+++"] ++ fields ++ ["+++"; []]) ++ Py.split newline content)
      by (rewrite <- !app_assoc; reflexivity).
    replace (length fields + 3) with (length (["+++"] ++ fields ++ ["+++"; []]))
      by (rewrite !length_app; cbn [length]; lia).
    rewrite skipn_length_app; apply join_split.
Qed.

(** The lines of the file of the sample post. *)
Lemma file_lines_witness :
  let m := extract_post_metadata Sample.post "export/2012/03/my-post/index.html" in
  let content := "<p>Hello</p>" ++ [newline] ++ "<p>Bye</p>" in
  single_line m = true
  /\ length (Py.split newline (file_text m content)) = 11
  /\ exists fields,
       Py.split newline (file_text m content)
       = ["+++"] ++ fields ++ ["+++"; []] ++ Py.split newline content
       /\ 4 <= length fields <= 6
       /\ Forall (fun line => line <> "+++" /\ line <> []) fields
       /\ Py.join [newline]
            (skipn (length fields + 3)
               (Py.split newline (file_text m content)))
          = content.
Proof.
  cbv zeta; split; [reflexivity|split; [reflexivity|]].
  exact (file_lines
           (extract_post_metadata Sample.post
              "export/2012/03/my-post/index.html")
           ("<p>Hello</p>" ++ [newline] ++ "<p>Bye</p>") eq_refl).
Defined.

(** ** The [site-content] container *)

Lemma find_none_nth (p : Bs4.node -> bool) (l : list Bs4.node) (i : nat)
  (n : Bs4.node) :
  Bs4.find p l = None -> nth_error l i = Some n -> Bs4.find_node p n = None.
Proof.
  revert i; induction l as [|k l IH]; intros [|i]; cbn [Bs4.find nth_error];
    try discriminate.
  - destruct (Bs4.find_node p k) eqn:Ek; [discriminate|].
    intros _ H; inversion H; subst; exact Ek.
  - destruct (Bs4.find_node p k); [discriminate|]; apply IH.
Qed.

(** Where nothing satisfies [p], nothing does below any node of the tree. *)
Lemma find_none_below (p : Bs4.node -> bool) (pl : Bs4.place)
  (l : list Bs4.node) (e : Bs4.node) :
  Bs4.find p l = None -> Bs4.at_place l pl = Some e ->
  Bs4.find p (Bs4.children e) = None.
Proof.
  revert l; induction pl as [|i pl IH]; intros l Hnone; cbn [Bs4.at_place];
    [discriminate|].
  destruct (nth_error l i) as [n|] eqn:En; [|discriminate].
  destruct (find_node_none p n (find_none_nth p l i n Hnone En)) as [_ Hkids].
  destruct pl as [|j pl].
  - intros H; inversion H; subst; exact Hkids.
  - apply IH; exact Hkids.
Qed.

Lemma contains_refl (p : str) : Py.contains p p = true.
Proof.
  destruct p as [|c p]; [reflexivity|].
  cbn [Py.contains]; rewrite startswith_refl; reflexivity.
Qed.

Lemma site_content_class (e : Bs4.node) :
  Bs4.is_tag_class "div" "site-content" e = true ->
  site_content_in (Bs4.get_class e) = true.
Proof.
  unfold Bs4.is_tag_class; intros H; apply andb_true_iff in H.
  destruct H as [_ H]; apply existsb_exists in H.
  destruct H as (cls & Hin & E); apply eqb_eq in E; subst cls.
  apply existsb_exists; exists "site-content"; split; [exact Hin|].
  apply contains_refl.
Qed.

Section SiteContent.
Context {dt : Datetime} {u : Unicode}.

(** Property X15.  A page found through its [site-content] element (the
    document holds no content element and no [main]) enters the search for
    an inner container, which finds nothing: the page is written with the
    whole markup of the [site-content] element. *)
Theorem site_content_fallback (ex : export)
  (html_file hugo_content_dir : str) (o : output) (e : Bs4.node) :
  let soup := document ex html_file in
  Bs4.find (Bs4.is_tag_class "div" "entry-content") soup = None ->
  Bs4.find (Bs4.is_tag "main") soup = None ->
  Bs4.find (Bs4.is_tag_class "div" "site-content") soup = Some e ->
  let r := process_static_page ex html_file hugo_content_dir o in
  site_content_in (Bs4.get_class e) = true
  /\ Bs4.find (Bs4.is_tag_class "div" "entry-content") (Bs4.children e) = None
  /\ Bs4.find (Bs4.is_tag "main") (Bs4.children e) = None
  /\ (fst r = true ->
      written (snd r)
      = written o
        ++ [(page_output_path html_file hugo_content_dir,
             file_text (set_type "page" (extract_post_metadata soup html_file))
               (Bs4.to_html e))]).
Proof.
  cbv zeta; set (soup := document ex html_file); intros Hdiv Hmain Hsite.
  destruct (find_place_find _ _ _ Hsite) as (pl & Hplace & Hat).
  pose proof (find_none_below _ pl soup e Hdiv Hat) as Hin1.
  pose proof (find_none_below _ pl soup e Hmain Hat) as Hin2.
  pose proof (site_content_class e (find_sat _ _ _ Hsite)) as Hclass.
  split; [exact Hclass|split; [exact Hin1|split; [exact Hin2|]]].
  unfold process_static_page; fold soup.
  rewrite (find_place_none _ _ Hdiv), (find_place_none _ _ Hmain), Hplace.
  cbn [or_else].
  unfold extract_post_content; rewrite Hdiv, Hat.
  cbn [Bs4.is_nil]; rewrite Hclass, Hin1, Hin2; cbn [or_else].
  destruct (existsb (Py.eqb (Os.basename (Os.dirname html_file)))
              static_pages); cbn [fst snd]; [|discriminate].
  intros _; rewrite written_print, written_create; reflexivity.
Qed.

End SiteContent.

Lemma site_content_fallback_witness :
  let html_file := "export/about/index.html" in
  let ex := Sample.one_file html_file Site.about_site_content in
  let r := process_static_page ex html_file "hugo/content" Sample.no_output in
  fst r = true
  /\ exists m,
       written (snd r)
       = [("hugo/content/about.html",
           file_text m
             ("<div class=" ++ [dquote] ++ "site-content wide" ++ [dquote]
              ++ "><p>About me</p></div>"))].
Proof.
  cbv zeta.
  destruct (site_content_fallback
              (Sample.one_file "export/about/index.html"
                 Site.about_site_content)
              "export/about/index.html" "hugo/content" Sample.no_output
              (Bs4.Elem "div" [Sample.class_ ["site-content"; "wide"]]
                 [Bs4.Elem "p" [] [Bs4.Text "About me"]])
              eq_refl eq_refl eq_refl) as (_ & _ & _ & H).
  split; [reflexivity|].
  eexists; rewrite (H eq_refl); reflexivity.
Defined.
